(** * indra_cogex: statement retrieval for enrichment results

    A shallow embedding of [src/indra_cogex/apps/search/search.py]: the three
    retrieval functions [get_ora_statements], [get_signed_statements] and
    [get_metabolite_statements], and the three endpoints that parse the
    request and call them.

    Conventions.
    - Python [int] is [Z]; Python [float] and Neo4j doubles are the kernel's
      binary64 floats ([PrimFloat.float]), compared with [PrimFloat.ltb].
    - Python [str] is [string]; [str.split(':')] and [str.lower()] are
      written out below.
    - A graph property that may be absent ([null] in Cypher, a missing key
      for [dict.get]) is an [option].
    - The Neo4j client is a record holding the edges of the graph; every call
      to [query_tx] or to the evidence store is appended to a log that is
      threaded through the computation, and an uncaught Python exception is
      the [Raise] outcome. *)

From Stdlib Require Import ZArith List Ascii String Floats Lia Bool.
From stdpp Require Import base option list gmap strings.

#[local] Set Warnings "-clear-no-such-hyp".
Local Open Scope string_scope.
Local Open Scope Z_scope.

(** ** Python strings *)

Module PyStr.

(** [c.lower()] on an ASCII letter; other bytes are left as they are, which
    agrees with Python wherever the result is compared with an ASCII
    literal. *)
Definition lower_ascii (c : ascii) : ascii :=
  let n := nat_of_ascii c in
  if (Nat.leb 65 n && Nat.leb n 90)%bool then ascii_of_nat (n + 32) else c.

(** [s.lower()] *)
Fixpoint lower (s : string) : string :=
  match s with
  | EmptyString => EmptyString
  | String c s' => String (lower_ascii c) (lower s')
  end.

(** [s.split(sep)] for a one-character separator: never empty, one more
    part than there are separators. *)
Fixpoint split (sep : ascii) (s : string) : list string :=
  match s with
  | EmptyString => [EmptyString]
  | String c s' =>
      if Ascii.eqb c sep then EmptyString :: split sep s'
      else match split sep s' with
           | p :: ps => String c p :: ps
           | [] => [String c EmptyString]
           end
  end.

(** [sep in s] *)
Fixpoint contains (sep : ascii) (s : string) : bool :=
  match s with
  | EmptyString => false
  | String c s' => Ascii.eqb c sep || contains sep s'
  end.

(** [s.startswith(p)] *)
Fixpoint startswith (p s : string) : bool :=
  match p, s with
  | EmptyString, _ => true
  | String a p', String b s' => Ascii.eqb a b && startswith p' s'
  | String _ _, EmptyString => false
  end.

(** [not s] for a string: the empty string is falsy. *)
Definition falsy (s : string) : bool :=
  match s with EmptyString => true | _ => false end.

End PyStr.

Definition colon : ascii := ":"%char.

(** ** Exceptions and outcomes *)

Inductive exn : Type :=
| IndexError
| ValueError.

(** [str(e)] *)
Definition exn_message (e : exn) : string :=
  match e with
  | IndexError => "list index out of range"
  | ValueError => "invalid literal"
  end.

Inductive outcome (A : Type) : Type :=
| Ok (a : A)
| Raise (e : exn).
Arguments Ok {A} a.
Arguments Raise {A} e.

(** [l[i]] on a Python list. *)
Definition py_index {A : Type} (l : list A) (i : nat) : outcome A :=
  match l !! i with
  | Some x => Ok x
  | None => Raise IndexError
  end.

(** ** The graph: nodes, relations, statements *)

(** A [BioEntity] node: every node of the modelled graph carries that label. *)
Record Node : Type := mkNode {
  node_id : string;
  obsolete : bool
}.

(** Nodes of the graph are identified by their [id]. *)
Definition node_eqb (a b : Node) : bool := String.eqb (node_id a) (node_id b).

(** One edge of the graph, and the [Relation] that
    [client.neo4j_to_relation] makes of a path over it: its two end nodes,
    its type and its data.  The statement hash is the key of the statement
    the edge belongs to (section 3 of the specification); belief, evidence
    count and statement type are properties of [indra_rel] edges and may be
    absent on other edges. *)
Record Relation : Type := mkRelation {
  source : Node;
  target : Node;
  rel_type : string;
  stmt_hash : Z;
  belief : option float;
  evidence_count : option Z;
  stmt_type : option string
}.

(** [rel.data.get("evidence_count", 0)] *)
Definition get_evidence_count (r : Relation) : Z := default 0 (evidence_count r).

(** An evidence of the evidence store, by its text reference. *)
Definition Evidence : Type := string.

(** An INDRA statement, as far as the retrieval looks at it: its hash, the
    relation it was made from, and its evidence. *)
Record Statement : Type := mkStatement {
  get_hash : Z;
  seed : Relation;
  evidence : list Evidence
}.

(** ** Cypher comparisons: a comparison with [null] is not true *)

(** [x > $y] on doubles *)
Definition cy_gt (x : option float) (y : float) : bool :=
  match x with
  | Some b => PrimFloat.ltb y b
  | None => false
  end.

(** [x >= $y] on integers; the parameter may itself be [null] *)
Definition cy_ge (x : option Z) (y : option Z) : bool :=
  match x, y with
  | Some e, Some m => m <=? e
  | _, _ => false
  end.

(** [x IN $l] on strings *)
Definition cy_in (x : option string) (l : list string) : bool :=
  match x with
  | Some s => existsb (String.eqb s) l
  | None => false
  end.

Definition str_in (s : string) (l : list string) : bool := existsb (String.eqb s) l.

(** ** The client and the effects of a call *)

(** The read-only graph store behind [client.query_tx], and the evidence
    store behind [enrich_statements]. *)
Record Neo4jClient : Type := mkClient {
  edges : list Relation;
  evidences : Z → list Evidence
}.

(** The parameters of the three parameterised queries. *)
Record OraParams : Type := mkOraParams {
  op_target_id : string;
  op_genes : list string;
  op_rel_types : list string;
  op_minimum_belief : float
}.

Record SignedParams : Type := mkSignedParams {
  sp_target_id : string;
  sp_gene_list : list string;
  sp_rel_types : list string;
  sp_minimum_belief : float;
  sp_minimum_evidence : option Z;
  stmt_types_gene_to_target : list string;
  stmt_types_target_to_gene : list string
}.

Record MetaboliteParams : Type := mkMetaboliteParams {
  mp_target_id : string;
  mp_metabolite_list : list string;
  mp_minimum_belief : float;
  mp_minimum_evidence : option Z
}.

(** One round trip to a store: a query with its parameters, or the fetch of
    the evidence of a list of statement hashes. *)
Inductive call : Type :=
| OraQuery (is_downstream : bool) (params : OraParams)
| SignedQuery (params : SignedParams)
| DiscoveryQuery (metabolite_list : list string)
| MetaboliteQuery (params : MetaboliteParams)
| EnrichQuery (hashes : list Z).

(** A computation that may raise and that logs its store calls. *)
Definition M (A : Type) : Type := list call → outcome A * list call.

Definition ret {A : Type} (a : A) : M A := λ log, (Ok a, log).
Definition raise {A : Type} (e : exn) : M A := λ log, (Raise e, log).
Definition bind {A B : Type} (m : M A) (k : A → M B) : M B :=
  λ log, match m log with
         | (Ok a, log') => k a log'
         | (Raise e, log') => (Raise e, log')
         end.
Definition tell (c : call) : M unit := λ log, (Ok tt, (log ++ [c])%list).
Definition lift {A : Type} (o : outcome A) : M A := λ log, (o, log).

(** [try: m except Exception as e: h e] *)
Definition catch {A : Type} (m : M A) (h : exn → M A) : M A :=
  λ log, match m log with
         | (Ok a, log') => (Ok a, log')
         | (Raise e, log') => h e log'
         end.

(** A run from an empty log. *)
Definition run {A : Type} (m : M A) : outcome A * list call := m [].

Notation "x '<-' m ';;' k" := (bind m (λ x, k))
  (at level 100, m at next level, right associativity).
Notation "m ';;;' k" := (bind m (λ _, k))
  (at level 100, right associativity).

Definition obind {A B : Type} (o : outcome A) (k : A → outcome B) : outcome B :=
  match o with
  | Ok a => k a
  | Raise e => Raise e
  end.

(** A list comprehension [[f x for x in l]] whose body may raise: the first
    failing element aborts the whole comprehension. *)
Fixpoint comprehension {A B : Type} (f : A → outcome B) (l : list A) : outcome (list B) :=
  match l with
  | [] => Ok []
  | x :: xs => obind (f x) (λ y, obind (comprehension f xs) (λ ys, Ok (y :: ys)))
  end.

(** ** The Cypher queries *)

(** The rows of an undirected pattern [(a)-[r]-(b)]: an edge is tried in both
    orientations, a self-loop in one. *)
Definition orientations (r : Relation) : list (Node * Node) :=
  if node_eqb (source r) (target r) then [(source r, target r)]
  else [(source r, target r); (target r, source r)].

Definition match_undirected (w : Relation → Node → Node → bool)
    (es : list Relation) : list Relation :=
  List.flat_map
    (λ r, List.map (λ _, r) (List.filter (λ ab, w r ab.1 ab.2) (orientations r))) es.

(** [WITH distinct r.stmt_hash AS hash, collect(p) as pp RETURN pp]:
    the matched paths grouped by statement hash, groups in the order their
    hash is first met and paths in the order they were matched. *)
Fixpoint collect_into (r : Relation) (groups : list (Z * list Relation))
    : list (Z * list Relation) :=
  match groups with
  | [] => [(stmt_hash r, [r])]
  | (h, pp) :: rest =>
      if Z.eqb h (stmt_hash r) then (h, (pp ++ [r])%list) :: rest
      else (h, pp) :: collect_into r rest
  end.

Definition collect_by_hash (paths : list Relation) : list (list Relation) :=
  List.map snd (fold_left (λ groups r, collect_into r groups) paths []).

(** The WHERE clause of the two queries of [get_ora_statements]; [d] is the
    node bound to the target and [u] the node bound to a gene. *)
Definition ora_where (target_id : string) (genes rel_types : list string)
    (minimum_belief : float) (r : Relation) (d u : Node) : bool :=
  String.eqb (node_id d) target_id
  && str_in (rel_type r) rel_types
  && PyStr.startswith "hgnc" (node_id u)
  && negb (obsolete u)
  && str_in (node_id u) genes
  && (negb (String.eqb (rel_type r) "indra_rel") || cy_gt (belief r) minimum_belief).

(** [MATCH p = (d:BioEntity {id: $target_id})-[r]->(u:BioEntity)], or
    [MATCH p = (u:BioEntity)-[r]->(d:BioEntity {id: $target_id})] when
    [is_downstream]. *)
Definition ora_matches (is_downstream : bool) (target_id : string)
    (genes rel_types : list string) (minimum_belief : float) (r : Relation) : bool :=
  if is_downstream
  then ora_where target_id genes rel_types minimum_belief r (target r) (source r)
  else ora_where target_id genes rel_types minimum_belief r (source r) (target r).

Definition ora_query_tx (client : Neo4jClient) (is_downstream : bool) (p : OraParams)
    : M (list (list (list Relation))) :=
  tell (OraQuery is_downstream p) ;;;
  ret (List.map (λ pp, [pp])
         (collect_by_hash
            (List.filter
               (ora_matches is_downstream (op_target_id p) (op_genes p)
                  (op_rel_types p) (op_minimum_belief p))
               (edges client)))).

(** The WHERE clause of the query of [get_signed_statements]. *)
Definition signed_where (p : SignedParams) (r : Relation) (gene tgt : Node) : bool :=
  String.eqb (node_id tgt) (sp_target_id p)
  && str_in (rel_type r) (sp_rel_types p)
  && str_in (node_id gene) (sp_gene_list p)
  && cy_gt (belief r) (sp_minimum_belief p)
  && cy_ge (evidence_count r) (sp_minimum_evidence p)
  && negb (obsolete gene)
  && ((node_eqb (source r) gene && cy_in (stmt_type r) (stmt_types_gene_to_target p))
      || (node_eqb (source r) tgt && cy_in (stmt_type r) (stmt_types_target_to_gene p))).

Definition signed_rows (client : Neo4jClient) (p : SignedParams) : list Relation :=
  match_undirected (signed_where p) (edges client).

Definition signed_query_tx (client : Neo4jClient) (p : SignedParams)
    : M (list (list Relation)) :=
  tell (SignedQuery p) ;;;
  ret (List.map (λ path, [path]) (signed_rows client p)).

(** The WHERE clause of the main query of [get_metabolite_statements], on
    the pattern [(met:BioEntity)-[r:indra_rel]-(target:BioEntity)]. *)
Definition metabolite_where (p : MetaboliteParams) (r : Relation) (met tgt : Node) : bool :=
  String.eqb (rel_type r) "indra_rel"
  && String.eqb (node_id tgt) (mp_target_id p)
  && str_in (node_id met) (mp_metabolite_list p)
  && cy_gt (belief r) (mp_minimum_belief p)
  && cy_ge (evidence_count r) (mp_minimum_evidence p)
  && negb (obsolete met).

Definition metabolite_rows (client : Neo4jClient) (p : MetaboliteParams) : list Relation :=
  match_undirected (metabolite_where p) (edges client).

Definition metabolite_query_tx (client : Neo4jClient) (p : MetaboliteParams)
    : M (list (list Relation)) :=
  tell (MetaboliteQuery p) ;;;
  ret (List.map (λ path, [path]) (metabolite_rows client p)).

(** The discovery query of [get_metabolite_statements]; its rows are only
    written to the log of the application. *)
Definition discovery_query_tx (client : Neo4jClient) (metabolite_list : list string)
    : M unit :=
  tell (DiscoveryQuery metabolite_list).

(** ** Statement assembly, enrichment and the evidence-count mapping *)

(** Modelled from the spec: [indra_cogex.representation.indra_stmts_from_relations]
    is not among the sources.  Section 4.6 of the specification: relations
    are grouped by [statement_hash]; the first-encountered relation of a group,
    in input order, is the seed that is folded into the group's one statement;
    statements come in the order in which their hash first appears. *)
Definition stmt_from_relation (r : Relation) : Statement :=
  {| get_hash := stmt_hash r; seed := r; evidence := [] |}.

Fixpoint assemble (seen : gset Z) (rels : list Relation) : list Statement :=
  match rels with
  | [] => []
  | r :: rs =>
      if decide (stmt_hash r ∈ seen) then assemble seen rs
      else stmt_from_relation r :: assemble ({[stmt_hash r]} ∪ seen) rs
  end.

Definition indra_stmts_from_relations (rels : list Relation) (deduplicate : bool)
    : list Statement :=
  if deduplicate then assemble ∅ rels else List.map stmt_from_relation rels.

(** Modelled from the spec: [indra_cogex.client.queries.enrich_statements] is
    not among the sources.  Section 4.7 of the specification: each statement
    of the input sequence is returned carrying the complete evidence list
    that the evidence store keeps under its hash. *)
Definition enrich (client : Neo4jClient) (s : Statement) : Statement :=
  {| get_hash := get_hash s; seed := seed s; evidence := evidences client (get_hash s) |}.

Definition enrich_statements (stmts : list Statement) (client : Neo4jClient)
    : M (list Statement) :=
  tell (EnrichQuery (List.map get_hash stmts)) ;;;
  ret (List.map (enrich client) stmts).

(** [{stmt.get_hash(): rel.data.get("evidence_count", 0)
      for rel, stmt in zip(flattened_rels, stmts)}]:
    [zip] stops with the shorter list and a later pair overwrites an earlier
    one with the same key. *)
Definition evidence_count_mapping (flattened_rels : list Relation)
    (stmts : list Statement) : gmap Z Z :=
  fold_left (λ d p, <[get_hash p.2 := get_evidence_count p.1]> d)
    (zip flattened_rels stmts) ∅.

(** [if x:] on an [Optional[int]] *)
Definition truthy_int (x : option Z) : bool :=
  match x with
  | Some n => negb (n =? 0)
  | None => false
  end.

(** [rel.data.get("evidence_count", 0) >= minimum_evidence], reached only
    when [minimum_evidence] is a non-zero integer. *)
Definition has_minimum_evidence (minimum_evidence : option Z) (rel : Relation) : bool :=
  match minimum_evidence with
  | Some n => n <=? get_evidence_count rel
  | None => false
  end.

(** ** Responses of the endpoints *)

Inductive Response : Type :=
| Rendered (stmts : list Statement) (evidence_count : gmap Z Z)
| JsonError (error : string) (status : nat).

(** [request.args]: a multi-dictionary of strings. *)
Definition Args : Type := list (string * string).

(** [request.args.get(key)] *)
Fixpoint args_get (args : Args) (key : string) : option string :=
  match args with
  | [] => None
  | (k, v) :: rest => if String.eqb k key then Some v else args_get rest key
  end.

(** [request.args.getlist(key)] *)
Definition args_getlist (args : Args) (key : string) : list string :=
  List.map snd (List.filter (λ kv, String.eqb kv.1 key) args).

(** [not x] for an [Optional[str]] *)
Definition not_str (x : option string) : bool :=
  match x with
  | Some s => PyStr.falsy s
  | None => true
  end.

(** [not l] for a list *)
Definition not_list {A : Type} (l : list A) : bool :=
  match l with [] => true | _ => false end.

(** ** The retrieval functions and their endpoints *)

Section Search.

(** Collaborators that are not part of the analysed sources: the identifier
    normaliser [indra_cogex.representation.norm_id], the metabolite parser
    [indra_cogex.analysis.metabolite_analysis.parse_metabolites] (the CHEBI
    identifiers it recognised and the entries it could not parse), and the
    Python coercions [int] and [float] on a string, where [None] stands for
    the [ValueError] they raise. *)
Variable norm_id : string → string → string.
Variable parse_metabolites : list string → list string * list string.
Variable py_int : string → option Z.
Variable py_float : string → option float.

(** [[norm_id('HGNC', gene.split(':')[1]) for gene in genes]] *)
Definition normalize_genes (genes : list string) : outcome (list string) :=
  comprehension
    (λ gene, obind (py_index (PyStr.split colon gene) 1)
               (λ i, Ok (norm_id "HGNC" i)))
    genes.

(** The entity handling of [get_ora_statements]: the normalised target and
    the relation types of the query. *)
Definition ora_entity (namespace id_part target_id : string) : string * list string :=
  if String.eqb namespace "mesh" then
    (("mesh:" ++ id_part)%string, ["indra_rel"; "has_indication"])
  else if String.eqb namespace "fplx" then
    (("fplx:" ++ id_part)%string, ["indra_rel"; "isa"])
  else
    (PyStr.lower target_id, ["indra_rel"]).

(** [[client.neo4j_to_relation(i[0]) for rel in results for i in rel]] *)
Definition flatten_results (results : list (list (list Relation)))
    : outcome (list Relation) :=
  comprehension (λ i, py_index i 0) (concat results).

Definition get_ora_statements (target_id : string) (genes : list string)
    (minimum_belief : float) (minimum_evidence : option Z) (is_downstream : bool)
    (client : Neo4jClient) : M (list Statement * gmap Z Z) :=
  normalized_genes <- lift (normalize_genes genes) ;;
  namespace <- lift (obind (py_index (PyStr.split colon target_id) 0)
                       (λ n, Ok (PyStr.lower n))) ;;
  id_part <- lift (py_index (PyStr.split colon target_id) 1) ;;
  let (normalized_target, rel_types) := ora_entity namespace id_part target_id in
  let params :=
    {| op_target_id := normalized_target;
       op_genes := normalized_genes;
       op_rel_types := rel_types;
       op_minimum_belief := minimum_belief |} in
  results <- ora_query_tx client is_downstream params ;;
  flattened_rels <- lift (flatten_results results) ;;
  let flattened_rels :=
    if truthy_int minimum_evidence
    then List.filter (has_minimum_evidence minimum_evidence) flattened_rels
    else flattened_rels in
  let stmts := indra_stmts_from_relations flattened_rels true in
  stmts <- enrich_statements stmts client ;;
  let evidence_counts := evidence_count_mapping flattened_rels stmts in
  ret (stmts, evidence_counts).

(** [int(request.args.get(key) or d)]: an absent or empty value gives [d]. *)
Definition int_or (x : option string) (d : Z) : option Z :=
  match x with
  | Some s => if PyStr.falsy s then Some d else py_int s
  | None => Some d
  end.

(** [float(request.args.get(key) or d)] *)
Definition float_or (x : option string) (d : float) : option float :=
  match x with
  | Some s => if PyStr.falsy s then Some d else py_float s
  | None => Some d
  end.

(** [int(request.args.get("minimum_evidence") or 2)] and
    [float(request.args.get("minimum_belief") or 0.0)] of
    [search_ora_statements]; [None] when the coercion raises. *)
Definition ora_minimum_evidence (args : Args) : option Z :=
  int_or (args_get args "minimum_evidence") 2.
Definition ora_minimum_belief (args : Args) : option float :=
  float_or (args_get args "minimum_belief") 0%float.

Definition search_ora_statements (args : Args) (client : Neo4jClient) : M Response :=
  let target_id := args_get args "target_id" in
  let genes := args_getlist args "genes" in
  let is_downstream :=
    String.eqb (PyStr.lower (default EmptyString (args_get args "is_downstream"))) "true" in
  match ora_minimum_evidence args with
  | None => ret (JsonError "Invalid parameter values" 400)
  | Some minimum_evidence =>
  match ora_minimum_belief args with
  | None => ret (JsonError "Invalid parameter values" 400)
  | Some minimum_belief =>
      if not_str target_id || not_list genes then
        ret (JsonError "target_id and genes are required" 400)
      else
        catch
          (r <- get_ora_statements (default EmptyString target_id) genes minimum_belief
                  (Some minimum_evidence) is_downstream client ;;
           ret (Rendered r.1 r.2))
          (λ e, ret (JsonError (exn_message e) 500))
  end end.

(** The entity handling of [get_signed_statements]. *)
Definition signed_entity (namespace id_part target_id : string) : string * list string :=
  if String.eqb namespace "chebi" then
    (("chebi:" ++ id_part)%string, ["indra_rel"; "has_metabolite"])
  else if String.eqb namespace "mesh" then
    (("mesh:" ++ id_part)%string, ["indra_rel"; "has_indication"])
  else if String.eqb namespace "hgnc" then
    (("hgnc:" ++ id_part)%string, ["indra_rel"])
  else if String.eqb namespace "fplx" then
    (("fplx:" ++ id_part)%string, ["indra_rel"; "isa"])
  else
    (PyStr.lower target_id, ["indra_rel"]).

Definition pos_params (normalized_target : string) (pos_genes rel_types : list string)
    (minimum_belief : float) (minimum_evidence : option Z) : SignedParams :=
  {| sp_target_id := normalized_target;
     sp_gene_list := pos_genes;
     sp_rel_types := rel_types;
     sp_minimum_belief := minimum_belief;
     sp_minimum_evidence := minimum_evidence;
     stmt_types_gene_to_target := ["DecreaseAmount"; "Inhibition"];
     stmt_types_target_to_gene := ["IncreaseAmount"; "Activation"; "Complex"] |}.

Definition neg_params (normalized_target : string) (neg_genes rel_types : list string)
    (minimum_belief : float) (minimum_evidence : option Z) : SignedParams :=
  {| sp_target_id := normalized_target;
     sp_gene_list := neg_genes;
     sp_rel_types := rel_types;
     sp_minimum_belief := minimum_belief;
     sp_minimum_evidence := minimum_evidence;
     stmt_types_gene_to_target := ["IncreaseAmount"; "Activation"];
     stmt_types_target_to_gene := ["DecreaseAmount"; "Inhibition"] |}.

(** [for result in results: flattened_rels.append(client.neo4j_to_relation(result[0]))] *)
Definition append_paths (flattened_rels : list Relation) (results : list (list Relation))
    : outcome (list Relation) :=
  obind (comprehension (λ result, py_index result 0) results)
    (λ rels, Ok (flattened_rels ++ rels)%list).

(** The relations [get_signed_statements] collects from its two queries. *)
Definition signed_relations (normalized_target : string) (pos_genes neg_genes rel_types : list string)
    (minimum_belief : float) (minimum_evidence : option Z) (client : Neo4jClient)
    : M (list Relation) :=
  let flattened_rels := [] in
  flattened_rels <-
    (if not_list pos_genes then ret flattened_rels
     else
       pos_results <- signed_query_tx client
         (pos_params normalized_target pos_genes rel_types minimum_belief minimum_evidence) ;;
       lift (append_paths flattened_rels pos_results)) ;;
  (if not_list neg_genes then ret flattened_rels
   else
     neg_results <- signed_query_tx client
       (neg_params normalized_target neg_genes rel_types minimum_belief minimum_evidence) ;;
     lift (append_paths flattened_rels neg_results)).

Definition get_signed_statements (target_id : string) (positive_genes negative_genes : list string)
    (minimum_belief : float) (minimum_evidence : option Z)
    (client : Neo4jClient) : M (list Statement * gmap Z Z) :=
  pos_genes <- lift (normalize_genes positive_genes) ;;
  neg_genes <- lift (normalize_genes negative_genes) ;;
  namespace <- lift (obind (py_index (PyStr.split colon target_id) 0)
                       (λ n, Ok (PyStr.lower n))) ;;
  id_part <- lift (py_index (PyStr.split colon target_id) 1) ;;
  let (normalized_target, rel_types) := signed_entity namespace id_part target_id in
  flattened_rels <- signed_relations normalized_target pos_genes neg_genes rel_types
                      minimum_belief minimum_evidence client ;;
  let stmts := indra_stmts_from_relations flattened_rels true in
  stmts <- enrich_statements stmts client ;;
  let evidence_counts := evidence_count_mapping flattened_rels stmts in
  ret (stmts, evidence_counts).

(** [int(request.args.get("minimum_evidence", "1"))] and
    [float(request.args.get("minimum_belief", "0.0"))] of
    [search_signed_statements]. *)
Definition signed_minimum_evidence (args : Args) : option Z :=
  py_int (default "1" (args_get args "minimum_evidence")).
Definition signed_minimum_belief (args : Args) : option float :=
  py_float (default "0.0" (args_get args "minimum_belief")).

Definition search_signed_statements (args : Args) (client : Neo4jClient) : M Response :=
  let target_id := args_get args "target_id" in
  let positive_genes := args_getlist args "positive_genes" in
  let negative_genes := args_getlist args "negative_genes" in
  match signed_minimum_evidence args with
  | None => ret (JsonError "Invalid parameter values" 400)
  | Some minimum_evidence =>
  match signed_minimum_belief args with
  | None => ret (JsonError "Invalid parameter values" 400)
  | Some minimum_belief =>
      if not_str target_id || (not_list positive_genes && not_list negative_genes) then
        ret (JsonError "target_id and at least one gene list required" 400)
      else
        r <- get_signed_statements (default EmptyString target_id) positive_genes negative_genes
               minimum_belief (Some minimum_evidence) client ;;
        ret (Rendered r.1 r.2)
  end end.

Definition get_metabolite_statements (target_id : string) (metabolites : list string)
    (minimum_belief : float) (minimum_evidence : option Z)
    (client : Neo4jClient) : M (list Statement * gmap Z Z) :=
  let (chebi_ids, errors) := parse_metabolites metabolites in
  let metabolite_list := List.map (λ m, ("chebi:" ++ PyStr.lower m)%string) chebi_ids in
  let normalized_target :=
    if negb (PyStr.contains colon target_id) then ("eccode:" ++ target_id)%string
    else target_id in
  discovery_query_tx client metabolite_list ;;;
  let params :=
    {| mp_target_id := normalized_target;
       mp_metabolite_list := metabolite_list;
       mp_minimum_belief := minimum_belief;
       mp_minimum_evidence := minimum_evidence |} in
  results <- metabolite_query_tx client params ;;
  flattened_rels <- lift (append_paths [] results) ;;
  let stmts := indra_stmts_from_relations flattened_rels true in
  stmts <- enrich_statements stmts client ;;
  let evidence_counts := evidence_count_mapping flattened_rels stmts in
  ret (stmts, evidence_counts).

(** [int(request.args.get("minimum_evidence", "1"))] and
    [float(request.args.get("minimum_belief", "0.0"))] of
    [search_metabolite_statements]. *)
Definition metabolite_minimum_evidence (args : Args) : option Z :=
  py_int (default "1" (args_get args "minimum_evidence")).
Definition metabolite_minimum_belief (args : Args) : option float :=
  py_float (default "0.0" (args_get args "minimum_belief")).

Definition search_metabolite_statements (args : Args) (client : Neo4jClient) : M Response :=
  let target_id := args_get args "target_id" in
  let metabolites := args_getlist args "metabolites" in
  match metabolite_minimum_evidence args with
  | None => ret (JsonError "Invalid parameter values" 400)
  | Some minimum_evidence =>
  match metabolite_minimum_belief args with
  | None => ret (JsonError "Invalid parameter values" 400)
  | Some minimum_belief =>
      if not_str target_id || not_list metabolites then
        ret (JsonError "target_id and metabolites are required" 400)
      else
        catch
          (r <- get_metabolite_statements (default EmptyString target_id) metabolites
                  minimum_belief (Some minimum_evidence) client ;;
           ret (Rendered r.1 r.2))
          (λ e, ret (JsonError (exn_message e) 400))
  end end.

End Search.

(** ** Concrete collaborators and a small graph, for running the functions *)

Module Sample.

(** [norm_id] on a namespace that is not embedded in its identifiers. *)
Definition norm_id (db_ns db_id : string) : string :=
  (PyStr.lower db_ns ++ ":" ++ db_id)%string.

(** A metabolite parser that accepts entries written [CHEBI:<id>]. *)
Definition parse_metabolites (metabolites : list string) : list string * list string :=
  (List.flat_map
     (λ m, match PyStr.split colon m with
           | [ns; i] => if String.eqb (PyStr.lower ns) "chebi" then [i] else []
           | _ => []
           end) metabolites,
   List.filter
     (λ m, match PyStr.split colon m with
           | [ns; i] => negb (String.eqb (PyStr.lower ns) "chebi")
           | _ => true
           end) metabolites).

Definition digit (c : ascii) : option Z :=
  let n := nat_of_ascii c in
  if (Nat.leb 48 n && Nat.leb n 57)%bool then Some (Z.of_nat n - 48) else None.

Fixpoint digits (acc : Z) (s : string) : option Z :=
  match s with
  | EmptyString => Some acc
  | String c s' => match digit c with
                   | Some d => digits (10 * acc + d) s'
                   | None => None
                   end
  end.

(** [int] on plain decimal literals with an optional minus sign. *)
Definition py_int (s : string) : option Z :=
  match s with
  | EmptyString => None
  | String "-" (String c s') => Z.opp <$> digits 0 (String c s')
  | _ => digits 0 s
  end.

(** [float] on literals [<digits>.<digits>] with at most fifteen digits. *)
Definition py_float (s : string) : option float :=
  match PyStr.split "."%char s with
  | [i; f] =>
      if (PyStr.falsy i || PyStr.falsy f || Nat.ltb 15 (String.length i + String.length f))%bool
      then None
      else
        match digits 0 (i ++ f)%string with
        | Some n => Some (PrimFloat.div (PrimFloat.of_uint63 (Uint63.of_Z n))
                           (PrimFloat.of_uint63 (Uint63.of_Z (10 ^ Z.of_nat (String.length f)))))
        | None => None
        end
  | _ => None
  end.

Definition gene (i : string) : Node := {| node_id := ("hgnc:" ++ i)%string; obsolete := false |}.
Definition disease : Node := {| node_id := "mesh:D007239"; obsolete := false |}.

Definition indra (s t : Node) (ty : string) (h : Z) (b : float) (n : Z) : Relation :=
  {| source := s; target := t; rel_type := "indra_rel"; stmt_hash := h;
     belief := Some b; evidence_count := Some n; stmt_type := Some ty |}.

(** A complex of the disease term with two genes gives one edge per gene,
    both with the hash of the one statement; an activation of the first gene
    is a second statement. *)
Definition client : Neo4jClient :=
  {| edges := [ indra disease (gene "1") "Complex" 11 0.75%float 5;
                indra disease (gene "2") "Complex" 11 0.75%float 5;
                indra disease (gene "1") "Activation" 22 0.5%float 7;
                indra (gene "1") disease "Inhibition" 33 0.25%float 1 ];
     evidences := λ h, if h =? 11 then ["PMID:1"; "PMID:2"] else ["PMID:3"] |}.

Definition activation : Relation :=
  indra disease (gene "1") "Activation" 22 0.5%float 7.

(** An indication edge carries no belief, evidence count or statement type. *)
Definition indication : Relation :=
  {| source := disease; target := gene "2"; rel_type := "has_indication";
     stmt_hash := 44; belief := None; evidence_count := None; stmt_type := None |}.

End Sample.

(** ** The grounding endpoint *)

Module Gilda.

#[local] Unset Elimination Schemes.

(** A JSON value, as [request.get_json()] gives it and [jsonify] takes it. *)
Inductive json : Type :=
| JNull
| JBool (b : bool)
| JInt (n : Z)
| JFloat (f : float)
| JStr (s : string)
| JList (items : list json)
| JObj (fields : list (string * json)).

#[local] Set Elimination Schemes.

(** [bool(v)] on the Python value of a JSON value. *)
Definition truthy (v : json) : bool :=
  match v with
  | JNull => false
  | JBool b => b
  | JInt n => negb (n =? 0)
  | JFloat f => negb (PrimFloat.eqb f 0%float)
  | JStr s => negb (PyStr.falsy s)
  | JList items => negb (not_list items)
  | JObj fields => negb (not_list fields)
  end.

(** An exception that derives from [Exception]: whether it is an
    [ImportError], and its [str]. *)
Record pyexn : Type := mkPyexn {
  is_import_error : bool;
  exn_str : string
}.

Inductive attempt (A : Type) : Type :=
| Returned (a : A)
| Raised (e : pyexn).
Arguments Returned {A} a.
Arguments Raised {A} e.

(** The two grounders: the body of the [try] of [gilda_ground] (import of
    the local grounder, grounding, and [to_json] of every match) and the
    body of its [except ImportError] (a POST to the remote service and the
    decoding of its answer). *)
Record Grounders : Type := mkGrounders {
  local_ground : json → attempt (list json);
  remote_ground : json → attempt json
}.

Inductive attempted : Type :=
| Local (agent_text : json)
| Remote (agent_text : json).

(** [{"error": message}] *)
Definition error_object (message : string) : json := JObj [("error", JStr message)].

(** An exception raised in the handler of [ImportError] is not caught by the
    [except Exception] clause of the same [try]. *)
Definition gilda_ground (g : Grounders) (agent_text : json) (log : list attempted)
    : attempt json * list attempted :=
  match local_ground g agent_text with
  | Returned matches => (Returned (JList matches), (log ++ [Local agent_text])%list)
  | Raised e =>
      if is_import_error e then
        (remote_ground g agent_text, (log ++ [Local agent_text; Remote agent_text])%list)
      else
        (Returned (error_object ("Grounding failed: " ++ exn_str e)%string),
         (log ++ [Local agent_text])%list)
  end.

(** [data.get("agent")] on the decoded body, a JSON object. *)
Definition get_agent (data : gmap string json) : json := default JNull (data !! "agent").

(** The body and the status of the response. *)
Definition gilda_ground_endpoint (g : Grounders) (data : gmap string json)
    (log : list attempted) : (json * nat) * list attempted :=
  let agent_text := get_agent data in
  if negb (truthy agent_text) then
    ((error_object "Agent text is required.", 400%nat), log)
  else
    match gilda_ground g agent_text log with
    | (Returned gilda_list, log') => ((gilda_list, 200%nat), log')
    | (Raised e, log') => ((error_object (exn_str e), 500%nat), log')
    end.

(** A local grounder that knows one name, and one that is not installed,
    with a remote service that is down. *)
Definition match_of (name : string) : json :=
  JObj [("term", JObj [("db", JStr "HGNC"); ("entry_name", JStr name)]); ("score", JInt 1)].

Definition installed : Grounders :=
  {| local_ground := λ text,
       match text with
       | JStr "BRAF" => Returned [match_of "BRAF"]
       | JStr _ => Returned []
       | _ => Raised {| is_import_error := false; exn_str := "expected a string" |}
       end;
     remote_ground := λ _, Returned (JList []) |}.

Definition not_installed_remote_down : Grounders :=
  {| local_ground := λ _, Raised {| is_import_error := true;
                                     exn_str := "No module named 'gilda'" |};
     remote_ground := λ _, Raised {| is_import_error := false;
                                      exn_str := "Connection refused" |} |}.

End Gilda.

(** ** The search page *)

Module SearchPage.

(** An agent or a MeSH term handed to [get_statements]: the text of the
    request, or the pair decoded from the request's tuple. *)
Inductive term : Type :=
| Text (s : string)
| Pair (source_db source_id : Gilda.json).

(** [bool(x)] on such a value or [None]: a pair is never empty. *)
Definition given (x : option term) : bool :=
  match x with
  | Some (Text s) => negb (PyStr.falsy s)
  | Some (Pair _ _) => true
  | None => false
  end.

(** The keyword arguments of the call of [get_statements]. *)
Record StatementQuery : Type := mkStatementQuery {
  agent : option term;
  agent_role : option string;
  other_agent : option term;
  other_role : option string;
  stmt_sources : option string;
  rel_types : list string;
  paper_term : option string;
  mesh_term : option term;
  limit : Z;
  evidence_limit : Z;
  return_evidence_counts : bool
}.

Inductive Page : Type :=
| Statements (stmts : list Statement) (evidence_count : gmap Z Z)
| Form.

Section Get.

(** [source_db, source_id = json.loads(text)], with the exception that the
    decoding or the unpacking raises, and [get_statements] of
    [indra_cogex.client.queries]. *)
Variable decode_pair : string → outcome (Gilda.json * Gilda.json).
Variable get_statements : StatementQuery → list Statement * gmap Z Z.

(** [x = request.args.get(key); t = request.args.get(key_tuple);
     if t: x = tuple(json.loads(t))] *)
Definition text_or_tuple (args : Args) (key key_tuple : string) : outcome (option term) :=
  match args_get args key_tuple with
  | Some t =>
      if PyStr.falsy t then Ok (Text <$> args_get args key)
      else obind (decode_pair t) (λ p, Ok (Some (Pair p.1 p.2)))
  | None => Ok (Text <$> args_get args key)
  end.

(** The part of [search] that serves a request whose form was not
    submitted; the log holds the calls of [get_statements]. *)
Definition search_get (args : Args) (log : list StatementQuery)
    : outcome Page * list StatementQuery :=
  match text_or_tuple args "agent" "agent_tuple" with
  | Raise e => (Raise e, log)
  | Ok agent =>
  match text_or_tuple args "other_agent" "other_agent_tuple" with
  | Raise e => (Raise e, log)
  | Ok other_agent =>
      let source_type := args_get args "source_type" in
      let rel_types := args_getlist args "rel_types" in
      let agent_role := args_get args "agent_role" in
      let other_role := args_get args "other_role" in
      let paper_id := args_get args "paper_id" in
      match text_or_tuple args "mesh_terms" "mesh_tuple" with
      | Raise e => (Raise e, log)
      | Ok mesh_terms =>
          if given agent || given other_agent || negb (not_list rel_types) then
            let query :=
              {| agent := agent; agent_role := agent_role;
                 other_agent := other_agent; other_role := other_role;
                 stmt_sources := source_type; rel_types := rel_types;
                 paper_term := paper_id; mesh_term := mesh_terms;
                 limit := 1000; evidence_limit := 1000;
                 return_evidence_counts := true |} in
            let (statements, evidence_count) := get_statements query in
            (Ok (Statements statements evidence_count), (log ++ [query])%list)
          else (Ok Form, log)
      end
  end end.

End Get.

(** A decoder for tuples written [["db", "id"]] without spaces, and a store
    without statements. *)
Definition decode_pair (text : string) : outcome (Gilda.json * Gilda.json) :=
  match PyStr.split (ascii_of_nat 34) text with
  | ["["; db; ", "; id; "]"] => Ok (Gilda.JStr db, Gilda.JStr id)
  | _ => Raise ValueError
  end.

Definition no_statements (q : StatementQuery) : list Statement * gmap Z Z := ([], ∅).

Definition quote : string := String (ascii_of_nat 34) EmptyString.

(** The tuple of the gene BRAF, as the page writes it. *)
Definition braf_tuple : string :=
  ("[" ++ quote ++ "HGNC" ++ quote ++ ", " ++ quote ++ "1097" ++ quote ++ "]")%string.

End SearchPage.

(** ** The command line of the sources *)

Module Cli.

Section Main.

(** The node type of the processors, and [NodeAssembler.assemble_nodes]
    followed by the sorting of the nodes, which are not part of the analysed
    sources. *)
Variable N : Type.
Variable assemble_and_sort : list N → list N.

(** A processor class of [processor_resolver], with what the file system
    answers for its two tables when [main] looks. *)
Record Processor : Type := mkProcessor {
  name : string;
  importable : bool;
  nodes_is_file : bool;
  edges_is_file : bool;
  nodes_path : string;
  edges_path : string;
  get_nodes : list N
}.

Inductive event : Type :=
| Checking (name : string)
| Processed (name : string)
| DumpedAssembled (nodes : list N)
| System (command : string).

Definition newline : string := String (ascii_of_nat 10) EmptyString.
Definition backslash : string := String (ascii_of_nat 92) EmptyString.

(** A backslash and a line break: the continuation of a shell command. *)
Definition continued : string := (backslash ++ newline)%string.

(** The text that [dedent(...).rstrip()] leaves of the literal. *)
Definition import_command : string :=
  ("neo4j-admin import " ++ continued ++
   "  --database=indra " ++ continued ++
   "  --delimiter='TAB' " ++ continued ++
   "  --skip-duplicate-nodes=true " ++ continued ++
   "  --skip-bad-relationships=true")%string.

(** [command += ...]: a continuation, two spaces, [--relationships] and the
    path of the edge table. *)
Definition add_relationships (command edge_path : string) : string :=
  (command ++ continued ++ "  --relationships " ++ edge_path)%string.

(** The state of the loop over the processors: the paths collected, the
    nodes added to the assembler, and the events so far. *)
Record LoopState : Type := mkLoopState {
  paths : list (string * string);
  added : list N;
  events : list event
}.

Definition visit (load_only force : bool) (st : LoopState) (p : Processor) : LoopState :=
  if negb (importable p) then st
  else
    let st :=
      {| paths := paths st; added := added st;
         events := (events st ++ [Checking (name p)])%list |} in
    let st :=
      if negb load_only
      then
        if force || negb (nodes_is_file p) || negb (edges_is_file p)
        then {| paths := paths st;
                added := (added st ++ get_nodes p)%list;
                events := (events st ++ [Processed (name p)])%list |}
        else st
      else st in
    {| paths := (paths st ++ [(nodes_path p, edges_path p)])%list;
       added := added st; events := events st |}.

Definition main (load load_only force : bool) (processor_resolver : list Processor)
    : list event :=
  let st :=
    fold_left (visit load_only force) processor_resolver
      {| paths := []; added := []; events := [] |} in
  let assembled_nodes := assemble_and_sort (added st) in
  let events := (events st ++ [DumpedAssembled assembled_nodes])%list in
  if load || load_only then
    let command :=
      fold_left (λ command path, add_relationships command path.2) (paths st)
        import_command in
    (events ++ [System command])%list
  else events.

End Main.

Arguments name {N} p.
Arguments importable {N} p.
Arguments nodes_is_file {N} p.
Arguments edges_is_file {N} p.
Arguments nodes_path {N} p.
Arguments edges_path {N} p.
Arguments get_nodes {N} p.
Arguments Checking {N} name.
Arguments Processed {N} name.
Arguments DumpedAssembled {N} nodes.
Arguments System {N} command.

(** The processors that [main] processes: importable, and either forced or
    lacking one of their tables. *)
Definition to_process {N : Type} (force : bool) (ps : list (Processor N))
    : list (Processor N) :=
  List.filter
    (λ p, importable p && (force || negb (nodes_is_file p) || negb (edges_is_file p)))
    ps.

(** What the visit of one processor shows: that it is checked, when it is
    importable, and that it is processed. *)
Definition visit_events {N : Type} (load_only force : bool) (p : Processor N)
    : list (event N) :=
  if importable p then
    Checking (name p)
    :: (if negb load_only && (force || negb (nodes_is_file p) || negb (edges_is_file p))
        then [Processed (name p)] else [])
  else [].

(** The command that imports the edge tables [edge_paths]. *)
Definition command_for (edge_paths : list string) : string :=
  fold_left add_relationships edge_paths import_command.

(** Two processors with their tables on disk and one without. *)
Definition registry : list (Processor string) :=
  [ {| name := "go"; importable := true; nodes_is_file := true; edges_is_file := true;
       nodes_path := "go/nodes.tsv.gz"; edges_path := "go/edges.tsv.gz";
       get_nodes := ["GO:0006955"] |};
    {| name := "bgee"; importable := false; nodes_is_file := false; edges_is_file := false;
       nodes_path := "bgee/nodes.tsv.gz"; edges_path := "bgee/edges.tsv.gz";
       get_nodes := ["UBERON:1"] |};
    {| name := "reactome"; importable := true; nodes_is_file := true; edges_is_file := false;
       nodes_path := "reactome/nodes.tsv.gz"; edges_path := "reactome/edges.tsv.gz";
       get_nodes := ["REACTOME:R-HSA-1"; "HGNC:1"] |} ].

End Cli.

(** ** Further small graphs *)

Module Fixtures.

(** One statement on two edges with different evidence counts, the weaker
    edge first, and an indication edge. *)
Definition uneven_client : Neo4jClient :=
  {| edges := [ Sample.indra Sample.disease (Sample.gene "1") "Activation" 11 0.75%float 1;
                Sample.indra Sample.disease (Sample.gene "2") "Activation" 11 0.75%float 5;
                Sample.indication ];
     evidences := λ _, [] |}.

(** Two statements, one edge each. *)
Definition distinct_client : Neo4jClient :=
  {| edges := [ Sample.activation;
                Sample.indra (Sample.gene "1") Sample.disease "Inhibition" 33 0.25%float 1 ];
     evidences := λ _, [] |}.

(** A gene that inhibits itself. *)
Definition self_inhibition : Relation :=
  Sample.indra (Sample.gene "1") (Sample.gene "1") "Inhibition" 55 0.5%float 3.

Definition loop_client : Neo4jClient :=
  {| edges := [self_inhibition]; evidences := λ _, [] |}.


(** A request to an endpoint with a target that has no separator. *)
Definition bare_target_args : Args :=
  [("target_id", "D007239"); ("genes", "HGNC:1"); ("positive_genes", "HGNC:1");
   ("metabolites", "CHEBI:15377")].

Definition default_args : Args :=
  [("target_id", "MESH:D007239"); ("genes", "HGNC:1"); ("genes", "HGNC:2")].

End Fixtures.

(** ** Vocabulary of the properties *)

(** The relations the signed retrieval appends: the rows of the positive
    query, when there are positive genes, then the rows of the negative one. *)
Definition signed_flattened (normalized_target : string) (pos_genes neg_genes rel_types : list string)
    (minimum_belief : float) (minimum_evidence : option Z) (client : Neo4jClient)
    : list Relation :=
  ((if not_list pos_genes then []
    else signed_rows client
           (pos_params normalized_target pos_genes rel_types minimum_belief minimum_evidence))
   ++
   (if not_list neg_genes then []
    else signed_rows client
           (neg_params normalized_target neg_genes rel_types minimum_belief minimum_evidence)))%list.

Definition signed_calls (normalized_target : string) (pos_genes neg_genes rel_types : list string)
    (minimum_belief : float) (minimum_evidence : option Z) : list call :=
  ((if not_list pos_genes then []
    else [SignedQuery
            (pos_params normalized_target pos_genes rel_types minimum_belief minimum_evidence)])
   ++
   (if not_list neg_genes then []
    else [SignedQuery
            (neg_params normalized_target neg_genes rel_types minimum_belief minimum_evidence)]))%list.

(** The statements and the mapping that every retrieval function builds from
    its list of relations. *)
Definition stmts_of (client : Neo4jClient) (flattened_rels : list Relation) : list Statement :=
  List.map (enrich client) (indra_stmts_from_relations flattened_rels true).

Definition result_of (client : Neo4jClient) (flattened_rels : list Relation)
    : list Statement * gmap Z Z :=
  (stmts_of client flattened_rels,
   evidence_count_mapping flattened_rels (stmts_of client flattened_rels)).

(** The relations [get_ora_statements] keeps of the first paths of the
    groups: all of them, or those with the minimum evidence when a non-zero
    minimum is given. *)
Definition ora_kept (minimum_evidence : option Z) (heads : list Relation) : list Relation :=
  if truthy_int minimum_evidence
  then List.filter (has_minimum_evidence minimum_evidence) heads
  else heads.

Definition enrich_call (flattened_rels : list Relation) : call :=
  EnrichQuery (List.map get_hash (indra_stmts_from_relations flattened_rels true)).

Ltac unfold_M :=
  unfold run, bind, lift, ret, raise, tell, catch,
    ora_query_tx, signed_query_tx, metabolite_query_tx, discovery_query_tx,
    enrich_statements in *.

(** A group of the over-representation query: not empty, and made of
    relations with the hash of the group that satisfy [P]. *)
Definition group_ok (P : Relation → Prop) (g : Z * list Relation) : Prop :=
  g.2 ≠ [] ∧ Forall (λ r, stmt_hash r = g.1 ∧ P r) g.2.

(** A relation runs from a gene of the list to the target with one of the
    statement types [g2t], or from the target to a gene of the list with one
    of the statement types [t2g]. *)
Definition direction_restricted (normalized_target : string) (gene_list g2t t2g : list string)
    (r : Relation) : Prop :=
  (In (node_id (source r)) gene_list ∧ node_id (target r) = normalized_target
   ∧ ∃ ty, stmt_type r = Some ty ∧ In ty g2t)
  ∨ (node_id (source r) = normalized_target ∧ In (node_id (target r)) gene_list
     ∧ ∃ ty, stmt_type r = Some ty ∧ In ty t2g).

(** The relation [r] with another belief. *)
Definition with_belief (r : Relation) (b : option float) : Relation :=
  {| source := source r; target := target r; rel_type := rel_type r;
     stmt_hash := stmt_hash r; belief := b;
     evidence_count := evidence_count r; stmt_type := stmt_type r |}.

(** The rule table of section 4.2 of the specification: the generic label,
    and one more label for the namespaces [mesh], [fplx] and [chebi]. *)
Definition documented_rel_types (namespace : string) : list string :=
  "indra_rel" ::
  (if String.eqb namespace "mesh" then ["has_indication"]
   else if String.eqb namespace "fplx" then ["isa"]
   else if String.eqb namespace "chebi" then ["has_metabolite"]
   else []).

(** [r] is the first relation of [l] with its statement hash. *)
Definition first_with_hash (l : list Relation) (r : Relation) : Prop :=
  ∃ pre post, l = (pre ++ r :: post)%list ∧ ∀ r', In r' pre → stmt_hash r' ≠ stmt_hash r.

(** The first path of every group. *)
Definition group_heads (groups : list (Z * list Relation)) : list Relation :=
  List.flat_map (λ g, match g.2 with r :: _ => [r] | [] => [] end) groups.

(** The edges that match the over-representation query, in store order. *)
Definition ora_paths (client : Neo4jClient) (is_downstream : bool) (p : OraParams)
    : list Relation :=
  List.filter
    (ora_matches is_downstream (op_target_id p) (op_genes p) (op_rel_types p)
       (op_minimum_belief p))
    (edges client).

(** The parameters [get_ora_statements] computes for its query. *)
Definition ora_params_of (target_id : string) (normalized_genes : list string)
    (minimum_belief : float) : OraParams :=
  match PyStr.split colon target_id with
  | namespace :: id_part :: _ =>
      {| op_target_id := (ora_entity (PyStr.lower namespace) id_part target_id).1;
         op_genes := normalized_genes;
         op_rel_types := (ora_entity (PyStr.lower namespace) id_part target_id).2;
         op_minimum_belief := minimum_belief |}
  | _ =>
      {| op_target_id := target_id; op_genes := normalized_genes;
         op_rel_types := []; op_minimum_belief := minimum_belief |}
  end.


(** The normalised target and the relation types that the entity handling
    [entity] of a retrieval function gives for [target_id]. *)
Definition target_entity (entity : string → string → string → string * list string)
    (target_id : string) : string * list string :=
  match PyStr.split colon target_id with
  | namespace :: id_part :: _ => entity (PyStr.lower namespace) id_part target_id
  | _ => (target_id, [])
  end.

(** An edge matches the signed query with the parameters [p] in one of its
    orientations. *)
Definition signed_match (p : SignedParams) (r : Relation) : Prop :=
  ∃ ab, In ab (orientations r) ∧ signed_where p r ab.1 ab.2 = true.


(** * Properties *)

(** ** Comparison of doubles *)

Lemma SFcompare_Eq_sym (x y : spec_float) :
  SFcompare x y = Some Eq → SFcompare y x = Some Eq.
Proof.
  destruct x as [sx|sx| |sx mx ex], y as [sy|sy| |sy my ey]; simpl; try congruence;
    try (destruct sx, sy; congruence); try (destruct sx; congruence);
    try (destruct sy; congruence).
  destruct sx, sy; try congruence;
    destruct (Z.compare_spec ex ey) as [->| |]; try congruence;
    rewrite Z.compare_refl;
    destruct (Pos.compare_cont Eq mx my) eqn:E; simpl; try congruence;
    apply (Pos.compare_eq mx my) in E; subst;
    rewrite Pos.compare_cont_refl; reflexivity.
Qed.

Lemma SFcompare_refl (x : spec_float) :
  SFcompare x x = Some Eq ∨ SFcompare x x = None.
Proof.
  destruct x as [s|s| |s m e]; simpl; auto; destruct s; auto;
    rewrite Z.compare_refl, Pos.compare_cont_refl; auto.
Qed.

(** A double that compares equal to the threshold is not above it. *)
Lemma ltb_of_eqb (b mb : float) :
  PrimFloat.eqb b mb = true → PrimFloat.ltb mb b = false.
Proof.
  rewrite FloatAxioms.eqb_spec, FloatAxioms.ltb_spec. unfold SFeqb, SFltb.
  destruct (SFcompare (Prim2SF b) (Prim2SF mb)) as [[ | | ]|] eqn:E; try discriminate.
  intros _. rewrite (SFcompare_Eq_sym _ _ E). reflexivity.
Qed.

Lemma ltb_irrefl (b : float) : PrimFloat.ltb b b = false.
Proof.
  rewrite FloatAxioms.ltb_spec. unfold SFltb.
  destruct (SFcompare_refl (Prim2SF b)) as [-> | ->]; reflexivity.
Qed.

Lemma cy_gt_at_threshold (b mb : float) :
  b = mb ∨ PrimFloat.eqb b mb = true → cy_gt (Some b) mb = false.
Proof.
  intros [-> | H]; simpl; [apply ltb_irrefl | apply ltb_of_eqb, H].
Qed.

(** ** Strings and comprehensions *)

Lemma split_not_nil (sep : ascii) (s : string) : PyStr.split sep s ≠ [].
Proof.
  destruct s as [|c s]; simpl; [discriminate|].
  destruct (Ascii.eqb c sep); [discriminate|].
  destruct (PyStr.split sep s); discriminate.
Qed.

Lemma split_without_separator (sep : ascii) (s : string) :
  PyStr.contains sep s = false → PyStr.split sep s = [s].
Proof.
  induction s as [|c s IH]; simpl; [reflexivity|].
  destruct (Ascii.eqb c sep); simpl; [discriminate|].
  intros H. rewrite (IH H). reflexivity.
Qed.

Lemma split_with_separator (sep : ascii) (s : string) :
  PyStr.contains sep s = true →
  ∃ a b rest, PyStr.split sep s = a :: b :: rest.
Proof.
  induction s as [|c s IH]; simpl; [discriminate|].
  destruct (Ascii.eqb c sep); simpl.
  - intros _. destruct (PyStr.split sep s) as [|b rest] eqn:E.
    + exfalso. exact (split_not_nil _ _ E).
    + eauto.
  - intros H. destruct (IH H) as (a & b & rest & ->). eauto.
Qed.

Lemma split_head_always (sep : ascii) (s : string) :
  ∃ a, py_index (PyStr.split sep s) 0 = Ok a.
Proof.
  destruct (PyStr.split sep s) as [|a l] eqn:E.
  - exfalso. exact (split_not_nil _ _ E).
  - exists a. reflexivity.
Qed.

Lemma id_part_missing (s : string) :
  PyStr.contains colon s = false → py_index (PyStr.split colon s) 1 = Raise IndexError.
Proof. intros H. rewrite (split_without_separator _ _ H). reflexivity. Qed.

Lemma id_part_present (s : string) :
  PyStr.contains colon s = true → ∃ i, py_index (PyStr.split colon s) 1 = Ok i.
Proof. intros H. destruct (split_with_separator _ _ H) as (a & b & rest & ->). eauto. Qed.

Lemma comprehension_singletons {A : Type} (l : list A) :
  comprehension (λ row, py_index row 0) (List.map (λ x, [x]) l) = Ok l.
Proof.
  induction l as [|x l IH]; simpl; [reflexivity|].
  rewrite IH. reflexivity.
Qed.

Lemma comprehension_ok {A B : Type} (f : A → outcome B) (l : list A) :
  Forall (λ x, ∃ y, f x = Ok y) l → ∃ ys, comprehension f l = Ok ys.
Proof.
  induction 1 as [|x l [y Hy] _ [ys IH]]; simpl; [eauto|].
  rewrite Hy, IH. simpl. eauto.
Qed.

(** A comprehension whose body can only fail with [e] fails with [e] as soon
    as one element fails. *)
Lemma comprehension_raises {A B : Type} (f : A → outcome B) (e : exn) (l : list A) :
  (∀ x e', f x = Raise e' → e' = e) →
  Exists (λ x, f x = Raise e) l →
  comprehension f l = Raise e.
Proof.
  intros Honly. induction 1 as [x l Hx | x l _ IH]; simpl.
  - rewrite Hx. reflexivity.
  - destruct (f x) as [y|e'] eqn:E; simpl.
    + rewrite IH. reflexivity.
    + f_equal. eauto.
Qed.

(** ** The statement assembler *)

Section Assemble.

Implicit Types (seen : gset Z) (rels : list Relation) (s : Statement) (r : Relation).

Lemma assemble_fresh seen rels s :
  In s (assemble seen rels) → get_hash s ∉ seen.
Proof.
  revert seen. induction rels as [|r rs IH]; intros seen; simpl; [tauto|].
  destruct (decide (stmt_hash r ∈ seen)) as [Hin|Hout]; simpl.
  - apply IH.
  - intros [<- | Hs]; [exact Hout|].
    apply IH in Hs. set_solver.
Qed.

Lemma assemble_NoDup seen rels :
  List.NoDup (List.map get_hash (assemble seen rels)).
Proof.
  revert seen. induction rels as [|r rs IH]; intros seen; simpl; [constructor|].
  destruct (decide (stmt_hash r ∈ seen)); simpl; [apply IH|].
  constructor; [|apply IH].
  intros Hin. apply in_map_iff in Hin as (s & Hs & Hin).
  apply assemble_fresh in Hin. set_solver.
Qed.

Lemma assemble_seed seen rels s :
  In s (assemble seen rels) → s = stmt_from_relation (seed s).
Proof.
  revert seen. induction rels as [|r rs IH]; intros seen; simpl; [tauto|].
  destruct (decide (stmt_hash r ∈ seen)); simpl; [apply IH|].
  intros [<- | Hs]; [reflexivity | eapply IH, Hs].
Qed.

(** The seed of a statement is the first relation of the input with the
    statement's hash. *)
Lemma assemble_first seen rels s :
  In s (assemble seen rels) →
  ∃ pre post, rels = (pre ++ seed s :: post)%list
              ∧ ∀ r, In r pre → stmt_hash r ≠ get_hash s.
Proof.
  revert seen. induction rels as [|r rs IH]; intros seen; simpl; [tauto|].
  destruct (decide (stmt_hash r ∈ seen)) as [Hin|Hout]; simpl.
  - intros Hs. destruct (IH _ Hs) as (pre & post & -> & Hpre).
    exists (r :: pre), post. split; [reflexivity|].
    intros r' [<- | Hr']; [|auto].
    intros Heq. apply assemble_fresh in Hs. congruence.
  - intros [<- | Hs].
    + exists [], rs. split; [reflexivity|]. intros r' [].
    + destruct (IH _ Hs) as (pre & post & -> & Hpre).
      exists (r :: pre), post. split; [reflexivity|].
      intros r' [<- | Hr']; [|auto].
      intros Heq. apply assemble_fresh in Hs. set_solver.
Qed.

Lemma assemble_covers seen rels r :
  In r rels → stmt_hash r ∉ seen →
  In (stmt_hash r) (List.map get_hash (assemble seen rels)).
Proof.
  revert seen. induction rels as [|r' rs IH]; intros seen; simpl; [tauto|].
  intros [-> | Hr] Hout.
  - destruct (decide (stmt_hash r ∈ seen)); [contradiction|]. simpl. auto.
  - destruct (decide (stmt_hash r' ∈ seen)); simpl; [auto|].
    destruct (decide (stmt_hash r' = stmt_hash r)) as [Heq|Hne]; [auto|].
    right. apply IH; [exact Hr|]. set_solver.
Qed.

Lemma assemble_from_input seen rels h :
  In h (List.map get_hash (assemble seen rels)) → In h (List.map stmt_hash rels).
Proof.
  intros Hin. apply in_map_iff in Hin as (s & <- & Hs).
  destruct (assemble_first _ _ _ Hs) as (pre & post & -> & _).
  rewrite (assemble_seed _ _ _ Hs) at 1. simpl.
  apply in_map_iff. exists (seed s). split; [reflexivity|].
  apply in_or_app. right. left. reflexivity.
Qed.

Lemma assemble_sublist seen rels :
  sublist (List.map seed (assemble seen rels)) rels.
Proof.
  revert seen. induction rels as [|r rs IH]; intros seen; simpl; [constructor|].
  destruct (decide (stmt_hash r ∈ seen)); simpl.
  - apply sublist_cons, IH.
  - apply sublist_skip, IH.
Qed.

Lemma assemble_length seen rels :
  (length (assemble seen rels) ≤ length rels)%nat.
Proof.
  revert seen. induction rels as [|r rs IH]; intros seen; simpl; [lia|].
  destruct (decide (stmt_hash r ∈ seen)); simpl.
  - specialize (IH seen). lia.
  - specialize (IH ({[stmt_hash r]} ∪ seen)). lia.
Qed.

(** On relations with pairwise distinct hashes nothing is dropped. *)
Lemma assemble_distinct seen rels :
  List.NoDup (List.map stmt_hash rels) →
  (∀ r, In r rels → stmt_hash r ∉ seen) →
  assemble seen rels = List.map stmt_from_relation rels.
Proof.
  revert seen. induction rels as [|r rs IH]; intros seen Hnd Hout; simpl; [reflexivity|].
  inversion Hnd as [|h hs Hh Hnd']; subst.
  destruct (decide (stmt_hash r ∈ seen)) as [Hin|_].
  - exfalso. apply (Hout r); [left; reflexivity | exact Hin].
  - f_equal. apply IH; [exact Hnd'|].
    intros r' Hr'. specialize (Hout r' (or_intror Hr')).
    assert (stmt_hash r' ≠ stmt_hash r).
    { intros Heq. apply Hh. rewrite <- Heq. apply in_map, Hr'. }
    set_solver.
Qed.

End Assemble.

(** ** The evidence-count mapping *)

Section Mapping.

Implicit Types (rels : list Relation) (stmts : list Statement) (d : gmap Z Z).

Lemma mapping_fold_dom (pairs : list (Relation * Statement)) d :
  dom (fold_left (λ d p, <[get_hash p.2 := get_evidence_count p.1]> d) pairs d)
  = dom d ∪ list_to_set (List.map (λ p, get_hash p.2) pairs).
Proof.
  revert d. induction pairs as [|p ps IH]; intros d; simpl.
  - set_solver.
  - rewrite IH, dom_insert_L. set_solver.
Qed.

Lemma zip_statements rels stmts :
  (length stmts ≤ length rels)%nat →
  List.map (λ p : Relation * Statement, get_hash p.2) (zip rels stmts)
  = List.map get_hash stmts.
Proof.
  revert stmts. induction rels as [|r rs IH]; intros [|s ss]; simpl; try lia; try reflexivity.
  intros H. f_equal. apply IH. lia.
Qed.

(** The keys of the mapping are the hashes of the statements, as long as
    there are at least as many relations as statements. *)
Lemma mapping_dom rels stmts :
  (length stmts ≤ length rels)%nat →
  dom (evidence_count_mapping rels stmts) = list_to_set (List.map get_hash stmts).
Proof.
  intros H. unfold evidence_count_mapping.
  rewrite mapping_fold_dom, zip_statements by exact H. set_solver.
Qed.

Lemma mapping_fold_other (pairs : list (Relation * Statement)) d h :
  ¬ In h (List.map (λ p, get_hash p.2) pairs) →
  fold_left (λ d p, <[get_hash p.2 := get_evidence_count p.1]> d) pairs d !! h = d !! h.
Proof.
  revert d. induction pairs as [|p ps IH]; intros d Hh; simpl; [reflexivity|].
  rewrite IH by (intros Hin; apply Hh; right; exact Hin).
  apply lookup_insert_ne. intros Heq. apply Hh. left. exact Heq.
Qed.

(** When the relations and the statements are aligned and the hashes are
    pairwise distinct, every statement is recorded with the evidence count of
    its own relation. *)
Lemma mapping_aligned rels stmts :
  List.map get_hash stmts = List.map stmt_hash rels →
  List.NoDup (List.map stmt_hash rels) →
  ∀ r, In r rels →
    evidence_count_mapping rels stmts !! stmt_hash r = Some (get_evidence_count r).
Proof.
  unfold evidence_count_mapping. generalize (∅ : gmap Z Z).
  revert stmts. induction rels as [|r' rs IH]; intros stmts d Hal Hnd r Hr; [destruct Hr|].
  destruct stmts as [|s ss]; [discriminate|]. simpl in Hal. injection Hal as Hs Hss.
  inversion Hnd as [|h hs Hh Hnd']; subst. simpl.
  destruct Hr as [-> | Hr].
  - rewrite mapping_fold_other.
    + rewrite Hs. apply lookup_insert_eq.
    + rewrite zip_statements by (apply (f_equal (@length Z)) in Hss;
                                 rewrite !length_map in Hss; lia).
      rewrite Hss. exact Hh.
  - apply IH; assumption.
Qed.

End Mapping.

(** ** Grouping by statement hash in the over-representation query *)

Section Collect.

Variable P : Relation → Prop.

Lemma collect_into_keys r groups :
  List.map fst (collect_into r groups)
  = if in_dec Z.eq_dec (stmt_hash r) (List.map fst groups)
    then List.map fst groups
    else (List.map fst groups ++ [stmt_hash r])%list.
Proof.
  induction groups as [|[h pp] rest IH]; simpl.
  - reflexivity.
  - destruct (Z.eqb_spec h (stmt_hash r)) as [Heq|Hne]; simpl.
    + destruct (Z.eq_dec h (stmt_hash r)); [reflexivity | contradiction].
    + rewrite IH.
      destruct (Z.eq_dec h (stmt_hash r)); [contradiction|].
      destruct (in_dec Z.eq_dec (stmt_hash r) (List.map fst rest)); reflexivity.
Qed.

Lemma collect_into_ok r groups :
  P r → Forall (group_ok P) groups → Forall (group_ok P) (collect_into r groups).
Proof.
  intros Hr. induction 1 as [|[h pp] rest [Hne Hpp] Hrest IH]; simpl.
  - constructor; [|constructor]. split; simpl; [discriminate|].
    constructor; [split; [reflexivity | exact Hr] | constructor].
  - destruct (Z.eqb_spec h (stmt_hash r)) as [Heq|Hneq].
    + constructor; [|assumption]. simpl in *. split.
      * destruct pp; [contradiction | discriminate].
      * apply Forall_app. split; [exact Hpp|].
        constructor; [split; [symmetry; exact Heq | exact Hr] | constructor].
    + constructor; [split; assumption | exact IH].
Qed.

Lemma collect_into_NoDup r groups :
  List.NoDup (List.map fst groups) → List.NoDup (List.map fst (collect_into r groups)).
Proof.
  intros Hnd. rewrite collect_into_keys.
  destruct (in_dec _ _ _) as [|Hout]; [exact Hnd|].
  apply NoDup_rev in Hnd. rewrite <- (rev_involutive (_ ++ _)%list).
  apply NoDup_rev. rewrite rev_app_distr. simpl.
  constructor; [|exact Hnd]. rewrite <- in_rev. exact Hout.
Qed.

Lemma collect_fold_ok paths groups :
  Forall P paths → List.NoDup (List.map fst groups) → Forall (group_ok P) groups →
  let groups' := fold_left (λ groups r, collect_into r groups) paths groups in
  List.NoDup (List.map fst groups') ∧ Forall (group_ok P) groups'.
Proof.
  revert groups. induction paths as [|r rs IH]; intros groups Hp Hnd Hok; simpl.
  - split; assumption.
  - inversion Hp; subst.
    apply IH; [assumption | apply collect_into_NoDup, Hnd | apply collect_into_ok; assumption].
Qed.

(** Taking the first path of every group never fails, and gives relations
    with pairwise distinct hashes. *)
Lemma first_paths_ok (groups : list (Z * list Relation)) :
  Forall (group_ok P) groups →
  ∃ heads, comprehension (λ i, py_index i 0) (List.map snd groups) = Ok heads
           ∧ List.map stmt_hash heads = List.map fst groups
           ∧ Forall P heads.
Proof.
  induction 1 as [|[h pp] rest [Hne Hpp] _ (heads & IH & Hk & Hp)]; simpl.
  - exists []. repeat split; constructor.
  - destruct pp as [|r pp]; [contradiction|]. simpl in *.
    inversion Hpp as [|? ? [Hh Hr] _]; subst.
    rewrite IH. simpl. exists (r :: heads). repeat split; simpl.
    + f_equal. exact Hk.
    + constructor; assumption.
Qed.

Lemma flatten_collected (paths : list Relation) :
  Forall P paths →
  ∃ heads, flatten_results (List.map (λ pp, [pp]) (collect_by_hash paths)) = Ok heads
           ∧ List.NoDup (List.map stmt_hash heads)
           ∧ Forall P heads.
Proof.
  intros Hp. unfold flatten_results, collect_by_hash.
  destruct (collect_fold_ok paths [] Hp) as [Hnd Hok]; [constructor | constructor |].
  destruct (first_paths_ok _ Hok) as (heads & Hc & Hk & Hh).
  exists heads. repeat split; [|rewrite Hk; exact Hnd | exact Hh].
  rewrite <- Hc. f_equal.
  generalize (fold_left (λ groups r, collect_into r groups) paths []).
  intros l. induction l as [|g l IH]; simpl; [reflexivity | f_equal; exact IH].
Qed.

End Collect.

(** ** What the three retrieval functions compute *)

Section Pipelines.

Variable norm_id : string → string → string.
Variable parse_metabolites : list string → list string * list string.

Lemma signed_relations_eq nt pg ng rts mb me client log :
  signed_relations nt pg ng rts mb me client log
  = (Ok (signed_flattened nt pg ng rts mb me client),
     (log ++ signed_calls nt pg ng rts mb me)%list).
Proof.
  unfold signed_relations, signed_flattened, signed_calls, append_paths. unfold_M.
  destruct pg as [|p pg], ng as [|n ng]; simpl;
    rewrite ?comprehension_singletons; simpl;
    rewrite ?comprehension_singletons; simpl;
    rewrite ?app_nil_r, <- ?app_assoc; reflexivity.
Qed.

Lemma get_signed_statements_eq target pos neg mb me client log pg ng ns idp :
  normalize_genes norm_id pos = Ok pg →
  normalize_genes norm_id neg = Ok ng →
  py_index (PyStr.split colon target) 0 = Ok ns →
  py_index (PyStr.split colon target) 1 = Ok idp →
  let nt := (signed_entity (PyStr.lower ns) idp target).1 in
  let rts := (signed_entity (PyStr.lower ns) idp target).2 in
  let rels := signed_flattened nt pg ng rts mb me client in
  get_signed_statements norm_id target pos neg mb me client log
  = (Ok (result_of client rels),
     (log ++ signed_calls nt pg ng rts mb me ++ [enrich_call rels])%list).
Proof.
  intros Hp Hn Hns Hid. unfold get_signed_statements. unfold_M.
  rewrite Hp, Hn, Hns, Hid. simpl.
  destruct (signed_entity (PyStr.lower ns) idp target) as [nt rts]. simpl.
  rewrite signed_relations_eq. simpl.
  rewrite <- app_assoc. reflexivity.
Qed.

Lemma get_signed_statements_raises target pos neg mb me client log :
  (∃ e, normalize_genes norm_id pos = Raise e)
  ∨ (∃ e, normalize_genes norm_id neg = Raise e)
  ∨ (∃ e, py_index (PyStr.split colon target) 1 = Raise e) →
  ∃ e, get_signed_statements norm_id target pos neg mb me client log = (Raise e, log).
Proof.
  unfold get_signed_statements. unfold_M.
  destruct (normalize_genes norm_id pos) as [pg|e1]; [|eauto].
  destruct (normalize_genes norm_id neg) as [ng|e2]; [|eauto].
  destruct (split_head_always colon target) as [ns ->]. simpl.
  destruct (py_index (PyStr.split colon target) 1) as [idp|e3]; [|eauto].
  intros [[e H] | [[e H] | [e H]]]; discriminate.
Qed.

Lemma get_metabolite_statements_eq target metabolites mb me client log :
  let metabolite_list :=
    List.map (λ m, ("chebi:" ++ PyStr.lower m)%string) (parse_metabolites metabolites).1 in
  let params :=
    {| mp_target_id := if negb (PyStr.contains colon target)
                       then ("eccode:" ++ target)%string else target;
       mp_metabolite_list := metabolite_list;
       mp_minimum_belief := mb;
       mp_minimum_evidence := me |} in
  let rels := metabolite_rows client params in
  get_metabolite_statements parse_metabolites target metabolites mb me client log
  = (Ok (result_of client rels),
     (log ++ [DiscoveryQuery metabolite_list; MetaboliteQuery params; enrich_call rels])%list).
Proof.
  unfold get_metabolite_statements. unfold_M.
  destruct (parse_metabolites metabolites) as [chebi_ids errors]. simpl.
  unfold append_paths. rewrite comprehension_singletons. simpl.
  rewrite <- !app_assoc. reflexivity.
Qed.

Lemma filter_Forall_both {A : Type} (f : A → bool) (l : list A) :
  Forall (λ x, In x l ∧ f x = true) (List.filter f l).
Proof. apply List.Forall_forall. intros x Hx. apply filter_In in Hx. exact Hx. Qed.

Lemma NoDup_map_filter {A B : Type} (g : A → B) (f : A → bool) (l : list A) :
  List.NoDup (List.map g l) → List.NoDup (List.map g (List.filter f l)).
Proof.
  induction l as [|x l IH]; simpl; [auto|].
  intros Hnd. inversion Hnd as [|? ? Hx Hnd']; subst.
  destruct (f x); simpl; [|auto].
  constructor; [|auto].
  intros Hin. apply Hx. apply in_map_iff in Hin as (y & Hy & Hin).
  apply in_map_iff. exists y. split; [exact Hy|].
  apply filter_In in Hin. tauto.
Qed.

(** The first paths of the groups do not depend on the evidence threshold,
    which [get_ora_statements] applies afterwards. *)
Lemma get_ora_statements_heads target genes mb ds client pg ns idp :
  normalize_genes norm_id genes = Ok pg →
  py_index (PyStr.split colon target) 0 = Ok ns →
  py_index (PyStr.split colon target) 1 = Ok idp →
  let nt := (ora_entity (PyStr.lower ns) idp target).1 in
  let rts := (ora_entity (PyStr.lower ns) idp target).2 in
  let params := {| op_target_id := nt; op_genes := pg;
                   op_rel_types := rts; op_minimum_belief := mb |} in
  ∃ heads,
    List.NoDup (List.map stmt_hash heads)
    ∧ Forall (λ r, In r (edges client) ∧ ora_matches ds nt pg rts mb r = true) heads
    ∧ ∀ me log,
        get_ora_statements norm_id target genes mb me ds client log
        = (Ok (result_of client (ora_kept me heads)),
           (log ++ [OraQuery ds params; enrich_call (ora_kept me heads)])%list).
Proof.
  intros Hg Hns Hid nt rts params.
  destruct (flatten_collected
              (λ r, In r (edges client) ∧ ora_matches ds nt pg rts mb r = true)
              (List.filter (ora_matches ds nt pg rts mb) (edges client))
              (filter_Forall_both _ _)) as (heads & Hflat & Hnd & Hheads).
  exists heads. split; [exact Hnd|]. split; [exact Hheads|].
  intros me log. unfold get_ora_statements, ora_kept. unfold_M. rewrite Hg, Hns, Hid. simpl.
  subst params nt rts.
  destruct (ora_entity (PyStr.lower ns) idp target) as [nt rts]. simpl in *.
  rewrite Hflat. simpl. rewrite <- app_assoc. reflexivity.
Qed.

Lemma ora_kept_NoDup me heads :
  List.NoDup (List.map stmt_hash heads) → List.NoDup (List.map stmt_hash (ora_kept me heads)).
Proof.
  intros Hnd. unfold ora_kept.
  destruct (truthy_int me); [apply NoDup_map_filter|]; exact Hnd.
Qed.

Lemma ora_kept_In me heads r :
  In r (ora_kept me heads) →
  In r heads ∧ (truthy_int me = true → has_minimum_evidence me r = true).
Proof.
  unfold ora_kept. destruct (truthy_int me).
  - intros Hr. apply filter_In in Hr. tauto.
  - intros Hr. split; [exact Hr | discriminate].
Qed.

Lemma get_ora_statements_eq target genes mb me ds client log pg ns idp :
  normalize_genes norm_id genes = Ok pg →
  py_index (PyStr.split colon target) 0 = Ok ns →
  py_index (PyStr.split colon target) 1 = Ok idp →
  let nt := (ora_entity (PyStr.lower ns) idp target).1 in
  let rts := (ora_entity (PyStr.lower ns) idp target).2 in
  let params := {| op_target_id := nt; op_genes := pg;
                   op_rel_types := rts; op_minimum_belief := mb |} in
  ∃ rels,
    get_ora_statements norm_id target genes mb me ds client log
    = (Ok (result_of client rels),
       (log ++ [OraQuery ds params; enrich_call rels])%list)
    ∧ List.NoDup (List.map stmt_hash rels)
    ∧ Forall (λ r, (In r (edges client) ∧ ora_matches ds nt pg rts mb r = true)
                   ∧ (truthy_int me = true → has_minimum_evidence me r = true)) rels.
Proof.
  intros Hg Hns Hid nt rts params.
  destruct (get_ora_statements_heads target genes mb ds client pg ns idp Hg Hns Hid)
    as (heads & Hnd & Hheads & Heq).
  exists (ora_kept me heads). split; [apply Heq|]. split; [apply ora_kept_NoDup, Hnd|].
  apply List.Forall_forall. intros r Hr. apply ora_kept_In in Hr as [Hr Hmin].
  rewrite List.Forall_forall in Hheads. split; [apply Hheads, Hr | exact Hmin].
Qed.

Lemma get_ora_statements_raises target genes mb me ds client log :
  (∃ e, normalize_genes norm_id genes = Raise e)
  ∨ (∃ e, py_index (PyStr.split colon target) 1 = Raise e) →
  ∃ e, get_ora_statements norm_id target genes mb me ds client log = (Raise e, log).
Proof.
  unfold get_ora_statements. unfold_M.
  destruct (normalize_genes norm_id genes) as [pg|e1]; [|eauto].
  destruct (split_head_always colon target) as [ns ->]. simpl.
  destruct (py_index (PyStr.split colon target) 1) as [idp|e3]; [|eauto].
  intros [[e H] | [e H]]; discriminate.
Qed.

End Pipelines.

(** ** The assembled statements and the evidence-count mapping *)

Lemma stmts_of_hashes client rels :
  List.map get_hash (stmts_of client rels) = List.map get_hash (assemble ∅ rels).
Proof. unfold stmts_of. simpl. rewrite map_map. reflexivity. Qed.

Lemma stmts_of_seeds client rels :
  List.map seed (stmts_of client rels) = List.map seed (assemble ∅ rels).
Proof. unfold stmts_of. simpl. rewrite map_map. reflexivity. Qed.

Lemma stmts_of_length client rels :
  (length (stmts_of client rels) ≤ length rels)%nat.
Proof. unfold stmts_of. simpl. rewrite length_map. apply assemble_length. Qed.

Lemma stmts_of_inv client rels s :
  In s (stmts_of client rels) →
  ∃ s0, In s0 (assemble ∅ rels) ∧ get_hash s = get_hash s0 ∧ seed s = seed s0.
Proof.
  unfold stmts_of. simpl. intros Hs. apply in_map_iff in Hs as (s0 & <- & Hs0).
  exists s0. auto.
Qed.

Lemma result_of_dom client rels :
  dom (result_of client rels).2 = list_to_set (List.map get_hash (result_of client rels).1).
Proof. apply mapping_dom, stmts_of_length. Qed.

(** C5. For any input sequence of relations the assembled statements have
    pairwise distinct hashes; every hash of the input is the hash of exactly
    one statement and no other hash occurs; the seed of a statement is the
    first relation of the input that has the statement's hash; and the seeds
    form a subsequence of the input, so that the statements come in the order
    in which their hashes first appear. *)
Theorem assembled_statements_deduplicated (client : Neo4jClient) (rels : list Relation) :
  List.NoDup (List.map get_hash (stmts_of client rels))
  ∧ (∀ h, In h (List.map stmt_hash rels)
          ↔ count_occ Z.eq_dec (List.map get_hash (stmts_of client rels)) h = 1%nat)
  ∧ (∀ h, ¬ In h (List.map stmt_hash rels)
          ↔ count_occ Z.eq_dec (List.map get_hash (stmts_of client rels)) h = 0%nat)
  ∧ (∀ s, In s (stmts_of client rels) →
          get_hash s = stmt_hash (seed s)
          ∧ ∃ pre post, rels = (pre ++ seed s :: post)%list
                        ∧ ∀ r, In r pre → stmt_hash r ≠ get_hash s)
  ∧ sublist (List.map seed (stmts_of client rels)) rels.
Proof.
  rewrite stmts_of_hashes, stmts_of_seeds.
  pose proof (assemble_NoDup ∅ rels) as Hnd.
  assert (Hsame : ∀ h, In h (List.map stmt_hash rels)
                       ↔ In h (List.map get_hash (assemble ∅ rels))).
  { intros h. split.
    - intros Hin. apply in_map_iff in Hin as (r & <- & Hr).
      apply assemble_covers; [exact Hr | set_solver].
    - apply assemble_from_input. }
  split; [exact Hnd|]. split; [|split; [|split]].
  - intros h. rewrite Hsame. split.
    + intros Hin. apply NoDup_count_occ'; assumption.
    + intros Hc. apply (count_occ_In Z.eq_dec). lia.
  - intros h. rewrite Hsame. apply count_occ_not_In.
  - intros s Hs. destruct (stmts_of_inv _ _ _ Hs) as (s0 & Hs0 & Hh & Hseed).
    rewrite Hh, Hseed. split.
    + rewrite (assemble_seed _ _ _ Hs0) at 1. reflexivity.
    + apply (assemble_first _ _ _ Hs0).
  - apply assemble_sublist.
Qed.

Lemma assembled_statements_deduplicated_witness :
  List.map get_hash (stmts_of Sample.client (edges Sample.client)) = [11; 22; 33]
  ∧ List.NoDup (List.map get_hash (stmts_of Sample.client (edges Sample.client))).
Proof.
  split; [reflexivity|].
  apply (assembled_statements_deduplicated Sample.client (edges Sample.client)).
Defined.

Section Results.

Variable norm_id : string → string → string.
Variable parse_metabolites : list string → list string * list string.

(** Whatever a retrieval function returns was built by [result_of] from some
    list of relations. *)
Lemma get_ora_statements_result target genes mb me ds client res log :
  run (get_ora_statements norm_id target genes mb me ds client) = (Ok res, log) →
  ∃ rels, res = result_of client rels ∧ List.NoDup (List.map stmt_hash rels).
Proof.
  unfold run. intros Hrun.
  destruct (normalize_genes norm_id genes) as [pg|e] eqn:Hg.
  2:{ destruct (get_ora_statements_raises norm_id target genes mb me ds client [])
        as [e' He']; [eauto|]. congruence. }
  destruct (py_index (PyStr.split colon target) 1) as [idp|e] eqn:Hid.
  2:{ destruct (get_ora_statements_raises norm_id target genes mb me ds client [])
        as [e' He']; [eauto|]. congruence. }
  destruct (split_head_always colon target) as [ns Hns].
  destruct (get_ora_statements_eq norm_id target genes mb me ds client [] pg ns idp Hg Hns Hid)
    as (rels & Heq & Hnd & _).
  exists rels. split; [congruence | exact Hnd].
Qed.

Lemma get_signed_statements_result target pos neg mb me client res log :
  run (get_signed_statements norm_id target pos neg mb me client) = (Ok res, log) →
  ∃ nt pg ng rts, res = result_of client (signed_flattened nt pg ng rts mb me client).
Proof.
  unfold run. intros Hrun.
  destruct (normalize_genes norm_id pos) as [pg|e] eqn:Hp.
  2:{ destruct (get_signed_statements_raises norm_id target pos neg mb me client [])
        as [e' He']; [eauto|]. congruence. }
  destruct (normalize_genes norm_id neg) as [ng|e] eqn:Hn.
  2:{ destruct (get_signed_statements_raises norm_id target pos neg mb me client [])
        as [e' He']; [eauto|]. congruence. }
  destruct (py_index (PyStr.split colon target) 1) as [idp|e] eqn:Hid.
  2:{ destruct (get_signed_statements_raises norm_id target pos neg mb me client [])
        as [e' He']; [eauto 6|]. congruence. }
  destruct (split_head_always colon target) as [ns Hns].
  pose proof (get_signed_statements_eq norm_id target pos neg mb me client []
                pg ng ns idp Hp Hn Hns Hid) as Heq.
  simpl in Heq. rewrite Heq in Hrun. injection Hrun as <- _. eauto.
Qed.

(** C4. The keys of the evidence-count mapping that a retrieval function
    returns are exactly the hashes of the statements it returns with it, in
    each of the three retrieval functions. *)
Theorem evidence_index_domain (client : Neo4jClient) :
  (∀ target genes mb me ds stmts evidence_counts log,
     run (get_ora_statements norm_id target genes mb me ds client)
     = (Ok (stmts, evidence_counts), log) →
     dom evidence_counts = list_to_set (List.map get_hash stmts))
  ∧ (∀ target pos neg mb me stmts evidence_counts log,
       run (get_signed_statements norm_id target pos neg mb me client)
       = (Ok (stmts, evidence_counts), log) →
       dom evidence_counts = list_to_set (List.map get_hash stmts))
  ∧ (∀ target metabolites mb me stmts evidence_counts log,
       run (get_metabolite_statements parse_metabolites target metabolites mb me client)
       = (Ok (stmts, evidence_counts), log) →
       dom evidence_counts = list_to_set (List.map get_hash stmts)).
Proof.
  split; [|split].
  - intros target genes mb me ds stmts ec log Hrun.
    apply get_ora_statements_result in Hrun as (rels & Hres & _).
    pose proof (result_of_dom client rels) as Hdom. rewrite <- Hres in Hdom. exact Hdom.
  - intros target pos neg mb me stmts ec log Hrun.
    apply get_signed_statements_result in Hrun as (nt & pg & ng & rts & Hres).
    pose proof (result_of_dom client (signed_flattened nt pg ng rts mb me client)) as Hdom.
    rewrite <- Hres in Hdom. exact Hdom.
  - intros target metabolites mb me stmts ec log Hrun.
    unfold run in Hrun. rewrite get_metabolite_statements_eq in Hrun.
    injection Hrun as Hs He _.
    rewrite <- Hs, <- He. apply result_of_dom.
Qed.

End Results.

Lemma evidence_index_domain_witness :
  match run (get_signed_statements Sample.norm_id "MESH:D007239" ["HGNC:1"; "HGNC:2"] []
               0%float (Some 1) Sample.client) with
  | (Ok (stmts, evidence_counts), _) =>
      List.map get_hash stmts = [11; 22; 33]
      ∧ dom evidence_counts = list_to_set (List.map get_hash stmts)
  | (Raise _, _) => False
  end.
Proof.
  destruct (run (get_signed_statements Sample.norm_id "MESH:D007239" ["HGNC:1"; "HGNC:2"] []
                   0%float (Some 1) Sample.client))
    as [[[stmts evidence_counts]|e] log] eqn:E.
  - split.
    + vm_compute in E. injection E as <- _ _. reflexivity.
    + exact (proj1 (proj2 (evidence_index_domain Sample.norm_id Sample.parse_metabolites
                             Sample.client)) _ _ _ _ _ _ _ _ E).
  - vm_compute in E. discriminate E.
Defined.

(** ** Alignment of relations and statements *)

(** On relations with pairwise distinct hashes, the i-th statement has the
    hash of the i-th relation and the mapping records every statement with
    the evidence count of its own relation. *)
Lemma result_of_aligned client rels :
  List.NoDup (List.map stmt_hash rels) →
  List.map get_hash (result_of client rels).1 = List.map stmt_hash rels
  ∧ ∀ r, In r rels →
      (result_of client rels).2 !! stmt_hash r = Some (get_evidence_count r).
Proof.
  intros Hnd.
  assert (Hal : List.map get_hash (stmts_of client rels) = List.map stmt_hash rels).
  { rewrite stmts_of_hashes, assemble_distinct; [|exact Hnd|set_solver].
    rewrite map_map. reflexivity. }
  split; [exact Hal|].
  intros r Hr. simpl. apply mapping_aligned; assumption.
Qed.

(** The over-representation query returns one path per statement hash, so
    the relations and the statements of [get_ora_statements] are aligned. *)
Lemma ora_statements_aligned norm_id target genes mb me ds client stmts evidence_counts log :
  run (get_ora_statements norm_id target genes mb me ds client)
  = (Ok (stmts, evidence_counts), log) →
  ∀ s, In s stmts → evidence_counts !! get_hash s = Some (get_evidence_count (seed s)).
Proof.
  intros Hrun s Hs.
  apply get_ora_statements_result in Hrun as (rels & Hres & Hnd).
  injection Hres as -> ->.
  destruct (stmts_of_inv _ _ _ Hs) as (s0 & Hs0 & -> & ->).
  rewrite (assemble_seed _ _ _ Hs0) at 1. simpl.
  apply (proj2 (result_of_aligned client rels Hnd)).
  destruct (assemble_first _ _ _ Hs0) as (pre & post & Hrels & _).
  rewrite Hrels. apply in_or_app. right. left. reflexivity.
Qed.

(** C1. The positional pairing of relations and statements breaks in the
    signed retrieval as soon as two retrieved relations share a statement
    hash.  On the sample graph the four retrieved relations have the hashes
    11, 11, 22, 33 and the evidence counts 5, 5, 7, 1; the three statements
    have the hashes 11, 22, 33; the second relation (hash 11) is paired with
    the second statement (hash 22), and the mapping records the statements 22
    and 33 with the evidence counts 5 and 7 of other relations. *)
Theorem signed_index_misaligned :
  (run (signed_relations "mesh:D007239" ["hgnc:1"; "hgnc:2"] []
          ["indra_rel"; "has_indication"] 0%float (Some 1) Sample.client)).1
  = Ok (edges Sample.client)
  ∧ List.map (λ r, (stmt_hash r, get_evidence_count r)) (edges Sample.client)
    = [(11, 5); (11, 5); (22, 7); (33, 1)]
  ∧ ∃ stmts evidence_counts log,
      run (get_signed_statements Sample.norm_id "MESH:D007239" ["HGNC:1"; "HGNC:2"] []
             0%float (Some 1) Sample.client) = (Ok (stmts, evidence_counts), log)
      ∧ List.map get_hash stmts = [11; 22; 33]
      ∧ stmt_hash <$> edges Sample.client !! 1%nat = Some 11
      ∧ get_hash <$> stmts !! 1%nat = Some 22
      ∧ evidence_counts !! 11 = Some 5
      ∧ evidence_counts !! 22 = Some 5
      ∧ evidence_counts !! 33 = Some 7.
Proof.
  split; [vm_compute; reflexivity|]. split; [reflexivity|].
  eexists _, _, _. split; [vm_compute; reflexivity|].
  repeat split; vm_compute; reflexivity.
Qed.

(** ** The rows of the undirected queries *)

Lemma match_undirected_In (w : Relation → Node → Node → bool) (es : list Relation) r :
  In r (match_undirected w es)
  ↔ In r es ∧ ∃ ab, In ab (orientations r) ∧ w r ab.1 ab.2 = true.
Proof.
  unfold match_undirected. rewrite in_flat_map. split.
  - intros (r' & Hr' & Hin). apply in_map_iff in Hin as (ab & <- & Hab).
    apply filter_In in Hab. split; [exact Hr' | exists ab; exact Hab].
  - intros (Hr & ab & Hab & Hw). exists r. split; [exact Hr|].
    apply in_map_iff. exists ab. split; [reflexivity|].
    apply filter_In. split; assumption.
Qed.

Lemma match_undirected_incl (w1 w2 : Relation → Node → Node → bool) (es : list Relation) :
  (∀ r a b, w1 r a b = true → w2 r a b = true) →
  ∀ r, In r (match_undirected w1 es) → In r (match_undirected w2 es).
Proof.
  intros Hw r. rewrite !match_undirected_In.
  intros (Hr & ab & Hab & H1). split; [exact Hr|]. exists ab. auto.
Qed.

(** The two orientations of an edge bind the two ends of the pattern to the
    two ends of the edge. *)
Lemma orientations_ends r ab :
  In ab (orientations r) →
  (ab.1 = source r ∧ ab.2 = target r) ∨ (ab.1 = target r ∧ ab.2 = source r).
Proof.
  unfold orientations. destruct (node_eqb (source r) (target r)); simpl.
  - intros [<- | []]. left. split; reflexivity.
  - intros [<- | [<- | []]]; [left | right]; split; reflexivity.
Qed.

Lemma str_in_In (s : string) (l : list string) : str_in s l = true ↔ In s l.
Proof.
  unfold str_in. rewrite existsb_exists. split.
  - intros (x & Hx & Heq). apply String.eqb_eq in Heq. subst. exact Hx.
  - intros Hin. exists s. split; [exact Hin | apply String.eqb_refl].
Qed.

Lemma cy_in_In (x : option string) (l : list string) :
  cy_in x l = true ↔ ∃ s, x = Some s ∧ In s l.
Proof.
  destruct x as [s|]; simpl.
  - fold (str_in s l). rewrite str_in_In. split; [eauto|].
    intros (s' & [= <-] & Hin). exact Hin.
  - split; [discriminate | intros (s & [=] & _)].
Qed.

(** ** The sign and direction table *)

Lemma signed_rows_restricted client p r :
  In r (signed_rows client p) →
  direction_restricted (sp_target_id p) (sp_gene_list p)
    (stmt_types_gene_to_target p) (stmt_types_target_to_gene p) r.
Proof.
  unfold signed_rows. rewrite match_undirected_In.
  intros (_ & [gene tgt] & Hab & Hw). simpl in Hw.
  unfold signed_where in Hw. rewrite !andb_true_iff in Hw.
  destruct Hw as ((((((Ht & _) & Hg) & _) & _) & _) & Hd).
  apply String.eqb_eq in Ht. apply str_in_In in Hg.
  apply orb_prop in Hd as [Hd | Hd];
    apply andb_prop in Hd as [Hstart Hty]; apply cy_in_In in Hty;
    unfold node_eqb in Hstart; apply String.eqb_eq in Hstart;
    destruct (orientations_ends _ _ Hab) as [[H1 H2] | [H1 H2]];
    simpl in H1, H2; subst gene tgt.
  - left. auto.
  - left. split; [rewrite Hstart; exact Hg|]. split; [rewrite <- Hstart; exact Ht | exact Hty].
  - right. split; [rewrite Hstart; exact Ht|]. split; [rewrite <- Hstart; exact Hg | exact Hty].
  - right. auto.
Qed.



(** ** The belief threshold *)

Lemma signed_rows_above client p r :
  In r (signed_rows client p) → cy_gt (belief r) (sp_minimum_belief p) = true.
Proof.
  unfold signed_rows. rewrite match_undirected_In.
  intros (_ & ab & _ & Hw). unfold signed_where in Hw. rewrite !andb_true_iff in Hw.
  tauto.
Qed.

Lemma metabolite_rows_above client p r :
  In r (metabolite_rows client p) → cy_gt (belief r) (mp_minimum_belief p) = true.
Proof.
  unfold metabolite_rows. rewrite match_undirected_In.
  intros (_ & ab & _ & Hw). unfold metabolite_where in Hw. rewrite !andb_true_iff in Hw.
  tauto.
Qed.

Lemma ora_matches_above ds t genes rts mb r :
  ora_matches ds t genes rts mb r = true →
  rel_type r = "indra_rel" → cy_gt (belief r) mb = true.
Proof.
  intros Hm Hty. unfold ora_matches, ora_where in Hm. rewrite Hty in Hm.
  destruct ds; rewrite !andb_true_iff in Hm; simpl in Hm; tauto.
Qed.

(** C9. A relation whose belief equals the requested minimum belief is not
    among the rows of the signed query or of the metabolite query, and it
    does not match the over-representation query when its label is
    [indra_rel]: the comparison is strict.  For a relation with any other
    label the over-representation query gives the same answer whatever the
    threshold and whatever the belief of the relation. *)
Theorem belief_threshold_strict :
  (∀ client p r b,
     belief r = Some b →
     b = sp_minimum_belief p ∨ PrimFloat.eqb b (sp_minimum_belief p) = true →
     ¬ In r (signed_rows client p))
  ∧ (∀ client p r b,
       belief r = Some b →
       b = mp_minimum_belief p ∨ PrimFloat.eqb b (mp_minimum_belief p) = true →
       ¬ In r (metabolite_rows client p))
  ∧ (∀ is_downstream target_id genes rel_types minimum_belief r b,
       rel_type r = "indra_rel" →
       belief r = Some b →
       b = minimum_belief ∨ PrimFloat.eqb b minimum_belief = true →
       ora_matches is_downstream target_id genes rel_types minimum_belief r = false)
  ∧ (∀ is_downstream target_id genes rel_types minimum_belief minimum_belief' r b',
       rel_type r ≠ "indra_rel" →
       ora_matches is_downstream target_id genes rel_types minimum_belief r
       = ora_matches is_downstream target_id genes rel_types minimum_belief' (with_belief r b')).
Proof.
  split; [|split; [|split]].
  - intros client p r b Hb Heq Hin. apply signed_rows_above in Hin.
    rewrite Hb, (cy_gt_at_threshold _ _ Heq) in Hin. discriminate.
  - intros client p r b Hb Heq Hin. apply metabolite_rows_above in Hin.
    rewrite Hb, (cy_gt_at_threshold _ _ Heq) in Hin. discriminate.
  - intros ds t genes rts mb r b Hty Hb Heq.
    destruct (ora_matches ds t genes rts mb r) eqn:Hm; [|reflexivity].
    apply ora_matches_above in Hm; [|exact Hty].
    rewrite Hb, (cy_gt_at_threshold _ _ Heq) in Hm. discriminate.
  - intros ds t genes rts mb mb' r b' Hty.
    apply String.eqb_neq in Hty.
    unfold ora_matches, ora_where, with_belief. simpl. rewrite Hty. simpl.
    destruct ds; reflexivity.
Qed.

Lemma belief_threshold_strict_witness :
  (ora_matches false "mesh:D007239" ["hgnc:2"] ["indra_rel"; "has_indication"]
     0.75%float Sample.indication = true
   ∧ ora_matches false "mesh:D007239" ["hgnc:2"] ["indra_rel"; "has_indication"]
       0%float (with_belief Sample.indication (Some 0.25%float)) = true)
  ∧ In Sample.activation
      (signed_rows Sample.client
         (pos_params "mesh:D007239" ["hgnc:1"] ["indra_rel"] 0.25%float (Some 1)))
  ∧ ¬ In Sample.activation
        (signed_rows Sample.client
           (pos_params "mesh:D007239" ["hgnc:1"] ["indra_rel"] 0.5%float (Some 1)))
  ∧ ora_matches false "mesh:D007239" ["hgnc:1"] ["indra_rel"] 0.5%float Sample.activation
    = false.
Proof.
  destruct belief_threshold_strict as (Hsigned & _ & Hora & Hother).
  split; [|split; [|split]].
  - split; [reflexivity|].
    rewrite <- (Hother false "mesh:D007239" ["hgnc:2"] ["indra_rel"; "has_indication"]
                  0.75%float 0%float Sample.indication (Some 0.25%float));
      [reflexivity | discriminate].
  - vm_compute. tauto.
  - apply (Hsigned Sample.client _ Sample.activation 0.5%float);
      [reflexivity | left; reflexivity].
  - apply (Hora false _ _ _ _ Sample.activation 0.5%float);
      [reflexivity | reflexivity | right; reflexivity].
Defined.

(** ** Gene identifiers without a separator *)

Lemma normalize_genes_raises norm_id genes :
  Exists (λ g, PyStr.contains colon g = false) genes →
  normalize_genes norm_id genes = Raise IndexError.
Proof.
  intros Hex. unfold normalize_genes. apply comprehension_raises.
  - intros g e. unfold py_index. destruct (PyStr.split colon g !! 1%nat); simpl; congruence.
  - eapply List.Exists_impl; [|exact Hex]. intros g Hg. simpl.
    rewrite (id_part_missing g Hg). reflexivity.
Qed.

Lemma normalize_genes_ok norm_id genes :
  Forall (λ g, PyStr.contains colon g = true) genes →
  ∃ normalized, normalize_genes norm_id genes = Ok normalized.
Proof.
  intros Hall. unfold normalize_genes. apply comprehension_ok.
  eapply List.Forall_impl; [|exact Hall]. intros g Hg. simpl.
  destruct (id_part_present g Hg) as [i ->]. simpl. eauto.
Qed.

Lemma normalize_genes_cases norm_id genes :
  (∃ normalized, normalize_genes norm_id genes = Ok normalized)
  ∨ normalize_genes norm_id genes = Raise IndexError.
Proof.
  destruct (List.Forall_Exists_dec (λ g, PyStr.contains colon g = true)
              (λ g, bool_dec (PyStr.contains colon g) true) genes) as [Hall | Hex].
  - left. apply normalize_genes_ok, Hall.
  - right. apply normalize_genes_raises.
    eapply List.Exists_impl; [|exact Hex]. intros g Hg. simpl in Hg.
    destruct (PyStr.contains colon g); congruence.
Qed.

(** C10. When some element of a gene list has no [':'], the normalisation
    [gene.split(':')[1]] raises [IndexError]; [get_ora_statements] and
    [get_signed_statements] end with that uncaught error, before any query
    is sent, and return neither statements nor a list of rejected
    identifiers. *)
Theorem gene_without_separator_aborts (norm_id : string → string → string) :
  (∀ target genes mb me ds client,
     Exists (λ g, PyStr.contains colon g = false) genes →
     run (get_ora_statements norm_id target genes mb me ds client)
     = (Raise IndexError, []))
  ∧ (∀ target pos neg mb me client,
       Exists (λ g, PyStr.contains colon g = false) (pos ++ neg)%list →
       run (get_signed_statements norm_id target pos neg mb me client)
       = (Raise IndexError, [])).
Proof.
  split.
  - intros target genes mb me ds client Hex.
    unfold run, get_ora_statements. unfold_M.
    rewrite (normalize_genes_raises norm_id genes Hex). reflexivity.
  - intros target pos neg mb me client Hex.
    unfold run, get_signed_statements. unfold_M.
    apply Exists_app in Hex.
    destruct (normalize_genes_cases norm_id pos) as [[pg Hp] | Hp]; rewrite Hp; [|reflexivity].
    destruct Hex as [Hex | Hex].
    + rewrite (normalize_genes_raises norm_id pos Hex) in Hp. discriminate.
    + rewrite (normalize_genes_raises norm_id neg Hex). reflexivity.
Qed.

Lemma gene_without_separator_aborts_witness :
  run (get_ora_statements Sample.norm_id "MESH:D007239" ["HGNC:1"; "2"] 0%float (Some 2)
         false Sample.client) = (Raise IndexError, [])
  ∧ run (get_signed_statements Sample.norm_id "MESH:D007239" ["HGNC:1"] ["TP53"] 0%float
           (Some 1) Sample.client) = (Raise IndexError, []).
Proof.
  split.
  - apply (proj1 (gene_without_separator_aborts Sample.norm_id)).
    right. left. reflexivity.
  - apply (proj2 (gene_without_separator_aborts Sample.norm_id)).
    right. left. reflexivity.
Defined.

(** ** The relation types of the query *)

(** The signed retrieval follows the table for every namespace. *)
Lemma signed_rel_types_documented namespace id_part target_id :
  (signed_entity namespace id_part target_id).2 = documented_rel_types namespace.
Proof.
  unfold signed_entity, documented_rel_types.
  destruct (String.eqb_spec namespace "chebi") as [-> | _]; [reflexivity|].
  destruct (String.eqb_spec namespace "mesh") as [-> | _]; [reflexivity|].
  destruct (String.eqb_spec namespace "hgnc") as [-> | _]; [reflexivity|].
  destruct (String.eqb_spec namespace "fplx") as [-> | _]; reflexivity.
Qed.

(** The over-representation retrieval follows it for every namespace but
    [chebi]. *)
Lemma ora_rel_types_documented namespace id_part target_id :
  namespace ≠ "chebi" →
  (ora_entity namespace id_part target_id).2 = documented_rel_types namespace.
Proof.
  intros Hne. unfold ora_entity, documented_rel_types.
  destruct (String.eqb_spec namespace "mesh") as [-> | _]; [reflexivity|].
  destruct (String.eqb_spec namespace "fplx") as [-> | _]; [reflexivity|].
  destruct (String.eqb_spec namespace "chebi") as [-> | _]; [contradiction | reflexivity].
Qed.

(** C2. For a target in the namespace [chebi] the over-representation
    retrieval queries with the generic label alone, whereas the signed
    retrieval adds [has_metabolite]: the entity handling of
    [get_ora_statements] has no case for [chebi].  The queries sent for the
    target [CHEBI:15377] show it. *)
Theorem ora_chebi_rel_types :
  (∀ id_part target_id, (ora_entity "chebi" id_part target_id).2 = ["indra_rel"])
  ∧ (∀ id_part target_id,
       (signed_entity "chebi" id_part target_id).2 = ["indra_rel"; "has_metabolite"])
  ∧ documented_rel_types "chebi" = ["indra_rel"; "has_metabolite"]
  ∧ (run (get_ora_statements Sample.norm_id "CHEBI:15377" ["HGNC:1"] 0%float (Some 2)
            false Sample.client)).2
    = [OraQuery false
         {| op_target_id := "chebi:15377"; op_genes := ["hgnc:1"];
            op_rel_types := ["indra_rel"]; op_minimum_belief := 0%float |};
       EnrichQuery []]
  ∧ (run (get_signed_statements Sample.norm_id "CHEBI:15377" ["HGNC:1"] [] 0%float
            (Some 1) Sample.client)).2
    = [SignedQuery
         (pos_params "chebi:15377" ["hgnc:1"] ["indra_rel"; "has_metabolite"]
            0%float (Some 1));
       EnrichQuery []].
Proof.
  repeat split; vm_compute; reflexivity.
Qed.

(** ** Request parameters of the endpoints *)

Section Endpoints.

Variable norm_id : string → string → string.
Variable parse_metabolites : list string → list string * list string.
Variable py_int : string → option Z.
Variable py_float : string → option float.


(** C6. When the request does not give it, the minimum evidence is 2 in the
    over-representation endpoint and 1 in the signed and metabolite
    endpoints, and the minimum belief is 0.0 in all three; these are the
    values with which the retrieval functions are called.  The signed and
    metabolite endpoints obtain their defaults by coercing the strings ["1"]
    and ["0.0"]. *)
Theorem default_thresholds (args : Args) :
  py_int "1" = Some 1 →
  py_float "0.0" = Some 0%float →
  (args_get args "minimum_evidence" = None →
     ora_minimum_evidence py_int args = Some 2
     ∧ signed_minimum_evidence py_int args = Some 1
     ∧ metabolite_minimum_evidence py_int args = Some 1)
  ∧ (args_get args "minimum_belief" = None →
       ora_minimum_belief py_float args = Some 0%float
       ∧ signed_minimum_belief py_float args = Some 0%float
       ∧ metabolite_minimum_belief py_float args = Some 0%float)
  ∧ (args_get args "minimum_evidence" = None →
     args_get args "minimum_belief" = None →
     ∀ client target_id,
       args_get args "target_id" = Some target_id → target_id ≠ EmptyString →
       (args_getlist args "genes" ≠ [] →
          search_ora_statements norm_id py_int py_float args client
          = catch
              (r <- get_ora_statements norm_id target_id (args_getlist args "genes")
                      0%float (Some 2)
                      (String.eqb
                         (PyStr.lower (default EmptyString (args_get args "is_downstream"))) "true")
                      client ;;
               ret (Rendered r.1 r.2))
              (λ e, ret (JsonError (exn_message e) 500)))
       ∧ (args_getlist args "positive_genes" ≠ [] ∨ args_getlist args "negative_genes" ≠ [] →
            search_signed_statements norm_id py_int py_float args client
            = (r <- get_signed_statements norm_id target_id
                      (args_getlist args "positive_genes")
                      (args_getlist args "negative_genes") 0%float (Some 1) client ;;
               ret (Rendered r.1 r.2)))
       ∧ (args_getlist args "metabolites" ≠ [] →
            search_metabolite_statements parse_metabolites py_int py_float args client
            = catch
                (r <- get_metabolite_statements parse_metabolites target_id
                        (args_getlist args "metabolites") 0%float (Some 1) client ;;
                 ret (Rendered r.1 r.2))
                (λ e, ret (JsonError (exn_message e) 400)))).
Proof.
  intros Hint Hfloat.
  assert (He : args_get args "minimum_evidence" = None →
               ora_minimum_evidence py_int args = Some 2
               ∧ signed_minimum_evidence py_int args = Some 1
               ∧ metabolite_minimum_evidence py_int args = Some 1).
  { intros Hnone.
    unfold ora_minimum_evidence, signed_minimum_evidence, metabolite_minimum_evidence.
    rewrite Hnone. simpl. auto. }
  assert (Hb : args_get args "minimum_belief" = None →
               ora_minimum_belief py_float args = Some 0%float
               ∧ signed_minimum_belief py_float args = Some 0%float
               ∧ metabolite_minimum_belief py_float args = Some 0%float).
  { intros Hnone.
    unfold ora_minimum_belief, signed_minimum_belief, metabolite_minimum_belief.
    rewrite Hnone. simpl. auto. }
  split; [exact He|]. split; [exact Hb|].
  intros Hne Hnb client target_id Ht Hnonempty.
  destruct (He Hne) as (He1 & He2 & He3). destruct (Hb Hnb) as (Hb1 & Hb2 & Hb3).
  assert (Hstr : not_str (Some target_id) = false).
  { destruct target_id; [contradiction | reflexivity]. }
  split; [|split].
  - intros Hg. unfold search_ora_statements. rewrite He1, Hb1, Ht, Hstr.
    destruct (args_getlist args "genes"); [contradiction | reflexivity].
  - intros Hg. unfold search_signed_statements. rewrite He2, Hb2, Ht, Hstr.
    destruct (args_getlist args "positive_genes"), (args_getlist args "negative_genes");
      simpl; try reflexivity.
    destruct Hg; contradiction.
  - intros Hg. unfold search_metabolite_statements. rewrite He3, Hb3, Ht, Hstr.
    destruct (args_getlist args "metabolites"); [contradiction | reflexivity].
Qed.

End Endpoints.


Lemma default_thresholds_witness :
  (ora_minimum_evidence Sample.py_int [("target_id", "MESH:D007239"); ("genes", "HGNC:1")]
   = Some 2
   ∧ signed_minimum_evidence Sample.py_int [("target_id", "MESH:D007239"); ("genes", "HGNC:1")]
     = Some 1
   ∧ metabolite_minimum_evidence Sample.py_int
       [("target_id", "MESH:D007239"); ("genes", "HGNC:1")] = Some 1)
  ∧ (ora_minimum_belief Sample.py_float [("target_id", "MESH:D007239"); ("genes", "HGNC:1")]
     = Some 0%float
     ∧ signed_minimum_belief Sample.py_float
         [("target_id", "MESH:D007239"); ("genes", "HGNC:1")] = Some 0%float
     ∧ metabolite_minimum_belief Sample.py_float
         [("target_id", "MESH:D007239"); ("genes", "HGNC:1")] = Some 0%float).
Proof.
  destruct (default_thresholds Sample.norm_id Sample.parse_metabolites
              Sample.py_int Sample.py_float
              [("target_id", "MESH:D007239"); ("genes", "HGNC:1")] eq_refl eq_refl)
    as (He & Hb & _).
  split; [apply He | apply Hb]; reflexivity.
Defined.

(** ** Raising the evidence threshold *)

Lemma cy_ge_succ (e : option Z) (n : Z) :
  cy_ge e (Some (n + 1)) = true → cy_ge e (Some n) = true.
Proof. destruct e as [e|]; simpl; [|discriminate]. rewrite !Z.leb_le. lia. Qed.

Lemma signed_flattened_monotone nt pg ng rts mb n client r :
  In r (signed_flattened nt pg ng rts mb (Some (n + 1)) client) →
  In r (signed_flattened nt pg ng rts mb (Some n) client).
Proof.
  unfold signed_flattened. rewrite !in_app_iff.
  assert (Hw : ∀ p p', sp_target_id p = sp_target_id p' → sp_rel_types p = sp_rel_types p' →
                 sp_gene_list p = sp_gene_list p' → sp_minimum_belief p = sp_minimum_belief p' →
                 stmt_types_gene_to_target p = stmt_types_gene_to_target p' →
                 stmt_types_target_to_gene p = stmt_types_target_to_gene p' →
                 sp_minimum_evidence p = Some (n + 1) → sp_minimum_evidence p' = Some n →
                 ∀ r a b, signed_where p r a b = true → signed_where p' r a b = true).
  { intros p p' H1 H2 H3 H4 H5 H6 H7 H8 r' a b. unfold signed_where.
    rewrite H1, H2, H3, H4, H5, H6, H7, H8, !andb_true_iff.
    intros ((((((? & ?) & ?) & ?) & He) & ?) & ?). apply cy_ge_succ in He. tauto. }
  intros [Hr | Hr]; [left | right].
  - destruct (not_list pg); [exact Hr|]. unfold signed_rows in *.
    eapply match_undirected_incl; [|exact Hr]. apply Hw; reflexivity.
  - destruct (not_list ng); [exact Hr|]. unfold signed_rows in *.
    eapply match_undirected_incl; [|exact Hr]. apply Hw; reflexivity.
Qed.

Lemma metabolite_rows_monotone client t ml mb n r :
  In r (metabolite_rows client
          {| mp_target_id := t; mp_metabolite_list := ml;
             mp_minimum_belief := mb; mp_minimum_evidence := Some (n + 1) |}) →
  In r (metabolite_rows client
          {| mp_target_id := t; mp_metabolite_list := ml;
             mp_minimum_belief := mb; mp_minimum_evidence := Some n |}).
Proof.
  unfold metabolite_rows. apply match_undirected_incl.
  intros r' a b. unfold metabolite_where. simpl. rewrite !andb_true_iff.
  intros (((((? & ?) & ?) & ?) & He) & ?). apply cy_ge_succ in He. tauto.
Qed.

Lemma ora_kept_monotone n heads r :
  0 ≤ n → In r (ora_kept (Some (n + 1)) heads) → In r (ora_kept (Some n) heads).
Proof.
  intros Hn. unfold ora_kept. simpl.
  destruct (Z.eqb_spec (n + 1) 0) as [|_]; [lia|]. simpl.
  intros Hr. apply filter_In in Hr as [Hr He].
  destruct (n =? 0); simpl; [exact Hr|].
  apply filter_In. split; [exact Hr|]. simpl in *. rewrite Z.leb_le in *. lia.
Qed.

(** The hashes of the statements depend only on the set of relations. *)
Lemma stmts_of_hashes_In client rels h :
  In h (List.map get_hash (stmts_of client rels)) ↔ In h (List.map stmt_hash rels).
Proof.
  rewrite stmts_of_hashes. split; [apply assemble_from_input|].
  intros Hin. apply in_map_iff in Hin as (r & <- & Hr).
  apply assemble_covers; [exact Hr | set_solver].
Qed.

Lemma stmts_of_monotone client rels' rels :
  (∀ r, In r rels' → In r rels) →
  ∀ h, In h (List.map get_hash (result_of client rels').1) →
       In h (List.map get_hash (result_of client rels).1).
Proof.
  intros Hincl h. simpl. rewrite !stmts_of_hashes_In, !in_map_iff.
  intros (r & Hh & Hr). eauto.
Qed.

(** With pairwise distinct hashes the entries of the mapping follow the
    relations as well. *)
Lemma result_of_entries_monotone client rels' rels h c :
  List.NoDup (List.map stmt_hash rels') → List.NoDup (List.map stmt_hash rels) →
  (∀ r, In r rels' → In r rels) →
  (result_of client rels').2 !! h = Some c → (result_of client rels).2 !! h = Some c.
Proof.
  intros Hnd' Hnd Hincl Hlook.
  assert (Hdom : h ∈ dom (result_of client rels').2) by (apply elem_of_dom; eauto).
  rewrite result_of_dom in Hdom. apply elem_of_list_to_set, list_elem_of_In in Hdom.
  simpl in Hdom. apply stmts_of_hashes_In, in_map_iff in Hdom as (r & <- & Hr).
  rewrite (proj2 (result_of_aligned client rels' Hnd') r Hr) in Hlook.
  injection Hlook as <-.
  apply (proj2 (result_of_aligned client rels Hnd)), Hincl, Hr.
Qed.

Section Monotone.

Variable norm_id : string → string → string.
Variable parse_metabolites : list string → list string * list string.

(** The evidence threshold enters [get_signed_statements] only through the
    two queries. *)
Lemma get_signed_statements_shape target pos neg mb client :
  (∃ e, ∀ me log,
     get_signed_statements norm_id target pos neg mb me client log = (Raise e, log))
  ∨ (∃ nt pg ng rts, ∀ me log,
       get_signed_statements norm_id target pos neg mb me client log
       = (Ok (result_of client (signed_flattened nt pg ng rts mb me client)),
          (log ++ signed_calls nt pg ng rts mb me
               ++ [enrich_call (signed_flattened nt pg ng rts mb me client)])%list)).
Proof.
  destruct (normalize_genes norm_id pos) as [pg|e] eqn:Hp.
  2:{ left. exists e. intros me log. unfold get_signed_statements. unfold_M.
      rewrite Hp. reflexivity. }
  destruct (normalize_genes norm_id neg) as [ng|e] eqn:Hn.
  2:{ left. exists e. intros me log. unfold get_signed_statements. unfold_M.
      rewrite Hp, Hn. reflexivity. }
  destruct (split_head_always colon target) as [ns Hns].
  destruct (py_index (PyStr.split colon target) 1) as [idp|e] eqn:Hid.
  2:{ left. exists e. intros me log. unfold get_signed_statements. unfold_M.
      rewrite Hp, Hn, Hns, Hid. reflexivity. }
  right. eexists _, pg, ng, _. intros me log.
  apply (get_signed_statements_eq norm_id target pos neg mb me client log pg ng ns idp);
    assumption.
Qed.

Lemma get_ora_statements_shape target genes mb ds client :
  (∃ e, ∀ me log,
     get_ora_statements norm_id target genes mb me ds client log = (Raise e, log))
  ∨ (∃ heads, List.NoDup (List.map stmt_hash heads)
              ∧ ∀ me log, ∃ log',
                  get_ora_statements norm_id target genes mb me ds client log
                  = (Ok (result_of client (ora_kept me heads)), log')).
Proof.
  destruct (normalize_genes norm_id genes) as [pg|e] eqn:Hg.
  2:{ left. exists e. intros me log. unfold get_ora_statements. unfold_M.
      rewrite Hg. reflexivity. }
  destruct (split_head_always colon target) as [ns Hns].
  destruct (py_index (PyStr.split colon target) 1) as [idp|e] eqn:Hid.
  2:{ left. exists e. intros me log. unfold get_ora_statements. unfold_M.
      rewrite Hg, Hns, Hid. reflexivity. }
  right.
  destruct (get_ora_statements_heads norm_id target genes mb ds client pg ns idp Hg Hns Hid)
    as (heads & Hnd & _ & Heq).
  exists heads. split; [exact Hnd|]. intros me log. eexists. apply Heq.
Qed.

(** Raising the evidence threshold by one never adds a statement, in any of
    the three retrieval functions (for the over-representation retrieval,
    from a threshold that is not negative). *)
Lemma statements_monotone client mb n :
  (∀ target pos neg stmts' ec' log' stmts ec log,
     run (get_signed_statements norm_id target pos neg mb (Some (n + 1)) client)
     = (Ok (stmts', ec'), log') →
     run (get_signed_statements norm_id target pos neg mb (Some n) client)
     = (Ok (stmts, ec), log) →
     ∀ h, In h (List.map get_hash stmts') → In h (List.map get_hash stmts))
  ∧ (∀ target metabolites stmts' ec' log' stmts ec log,
       run (get_metabolite_statements parse_metabolites target metabolites mb
              (Some (n + 1)) client) = (Ok (stmts', ec'), log') →
       run (get_metabolite_statements parse_metabolites target metabolites mb
              (Some n) client) = (Ok (stmts, ec), log) →
       ∀ h, In h (List.map get_hash stmts') → In h (List.map get_hash stmts))
  ∧ (∀ target genes ds stmts' ec' log' stmts ec log,
       0 ≤ n →
       run (get_ora_statements norm_id target genes mb (Some (n + 1)) ds client)
       = (Ok (stmts', ec'), log') →
       run (get_ora_statements norm_id target genes mb (Some n) ds client)
       = (Ok (stmts, ec), log) →
       (∀ h, In h (List.map get_hash stmts') → In h (List.map get_hash stmts))
       ∧ ∀ h c, ec' !! h = Some c → ec !! h = Some c).
Proof.
  split; [|split].
  - intros target pos neg stmts' ec' log' stmts ec log. unfold run.
    destruct (get_signed_statements_shape target pos neg mb client)
      as [(e & He) | (nt & pg & ng & rts & Heq)].
    + rewrite He. discriminate.
    + rewrite !Heq. intros [= <- _ _] [= <- _ _].
      apply (stmts_of_monotone client), signed_flattened_monotone.
  - intros target metabolites stmts' ec' log' stmts ec log. unfold run.
    rewrite !get_metabolite_statements_eq. intros [= <- _ _] [= <- _ _].
    apply (stmts_of_monotone client), metabolite_rows_monotone.
  - intros target genes ds stmts' ec' log' stmts ec log Hn. unfold run.
    destruct (get_ora_statements_shape target genes mb ds client)
      as [(e & He) | (heads & Hnd & Heq)].
    + rewrite He. discriminate.
    + destruct (Heq (Some (n + 1)) []) as [l1 ->]. destruct (Heq (Some n) []) as [l2 ->].
      intros [= <- <- _] [= <- <- _]. split.
      * apply (stmts_of_monotone client). intros r. apply ora_kept_monotone, Hn.
      * intros h c. apply result_of_entries_monotone; try apply ora_kept_NoDup, Hnd.
        intros r. apply ora_kept_monotone, Hn.
Qed.

End Monotone.

(** C7. Raising the evidence threshold of the signed retrieval from 5 to 6
    on the sample graph leaves the statement 22 in the result, but its entry
    in the mapping changes from 5 to 7: the entry (22, 7) of the result for
    the higher threshold is not an entry of the result for the lower one.
    At the lower threshold the statement is paired with a relation of the
    statement 11. *)
Theorem signed_entries_not_monotone :
  ∃ stmts5 ec5 log5 stmts6 ec6 log6,
    run (get_signed_statements Sample.norm_id "MESH:D007239" ["HGNC:1"; "HGNC:2"] []
           0%float (Some 5) Sample.client) = (Ok (stmts5, ec5), log5)
    ∧ run (get_signed_statements Sample.norm_id "MESH:D007239" ["HGNC:1"; "HGNC:2"] []
             0%float (Some (5 + 1)) Sample.client) = (Ok (stmts6, ec6), log6)
    ∧ List.map get_hash stmts5 = [11; 22]
    ∧ List.map get_hash stmts6 = [22]
    ∧ ec6 !! 22 = Some 7
    ∧ ec5 !! 22 = Some 5
    ∧ List.map get_evidence_count
        (List.filter (λ r, stmt_hash r =? 22) (edges Sample.client)) = [7].
Proof.
  eexists _, _, _, _, _, _.
  split; [vm_compute; reflexivity|]. split; [vm_compute; reflexivity|].
  repeat split; vm_compute; reflexivity.
Qed.

(** ** Well-formed identifiers give a result *)

Section Returns.

Variable norm_id : string → string → string.
Variable parse_metabolites : list string → list string * list string.

Lemma get_ora_statements_returns target genes mb me ds client :
  Forall (λ g, PyStr.contains colon g = true) genes →
  PyStr.contains colon target = true →
  ∃ res log, run (get_ora_statements norm_id target genes mb me ds client) = (Ok res, log).
Proof.
  intros Hg Ht.
  destruct (normalize_genes_ok norm_id genes Hg) as [pg Hpg].
  destruct (id_part_present target Ht) as [idp Hid].
  destruct (split_head_always colon target) as [ns Hns].
  destruct (get_ora_statements_eq norm_id target genes mb me ds client [] pg ns idp
              Hpg Hns Hid) as (rels & Heq & _).
  unfold run. rewrite Heq. eauto.
Qed.

Lemma get_signed_statements_returns target pos neg mb me client :
  Forall (λ g, PyStr.contains colon g = true) (pos ++ neg)%list →
  PyStr.contains colon target = true →
  ∃ res log, run (get_signed_statements norm_id target pos neg mb me client) = (Ok res, log).
Proof.
  intros Hg Ht. apply Forall_app in Hg as [Hp Hn].
  destruct (normalize_genes_ok norm_id pos Hp) as [pg Hpg].
  destruct (normalize_genes_ok norm_id neg Hn) as [ng Hng].
  destruct (id_part_present target Ht) as [idp Hid].
  destruct (split_head_always colon target) as [ns Hns].
  unfold run.
  rewrite (get_signed_statements_eq norm_id target pos neg mb me client [] pg ng ns idp
             Hpg Hng Hns Hid).
  eauto.
Qed.

Lemma get_metabolite_statements_returns target metabolites mb me client :
  ∃ res log,
    run (get_metabolite_statements parse_metabolites target metabolites mb me client)
    = (Ok res, log).
Proof. unfold run. rewrite get_metabolite_statements_eq. eauto. Qed.

(** No statement that a retrieval function returns is seeded by an
    [indra_rel] relation whose belief is not above the threshold. *)
Lemma seeds_above_threshold client mb :
  (∀ target genes me ds stmts ec log s,
     run (get_ora_statements norm_id target genes mb me ds client) = (Ok (stmts, ec), log) →
     In s stmts → rel_type (seed s) = "indra_rel" → cy_gt (belief (seed s)) mb = true)
  ∧ (∀ target pos neg me stmts ec log s,
       run (get_signed_statements norm_id target pos neg mb me client)
       = (Ok (stmts, ec), log) →
       In s stmts → cy_gt (belief (seed s)) mb = true)
  ∧ (∀ target metabolites me stmts ec log s,
       run (get_metabolite_statements parse_metabolites target metabolites mb me client)
       = (Ok (stmts, ec), log) →
       In s stmts → cy_gt (belief (seed s)) mb = true).
Proof.
  assert (Hseed : ∀ rels s, In s (stmts_of client rels) → In (seed s) rels).
  { intros rels s Hs. destruct (stmts_of_inv _ _ _ Hs) as (s0 & Hs0 & _ & ->).
    destruct (assemble_first _ _ _ Hs0) as (pre & post & -> & _).
    apply in_or_app. right. left. reflexivity. }
  split; [|split].
  - intros target genes me ds stmts ec log s Hrun Hs Hty. unfold run in Hrun.
    destruct (normalize_genes norm_id genes) as [pg|e] eqn:Hg.
    2:{ destruct (get_ora_statements_raises norm_id target genes mb me ds client [])
          as [e' He']; [eauto|]. congruence. }
    destruct (py_index (PyStr.split colon target) 1) as [idp|e] eqn:Hid.
    2:{ destruct (get_ora_statements_raises norm_id target genes mb me ds client [])
          as [e' He']; [eauto|]. congruence. }
    destruct (split_head_always colon target) as [ns Hns].
    destruct (get_ora_statements_eq norm_id target genes mb me ds client [] pg ns idp
                Hg Hns Hid) as (rels & Heq & _ & Hall).
    rewrite Heq in Hrun. injection Hrun as <- _ _.
    rewrite List.Forall_forall in Hall.
    destruct (Hall _ (Hseed _ _ Hs)) as [[_ Hm] _].
    apply (ora_matches_above _ _ _ _ _ _ Hm Hty).
  - intros target pos neg me stmts ec log s Hrun Hs. unfold run in Hrun.
    destruct (get_signed_statements_shape norm_id target pos neg mb client)
      as [(e & He) | (nt & pg & ng & rts & Heq)].
    + rewrite He in Hrun. discriminate.
    + rewrite Heq in Hrun. injection Hrun as <- _ _.
      apply Hseed in Hs. unfold signed_flattened in Hs. apply in_app_iff in Hs.
      destruct Hs as [Hs | Hs];
        [destruct (not_list pg) | destruct (not_list ng)]; try destruct Hs;
        apply signed_rows_above in Hs; exact Hs.
  - intros target metabolites me stmts ec log s Hrun Hs. unfold run in Hrun.
    rewrite get_metabolite_statements_eq in Hrun. injection Hrun as <- _ _.
    apply Hseed in Hs. apply metabolite_rows_above in Hs. exact Hs.
Qed.

End Returns.

(** ** Errors of the three endpoints *)

Section EndpointErrors.

Variable norm_id : string → string → string.
Variable parse_metabolites : list string → list string * list string.
Variable py_int : string → option Z.
Variable py_float : string → option float.

(** The signed and the metabolite endpoint answer 400, without a call to a
    store, when a threshold cannot be coerced, when the target is missing or
    empty, or when the request names no gene of either sign (no metabolite). *)
Theorem signed_and_metabolite_reject_invalid (args : Args) (client : Neo4jClient) :
  (signed_minimum_evidence py_int args = None
   ∨ signed_minimum_belief py_float args = None
   ∨ args_get args "target_id" = None
   ∨ args_get args "target_id" = Some EmptyString
   ∨ (args_getlist args "positive_genes" = [] ∧ args_getlist args "negative_genes" = []) →
   ∃ error,
     run (search_signed_statements norm_id py_int py_float args client)
     = (Ok (JsonError error 400), []))
  ∧ (metabolite_minimum_evidence py_int args = None
     ∨ metabolite_minimum_belief py_float args = None
     ∨ args_get args "target_id" = None
     ∨ args_get args "target_id" = Some EmptyString
     ∨ args_getlist args "metabolites" = [] →
     ∃ error,
       run (search_metabolite_statements parse_metabolites py_int py_float args client)
       = (Ok (JsonError error 400), [])).
Proof.
  split; intros Hbad; unfold run.
  - unfold search_signed_statements.
    destruct (signed_minimum_evidence py_int args) as [me|]; [|unfold ret; eauto].
    destruct (signed_minimum_belief py_float args) as [mb|]; [|unfold ret; eauto].
    destruct (not_str (args_get args "target_id")
              || not_list (args_getlist args "positive_genes")
                 && not_list (args_getlist args "negative_genes"))%bool eqn:Hreq;
      [unfold ret; eauto|].
    exfalso. apply orb_false_elim in Hreq as [Ht Hg].
    destruct Hbad as [Hb | [Hb | [Hb | [Hb | [Hp Hn]]]]]; try discriminate;
      try (rewrite Hb in Ht; discriminate).
    rewrite Hp, Hn in Hg. discriminate.
  - unfold search_metabolite_statements.
    destruct (metabolite_minimum_evidence py_int args) as [me|]; [|unfold ret; eauto].
    destruct (metabolite_minimum_belief py_float args) as [mb|]; [|unfold ret; eauto].
    destruct (not_str (args_get args "target_id")
              || not_list (args_getlist args "metabolites"))%bool eqn:Hreq;
      [unfold ret; eauto|].
    exfalso. apply orb_false_elim in Hreq as [Ht Hg].
    destruct Hbad as [Hb | [Hb | [Hb | [Hb | Hb]]]]; try discriminate;
      try (rewrite Hb in Ht; discriminate).
    rewrite Hb in Hg. discriminate.
Qed.

Lemma target_without_separator_raises_ora target genes mb me ds client :
  genes ≠ [] →
  Exists (λ g, PyStr.contains colon g = false) (target :: genes) →
  run (get_ora_statements norm_id target genes mb me ds client) = (Raise IndexError, []).
Proof.
  intros _ Hex. unfold run, get_ora_statements. unfold_M.
  destruct (normalize_genes_cases norm_id genes) as [[pg Hg] | Hg]; rewrite Hg; [|reflexivity].
  destruct (split_head_always colon target) as [ns ->]. simpl.
  apply Exists_cons in Hex as [Ht | Hex].
  - rewrite (id_part_missing target Ht). reflexivity.
  - rewrite (normalize_genes_raises norm_id genes Hex) in Hg. discriminate.
Qed.

Lemma target_without_separator_raises_signed target pos neg mb me client :
  Exists (λ g, PyStr.contains colon g = false) (target :: pos ++ neg)%list →
  run (get_signed_statements norm_id target pos neg mb me client) = (Raise IndexError, []).
Proof.
  intros Hex. unfold run, get_signed_statements. unfold_M.
  destruct (normalize_genes_cases norm_id pos) as [[pg Hp] | Hp]; rewrite Hp; [|reflexivity].
  destruct (normalize_genes_cases norm_id neg) as [[ng Hn] | Hn]; rewrite Hn; [|reflexivity].
  destruct (split_head_always colon target) as [ns ->]. simpl.
  apply Exists_cons in Hex as [Ht | Hex].
  - rewrite (id_part_missing target Ht). reflexivity.
  - apply Exists_app in Hex as [Hex | Hex].
    + rewrite (normalize_genes_raises norm_id pos Hex) in Hp. discriminate.
    + rewrite (normalize_genes_raises norm_id neg Hex) in Hn. discriminate.
Qed.

(** An identifier without [':'] (the target or a gene) is answered
    differently by the three endpoints: the over-representation endpoint
    turns the [IndexError] into a 500 response carrying its message; the
    signed endpoint lets it escape; the metabolite endpoint accepts a target
    without [':'] and queries for it under the prefix [eccode:].  In the
    first two cases no query has been sent. *)
Theorem identifier_without_separator_by_endpoint (args : Args) (client : Neo4jClient)
    (target_id : string) (minimum_evidence : Z) (minimum_belief : float) :
  args_get args "target_id" = Some target_id →
  target_id ≠ EmptyString →
  (ora_minimum_evidence py_int args = Some minimum_evidence →
   ora_minimum_belief py_float args = Some minimum_belief →
   args_getlist args "genes" ≠ [] →
   Exists (λ g, PyStr.contains colon g = false) (target_id :: args_getlist args "genes") →
   run (search_ora_statements norm_id py_int py_float args client)
   = (Ok (JsonError "list index out of range" 500), []))
  ∧ (signed_minimum_evidence py_int args = Some minimum_evidence →
     signed_minimum_belief py_float args = Some minimum_belief →
     args_getlist args "positive_genes" ≠ [] ∨ args_getlist args "negative_genes" ≠ [] →
     Exists (λ g, PyStr.contains colon g = false)
       (target_id :: args_getlist args "positive_genes"
                  ++ args_getlist args "negative_genes")%list →
     run (search_signed_statements norm_id py_int py_float args client)
     = (Raise IndexError, []))
  ∧ (metabolite_minimum_evidence py_int args = Some minimum_evidence →
     metabolite_minimum_belief py_float args = Some minimum_belief →
     args_getlist args "metabolites" ≠ [] →
     PyStr.contains colon target_id = false →
     ∃ stmts evidence_counts discovery main enrichment,
       run (search_metabolite_statements parse_metabolites py_int py_float args client)
       = (Ok (Rendered stmts evidence_counts),
          [DiscoveryQuery discovery; MetaboliteQuery main; enrichment])
       ∧ mp_target_id main = ("eccode:" ++ target_id)%string).
Proof.
  intros Ht Hne.
  assert (Hstr : not_str (Some target_id) = false).
  { destruct target_id; [contradiction | reflexivity]. }
  split; [|split].
  - intros He Hb Hg Hex. unfold run, search_ora_statements. rewrite He, Hb, Ht, Hstr.
    destruct (args_getlist args "genes") as [|g gs] eqn:Hgenes; [contradiction|]. simpl.
    unfold catch, bind.
    pose proof (target_without_separator_raises_ora target_id (g :: gs) minimum_belief
                  (Some minimum_evidence)
                  (String.eqb (PyStr.lower (default EmptyString
                                              (args_get args "is_downstream"))) "true")
                  client Hg Hex) as Hrun.
    unfold run in Hrun. rewrite Hrun. reflexivity.
  - intros He Hb Hg Hex. unfold run, search_signed_statements. rewrite He, Hb, Ht, Hstr.
    assert (Hl : (not_list (args_getlist args "positive_genes")
                  && not_list (args_getlist args "negative_genes"))%bool = false).
    { destruct (args_getlist args "positive_genes"), (args_getlist args "negative_genes");
        try reflexivity. destruct Hg; contradiction. }
    rewrite Hl. simpl. unfold bind.
    pose proof (target_without_separator_raises_signed target_id _ _ minimum_belief
                  (Some minimum_evidence) client Hex) as Hrun.
    unfold run in Hrun. rewrite Hrun. reflexivity.
  - intros He Hb Hg Hcolon. unfold run, search_metabolite_statements.
    rewrite He, Hb, Ht, Hstr.
    destruct (args_getlist args "metabolites") as [|m ms] eqn:Hmets; [contradiction|]. simpl.
    unfold catch, bind. rewrite get_metabolite_statements_eq. simpl.
    rewrite Hcolon. simpl. unfold ret. eexists _, _, _, _, _. split; reflexivity.
Qed.

End EndpointErrors.

(** ** The first path of each group *)

Lemma group_heads_app (g1 g2 : list (Z * list Relation)) :
  group_heads (g1 ++ g2) = (group_heads g1 ++ group_heads g2)%list.
Proof. unfold group_heads. apply flat_map_app. Qed.

Lemma collect_into_heads r groups :
  Forall (λ g : Z * list Relation, g.2 ≠ []) groups →
  group_heads (collect_into r groups)
  = if in_dec Z.eq_dec (stmt_hash r) (List.map fst groups)
    then group_heads groups
    else (group_heads groups ++ [r])%list.
Proof.
  induction 1 as [|[h pp] rest Hne Hrest IH]; simpl; [reflexivity|].
  destruct (Z.eqb_spec h (stmt_hash r)) as [Heq|Hneq]; simpl in *.
  - destruct (Z.eq_dec h (stmt_hash r)); [|contradiction].
    destruct pp as [|p pp]; [contradiction | reflexivity].
  - destruct (Z.eq_dec h (stmt_hash r)); [contradiction|].
    change (group_heads ((h, pp) :: collect_into r rest))
      with (match pp with p :: _ => [p] | [] => [] end ++ group_heads (collect_into r rest))%list.
    rewrite IH.
    destruct (in_dec Z.eq_dec (stmt_hash r) (List.map fst rest)); [reflexivity|].
    unfold group_heads at 2. simpl. rewrite app_assoc. reflexivity.
Qed.

Lemma collect_into_nonempty r groups :
  Forall (λ g : Z * list Relation, g.2 ≠ []) groups →
  Forall (λ g : Z * list Relation, g.2 ≠ []) (collect_into r groups).
Proof.
  induction 1 as [|[h pp] rest Hne Hrest IH]; simpl.
  - constructor; [discriminate | constructor].
  - destruct (Z.eqb h (stmt_hash r)); constructor; simpl in *; try assumption.
    destruct pp; [contradiction | discriminate].
Qed.

(** Grouping by hash and taking the first path of each group keeps, in
    order, the first path of each hash: the very relations that seed the
    statements of the assembler. *)
Lemma collect_fold_heads paths groups :
  Forall (λ g : Z * list Relation, g.2 ≠ []) groups →
  let groups' := fold_left (λ groups r, collect_into r groups) paths groups in
  Forall (λ g : Z * list Relation, g.2 ≠ []) groups'
  ∧ group_heads groups'
    = (group_heads groups
       ++ List.map seed (assemble (list_to_set (List.map fst groups)) paths))%list.
Proof.
  revert groups. induction paths as [|r rs IH]; intros groups Hne; simpl.
  - split; [exact Hne | rewrite app_nil_r; reflexivity].
  - destruct (IH (collect_into r groups) (collect_into_nonempty r groups Hne)) as [Hne' Hh].
    split; [exact Hne'|]. simpl in Hh. rewrite Hh.
    rewrite collect_into_heads, collect_into_keys by exact Hne.
    destruct (in_dec Z.eq_dec (stmt_hash r) (List.map fst groups)) as [Hin|Hout].
    + destruct (decide (stmt_hash r ∈ (list_to_set (List.map fst groups) : gset Z)))
        as [|Hn]; [reflexivity|].
      exfalso. apply Hn. apply elem_of_list_to_set, list_elem_of_In, Hin.
    + destruct (decide (stmt_hash r ∈ (list_to_set (List.map fst groups) : gset Z)))
        as [Hy|_].
      * exfalso. apply Hout. apply elem_of_list_to_set in Hy. apply list_elem_of_In, Hy.
      * simpl. rewrite <- app_assoc. simpl. do 3 f_equal.
        f_equal. rewrite list_to_set_app_L. simpl. set_solver.
Qed.

Lemma first_paths_heads (groups : list (Z * list Relation)) :
  Forall (λ g : Z * list Relation, g.2 ≠ []) groups →
  comprehension (λ i, py_index i 0) (List.map snd groups) = Ok (group_heads groups).
Proof.
  induction 1 as [|[h pp] rest Hne Hrest IH]; simpl; [reflexivity|].
  destruct pp as [|r pp]; [contradiction|]. simpl in *.
  rewrite IH. reflexivity.
Qed.

Lemma flatten_collected_heads (paths : list Relation) :
  flatten_results (List.map (λ pp, [pp]) (collect_by_hash paths))
  = Ok (List.map seed (assemble ∅ paths)).
Proof.
  unfold flatten_results, collect_by_hash.
  destruct (collect_fold_heads paths [] (List.Forall_nil _)) as [Hne Hh]. simpl in Hh.
  rewrite <- Hh, <- (first_paths_heads _ Hne). f_equal.
  generalize (fold_left (λ groups r, collect_into r groups) paths []).
  intros l. induction l as [|g l IH]; simpl; [reflexivity | f_equal; exact IH].
Qed.

Lemma first_with_hash_unique (l : list Relation) (r1 r2 : Relation) :
  first_with_hash l r1 → first_with_hash l r2 → stmt_hash r1 = stmt_hash r2 → r1 = r2.
Proof.
  intros (pre1 & post1 & H1 & Hp1) (pre2 & post2 & H2 & Hp2) Hh. subst l.
  revert pre2 H2 Hp2. induction pre1 as [|a pre1 IH]; intros [|b pre2] H2 Hp2; simpl in H2.
  - injection H2 as <- _. reflexivity.
  - injection H2 as <- _. exfalso. apply (Hp2 r1); [left; reflexivity | exact Hh].
  - injection H2 as -> _. exfalso. apply (Hp1 r2); [left; reflexivity | symmetry; exact Hh].
  - injection H2 as <- H2.
    apply (IH (λ r' Hr', Hp1 r' (or_intror Hr')) pre2 H2 (λ r' Hr', Hp2 r' (or_intror Hr'))).
Qed.

Lemma assemble_seeds_first (l : list Relation) (r : Relation) :
  In r (List.map seed (assemble ∅ l)) ↔ first_with_hash l r.
Proof.
  split.
  - intros Hin. apply in_map_iff in Hin as (s & <- & Hs).
    destruct (assemble_first _ _ _ Hs) as (pre & post & Hl & Hpre).
    exists pre, post. split; [exact Hl|].
    intros r' Hr'. rewrite (assemble_seed _ _ _ Hs) in Hpre. simpl in Hpre. auto.
  - intros Hfirst. pose proof Hfirst as (pre & post & Hl & _).
    assert (Hr : In r l) by (rewrite Hl; apply in_or_app; right; left; reflexivity).
    pose proof (assemble_covers ∅ l r Hr) as Hcov.
    apply in_map_iff in Hcov as (s & Hh & Hs); [|set_solver].
    apply in_map_iff. exists s. split; [|exact Hs].
    apply (first_with_hash_unique l); [|exact Hfirst|].
    + destruct (assemble_first _ _ _ Hs) as (pre' & post' & Hl' & Hpre').
      exists pre', post'. split; [exact Hl'|].
      intros r' Hr'. rewrite (assemble_seed _ _ _ Hs) in Hpre'. simpl in Hpre'. auto.
    + rewrite <- Hh. rewrite (assemble_seed _ _ _ Hs) at 2. reflexivity.
Qed.

Lemma assemble_seeds_distinct (l : list Relation) :
  List.NoDup (List.map stmt_hash (List.map seed (assemble ∅ l))).
Proof.
  rewrite map_map.
  rewrite (map_ext_in _ get_hash); [apply assemble_NoDup|].
  intros s Hs. rewrite (assemble_seed _ _ _ Hs) at 2. reflexivity.
Qed.

(** On relations with pairwise distinct hashes the seeds of the statements
    are the relations themselves. *)
Lemma stmts_of_seeds_distinct client rels :
  List.NoDup (List.map stmt_hash rels) → List.map seed (stmts_of client rels) = rels.
Proof.
  intros Hnd. rewrite stmts_of_seeds, assemble_distinct; [|exact Hnd | set_solver].
  rewrite map_map. simpl. apply map_id.
Qed.

Section Exact.

Variable norm_id : string → string → string.

Lemma get_ora_statements_exact target genes mb me ds client log pg :
  normalize_genes norm_id genes = Ok pg →
  PyStr.contains colon target = true →
  get_ora_statements norm_id target genes mb me ds client log
  = (Ok (result_of client
           (ora_kept me
              (List.map seed (assemble ∅ (ora_paths client ds (ora_params_of target pg mb)))))),
     (log ++ [OraQuery ds (ora_params_of target pg mb);
              enrich_call
                (ora_kept me
                   (List.map seed
                      (assemble ∅ (ora_paths client ds (ora_params_of target pg mb)))))])%list).
Proof.
  intros Hg Ht. unfold ora_params_of, ora_paths.
  destruct (split_with_separator _ _ Ht) as (ns & idp & rest & Hsplit).
  unfold get_ora_statements. unfold_M. rewrite Hg, Hsplit. simpl.
  destruct (ora_entity (PyStr.lower ns) idp target) as [nt rts]. simpl.
  rewrite flatten_collected_heads. simpl. rewrite <- app_assoc. reflexivity.
Qed.

(** The over-representation retrieval returns one statement for every
    statement hash whose first matching edge, in store order, passes the
    evidence filter, seeded by that edge: a hash whose first matching edge
    has too little evidence is dropped, whatever its later edges carry.  The
    statements have pairwise distinct hashes and each is recorded in the
    mapping with the evidence count of its own seed. *)
Theorem ora_returns_first_paths target genes mb me ds client pg :
  normalize_genes norm_id genes = Ok pg →
  PyStr.contains colon target = true →
  ∃ stmts evidence_counts log,
    run (get_ora_statements norm_id target genes mb me ds client)
    = (Ok (stmts, evidence_counts), log)
    ∧ (∀ r, In r (List.map seed stmts)
            ↔ first_with_hash (ora_paths client ds (ora_params_of target pg mb)) r
              ∧ (truthy_int me = true → has_minimum_evidence me r = true))
    ∧ List.NoDup (List.map get_hash stmts)
    ∧ (∀ s, In s stmts →
            get_hash s = stmt_hash (seed s)
            ∧ evidence_counts !! get_hash s = Some (get_evidence_count (seed s))).
Proof.
  intros Hg Ht. unfold run. rewrite (get_ora_statements_exact _ _ _ _ _ _ _ pg Hg Ht).
  set (paths := ora_paths client ds (ora_params_of target pg mb)).
  set (kept := ora_kept me (List.map seed (assemble ∅ paths))).
  assert (Hnd : List.NoDup (List.map stmt_hash kept)).
  { apply ora_kept_NoDup, assemble_seeds_distinct. }
  eexists _, _, _. split; [reflexivity|]. split; [|split].
  - intros r. rewrite (stmts_of_seeds_distinct client kept Hnd).
    unfold kept, ora_kept. destruct (truthy_int me).
    + rewrite filter_In, assemble_seeds_first. tauto.
    + rewrite assemble_seeds_first. split; [intros H; split; [exact H | discriminate] | tauto].
  - rewrite stmts_of_hashes. apply assemble_NoDup.
  - intros s Hs. destruct (stmts_of_inv _ _ _ Hs) as (s0 & Hs0 & -> & ->).
    split; [rewrite (assemble_seed _ _ _ Hs0) at 1; reflexivity|].
    rewrite (assemble_seed _ _ _ Hs0) at 1. simpl.
    apply (proj2 (result_of_aligned client kept Hnd)).
    destruct (assemble_first _ _ _ Hs0) as (pre & post & Hk & _).
    rewrite Hk. apply in_or_app. right. left. reflexivity.
Qed.

End Exact.

(** ** What the mapping records *)

Lemma mapping_fold_values (pairs : list (Relation * Statement)) (d : gmap Z Z) h v :
  fold_left (λ d p, <[get_hash p.2 := get_evidence_count p.1]> d) pairs d !! h = Some v →
  d !! h = Some v ∨ ∃ p, In p pairs ∧ v = get_evidence_count p.1.
Proof.
  revert d. induction pairs as [|p ps IH]; intros d; simpl; [auto|].
  intros Hl. apply IH in Hl as [Hl | (q & Hq & Hv)]; [|right; eauto].
  destruct (decide (get_hash p.2 = h)) as [Heq|Hne].
  - rewrite Heq, lookup_insert_eq in Hl. injection Hl as <-. right. eauto.
  - rewrite lookup_insert_ne in Hl by exact Hne. auto.
Qed.

(** Every count in the mapping is the evidence count of one of the
    relations, whichever statement it was paired with. *)
Lemma mapping_values rels stmts h v :
  evidence_count_mapping rels stmts !! h = Some v →
  ∃ r, In r rels ∧ v = get_evidence_count r.
Proof.
  unfold evidence_count_mapping. intros Hl.
  apply mapping_fold_values in Hl as [Hl | ([r s] & Hp & Hv)].
  - rewrite lookup_empty in Hl. discriminate.
  - exists r. split; [|exact Hv].
    apply list_elem_of_In, elem_of_zip_l in Hp. apply list_elem_of_In, Hp.
Qed.

Lemma cy_ge_Some (e : option Z) (n : Z) :
  cy_ge e (Some n) = true → ∃ c, e = Some c ∧ n ≤ c.
Proof.
  destruct e as [c|]; simpl; [|discriminate].
  intros H. apply Z.leb_le in H. eauto.
Qed.

Lemma signed_rows_evidence client p r :
  In r (signed_rows client p) →
  cy_ge (evidence_count r) (sp_minimum_evidence p) = true.
Proof.
  unfold signed_rows. rewrite match_undirected_In.
  intros (_ & ab & _ & Hw). unfold signed_where in Hw. rewrite !andb_true_iff in Hw.
  tauto.
Qed.

Lemma metabolite_rows_evidence client p r :
  In r (metabolite_rows client p) →
  cy_ge (evidence_count r) (mp_minimum_evidence p) = true.
Proof.
  unfold metabolite_rows. rewrite match_undirected_In.
  intros (_ & ab & _ & Hw). unfold metabolite_where in Hw. rewrite !andb_true_iff in Hw.
  tauto.
Qed.

Lemma signed_flattened_evidence nt pg ng rts mb me client r :
  In r (signed_flattened nt pg ng rts mb me client) →
  cy_ge (evidence_count r) me = true.
Proof.
  unfold signed_flattened. rewrite in_app_iff.
  intros [Hr | Hr]; [destruct (not_list pg) | destruct (not_list ng)]; try destruct Hr;
    apply signed_rows_evidence in Hr; exact Hr.
Qed.

Section Thresholds.

Variable norm_id : string → string → string.
Variable parse_metabolites : list string → list string * list string.

(** No count below the requested minimum is ever recorded: with a minimum
    evidence [n] (not zero, for the over-representation retrieval) every
    value of the returned mapping is at least [n], also when the pairing of
    relations and statements is off. *)
Theorem recorded_counts_meet_threshold (client : Neo4jClient) (mb : float) (n : Z) :
  (∀ target genes ds stmts ec log h v,
     n ≠ 0 →
     run (get_ora_statements norm_id target genes mb (Some n) ds client)
     = (Ok (stmts, ec), log) →
     ec !! h = Some v → n ≤ v)
  ∧ (∀ target pos neg stmts ec log h v,
       run (get_signed_statements norm_id target pos neg mb (Some n) client)
       = (Ok (stmts, ec), log) →
       ec !! h = Some v → n ≤ v)
  ∧ (∀ target metabolites stmts ec log h v,
       run (get_metabolite_statements parse_metabolites target metabolites mb (Some n) client)
       = (Ok (stmts, ec), log) →
       ec !! h = Some v → n ≤ v).
Proof.
  split; [|split].
  - intros target genes ds stmts ec log h v Hn Hrun Hl. unfold run in Hrun.
    destruct (get_ora_statements_shape norm_id target genes mb ds client)
      as [(e & He) | (heads & _ & Heq)].
    + rewrite He in Hrun. discriminate.
    + destruct (Heq (Some n) []) as [l' Hr]. rewrite Hr in Hrun.
      injection Hrun as _ <- _. simpl in Hl.
      apply mapping_values in Hl as (r & Hr' & ->).
      apply ora_kept_In in Hr' as [_ Hmin].
      assert (Ht : truthy_int (Some n) = true).
      { simpl. destruct (Z.eqb_spec n 0); [contradiction | reflexivity]. }
      specialize (Hmin Ht). simpl in Hmin. apply Z.leb_le, Hmin.
  - intros target pos neg stmts ec log h v Hrun Hl. unfold run in Hrun.
    destruct (get_signed_statements_shape norm_id target pos neg mb client)
      as [(e & He) | (nt & pg & ng & rts & Heq)].
    + rewrite He in Hrun. discriminate.
    + rewrite Heq in Hrun. injection Hrun as _ <- _. simpl in Hl.
      apply mapping_values in Hl as (r & Hr & ->).
      apply signed_flattened_evidence, cy_ge_Some in Hr as (c & Hc & Hle).
      unfold get_evidence_count. rewrite Hc. exact Hle.
  - intros target metabolites stmts ec log h v Hrun Hl. unfold run in Hrun.
    rewrite get_metabolite_statements_eq in Hrun. injection Hrun as _ <- _. simpl in Hl.
    apply mapping_values in Hl as (r & Hr & ->).
    apply metabolite_rows_evidence, cy_ge_Some in Hr as (c & Hc & Hle).
    unfold get_evidence_count. rewrite Hc. exact Hle.
Qed.

(** Without a minimum evidence ([None], the default of the three retrieval
    functions) the over-representation retrieval filters nothing, exactly as
    with a minimum of 0, whereas the signed and the metabolite retrieval
    compare every evidence count with [null] in their query and return no
    statement and an empty mapping. *)
Theorem no_minimum_evidence (client : Neo4jClient) (mb : float) :
  (∀ target genes ds,
     run (get_ora_statements norm_id target genes mb None ds client)
     = run (get_ora_statements norm_id target genes mb (Some 0) ds client))
  ∧ (∀ target pos neg stmts ec log,
       run (get_signed_statements norm_id target pos neg mb None client)
       = (Ok (stmts, ec), log) →
       stmts = [] ∧ ec = ∅)
  ∧ (∀ target metabolites,
       ∃ log, run (get_metabolite_statements parse_metabolites target metabolites mb None
                     client) = (Ok ([], ∅), log)).
Proof.
  assert (Hnone : ∀ w es, (∀ r a b, w r a b = false) → match_undirected w es = []).
  { intros w es Hw. unfold match_undirected. induction es as [|r es IH]; simpl; [reflexivity|].
    rewrite IH, app_nil_r. unfold orientations.
    destruct (node_eqb (source r) (target r)); simpl; rewrite ?Hw; reflexivity. }
  assert (Hge : ∀ e, cy_ge e None = false) by (intros [e|]; reflexivity).
  split; [|split].
  - intros target genes ds. reflexivity.
  - intros target pos neg stmts ec log Hrun. unfold run in Hrun.
    destruct (get_signed_statements_shape norm_id target pos neg mb client)
      as [(e & He) | (nt & pg & ng & rts & Heq)].
    + rewrite He in Hrun. discriminate.
    + rewrite Heq in Hrun. injection Hrun as <- <- _.
      assert (Hrels : signed_flattened nt pg ng rts mb None client = []).
      { unfold signed_flattened, signed_rows.
        rewrite !Hnone by (intros r a b; unfold signed_where; simpl;
                           rewrite Hge, !andb_false_r; reflexivity).
        destruct (not_list pg), (not_list ng); reflexivity. }
      rewrite Hrels. split; reflexivity.
  - intros target metabolites. unfold run. rewrite get_metabolite_statements_eq.
    unfold metabolite_rows.
    rewrite Hnone by (intros r a b; unfold metabolite_where; simpl;
                      rewrite Hge, !andb_false_r; reflexivity).
    eexists. reflexivity.
Qed.

End Thresholds.

(** ** The signed and the metabolite retrieval on their rows *)

Lemma normalize_genes_length norm_id genes pg :
  normalize_genes norm_id genes = Ok pg → length pg = length genes.
Proof.
  unfold normalize_genes. revert pg. induction genes as [|g gs IH]; intros pg; simpl.
  - intros [= <-]. reflexivity.
  - destruct (py_index (PyStr.split colon g) 1) as [i|e]; simpl; [|discriminate].
    destruct (comprehension _ gs) as [l|e]; simpl; [|discriminate].
    intros [= <-]. simpl. f_equal. apply IH. reflexivity.
Qed.

Section Rows.

Variable norm_id : string → string → string.
Variable parse_metabolites : list string → list string * list string.

Lemma get_signed_statements_exact target pos neg mb me client log pg ng :
  normalize_genes norm_id pos = Ok pg →
  normalize_genes norm_id neg = Ok ng →
  PyStr.contains colon target = true →
  get_signed_statements norm_id target pos neg mb me client log
  = (Ok (result_of client
           (signed_flattened (target_entity signed_entity target).1 pg ng
              (target_entity signed_entity target).2 mb me client)),
     (log ++ signed_calls (target_entity signed_entity target).1 pg ng
               (target_entity signed_entity target).2 mb me
          ++ [enrich_call
                (signed_flattened (target_entity signed_entity target).1 pg ng
                   (target_entity signed_entity target).2 mb me client)])%list).
Proof.
  intros Hp Hn Ht. unfold target_entity.
  destruct (split_with_separator _ _ Ht) as (ns & idp & rest & Hsplit).
  rewrite Hsplit.
  apply (get_signed_statements_eq norm_id target pos neg mb me client log pg ng ns idp Hp Hn);
    unfold py_index; rewrite Hsplit; reflexivity.
Qed.

(** The signed retrieval returns, by hash, exactly the statements of the
    edges that match the positive query (when there are positive genes) or
    the negative query (when there are negative genes): deduplication loses
    no statement and adds none. *)
Theorem signed_returns_matching_statements target pos neg mb me client pg ng :
  normalize_genes norm_id pos = Ok pg →
  normalize_genes norm_id neg = Ok ng →
  PyStr.contains colon target = true →
  ∃ stmts evidence_counts log,
    run (get_signed_statements norm_id target pos neg mb me client)
    = (Ok (stmts, evidence_counts), log)
    ∧ ∀ h, In h (List.map get_hash stmts)
           ↔ ∃ r, In r (edges client) ∧ stmt_hash r = h
                  ∧ ((pos ≠ []
                      ∧ signed_match
                          (pos_params (target_entity signed_entity target).1 pg
                             (target_entity signed_entity target).2 mb me) r)
                     ∨ (neg ≠ []
                        ∧ signed_match
                            (neg_params (target_entity signed_entity target).1 ng
                               (target_entity signed_entity target).2 mb me) r)).
Proof.
  intros Hp Hn Ht. unfold run.
  rewrite (get_signed_statements_exact _ _ _ _ _ _ _ pg ng Hp Hn Ht).
  eexists _, _, _. split; [reflexivity|].
  intros h. simpl. rewrite stmts_of_hashes_In, in_map_iff.
  assert (Hpe : not_list pg = not_list pos).
  { apply normalize_genes_length in Hp. destruct pg, pos; simpl in *; congruence. }
  assert (Hne : not_list ng = not_list neg).
  { apply normalize_genes_length in Hn. destruct ng, neg; simpl in *; congruence. }
  unfold signed_flattened, signed_rows, signed_match. rewrite Hpe, Hne.
  split.
  - intros (r & Hh & Hr). exists r. apply in_app_iff in Hr.
    destruct Hr as [Hr | Hr].
    + destruct pos; [destruct Hr|]. simpl in Hr. apply match_undirected_In in Hr as [Hr Hm].
      split; [exact Hr|]. split; [exact Hh|]. left. split; [discriminate | exact Hm].
    + destruct neg; [destruct Hr|]. simpl in Hr. apply match_undirected_In in Hr as [Hr Hm].
      split; [exact Hr|]. split; [exact Hh|]. right. split; [discriminate | exact Hm].
  - intros (r & Hr & Hh & Hm). exists r. split; [exact Hh|]. apply in_app_iff.
    destruct Hm as [[Hne' Hm] | [Hne' Hm]]; [left | right].
    + destruct pos; [contradiction|]. simpl. apply match_undirected_In. auto.
    + destruct neg; [contradiction|]. simpl. apply match_undirected_In. auto.
Qed.


(** When no two retrieved relations share a statement hash, the signed
    retrieval pairs every statement with its own relation: the statements
    come in the order of the relations and each is recorded with the
    evidence count of its seed. *)
Theorem signed_aligned_without_duplicates target pos neg mb me client pg ng :
  normalize_genes norm_id pos = Ok pg →
  normalize_genes norm_id neg = Ok ng →
  PyStr.contains colon target = true →
  List.NoDup
    (List.map stmt_hash
       (signed_flattened (target_entity signed_entity target).1 pg ng
          (target_entity signed_entity target).2 mb me client)) →
  ∃ stmts evidence_counts log,
    run (get_signed_statements norm_id target pos neg mb me client)
    = (Ok (stmts, evidence_counts), log)
    ∧ List.map seed stmts
      = signed_flattened (target_entity signed_entity target).1 pg ng
          (target_entity signed_entity target).2 mb me client
    ∧ ∀ s, In s stmts →
           get_hash s = stmt_hash (seed s)
           ∧ evidence_counts !! get_hash s = Some (get_evidence_count (seed s)).
Proof.
  intros Hp Hn Ht Hnd. unfold run.
  rewrite (get_signed_statements_exact _ _ _ _ _ _ _ pg ng Hp Hn Ht).
  eexists _, _, _. split; [reflexivity|]. split.
  - apply stmts_of_seeds_distinct, Hnd.
  - intros s Hs. destruct (stmts_of_inv _ _ _ Hs) as (s0 & Hs0 & -> & ->).
    split; [rewrite (assemble_seed _ _ _ Hs0) at 1; reflexivity|].
    rewrite (assemble_seed _ _ _ Hs0) at 1. simpl.
    apply (proj2 (result_of_aligned client _ Hnd)).
    destruct (assemble_first _ _ _ Hs0) as (pre & post & Hk & _).
    rewrite Hk. apply in_or_app. right. left. reflexivity.
Qed.

End Rows.

(** ** Empty gene lists, and genes of both signs *)

Section Lists.

Variable norm_id : string → string → string.
Variable py_int : string → option Z.
Variable py_float : string → option float.

(** With no gene at all, which only a direct caller can pass, the signed
    retrieval sends no query to the graph and the over-representation
    retrieval sends one that nothing can match; both return no statement and
    an empty mapping after asking for the evidence of no statement. *)
Theorem retrieval_without_genes target mb me ds client :
  PyStr.contains colon target = true →
  run (get_signed_statements norm_id target [] [] mb me client)
  = (Ok ([], ∅), [EnrichQuery []])
  ∧ run (get_ora_statements norm_id target [] mb me ds client)
    = (Ok ([], ∅), [OraQuery ds (ora_params_of target [] mb); EnrichQuery []]).
Proof.
  intros Ht. split; unfold run.
  - rewrite (get_signed_statements_exact norm_id target [] [] mb me client [] [] []
               eq_refl eq_refl Ht).
    reflexivity.
  - rewrite (get_ora_statements_exact norm_id target [] mb me ds client [] [] eq_refl Ht).
    assert (Hnone : ora_paths client ds (ora_params_of target [] mb) = []).
    { unfold ora_paths.
      assert (Hg : op_genes (ora_params_of target [] mb) = []).
      { unfold ora_params_of. destruct (PyStr.split colon target) as [|? [|? ?]]; reflexivity. }
      rewrite Hg. induction (edges client) as [|r es IH]; simpl; [reflexivity|].
      rewrite IH. unfold ora_matches, ora_where. simpl.
      destruct ds; rewrite !andb_false_r; reflexivity. }
    rewrite Hnone. unfold ora_kept. simpl. destruct (truthy_int me); reflexivity.
Qed.

(** A relation that carries no evidence count is never returned by the
    over-representation retrieval under a positive minimum evidence, and
    every rendered statement of the endpoint has at least the minimum
    evidence of the request: by default 2, so that by default edges without
    a count, such as indication edges, never reach the page. *)
Theorem ora_positive_minimum_needs_count (args : Args) (client : Neo4jClient) (n : Z)
    (stmts : list Statement) (evidence_counts : gmap Z Z) (log : list call) :
  ora_minimum_evidence py_int args = Some n →
  0 < n →
  run (search_ora_statements norm_id py_int py_float args client)
  = (Ok (Rendered stmts evidence_counts), log) →
  ∀ s, In s stmts → ∃ e, evidence_count (seed s) = Some e ∧ n ≤ e.
Proof.
  intros Hn Hpos Hrun s Hs. unfold run, search_ora_statements in Hrun. rewrite Hn in Hrun.
  destruct (ora_minimum_belief py_float args) as [mb|]; [|discriminate].
  destruct (not_str (args_get args "target_id") || not_list (args_getlist args "genes"))%bool;
    [discriminate|].
  unfold catch, bind, ret in Hrun.
  match type of Hrun with
  | context [get_ora_statements norm_id ?t ?g ?b ?m ?d ?c []] =>
      destruct (get_ora_statements_shape norm_id t g b d c) as [(e & He) | (heads & _ & Heq)];
      [rewrite He in Hrun; discriminate | destruct (Heq m []) as [l' Hr]; rewrite Hr in Hrun]
  end.
  injection Hrun as <- _ _. simpl in Hs.
  destruct (stmts_of_inv _ _ _ Hs) as (s0 & Hs0 & _ & ->).
  destruct (assemble_first _ _ _ Hs0) as (pre & post & Hk & _).
  assert (Hin : In (seed s0) (ora_kept (Some n) heads)).
  { rewrite Hk. apply in_or_app. right. left. reflexivity. }
  apply ora_kept_In in Hin as [_ Hmin].
  assert (Ht : truthy_int (Some n) = true).
  { simpl. destruct (Z.eqb_spec n 0); [lia | reflexivity]. }
  specialize (Hmin Ht). simpl in Hmin. apply Z.leb_le in Hmin.
  unfold get_evidence_count in Hmin.
  destruct (evidence_count (seed s0)) as [e|]; simpl in Hmin; [eauto | lia].
Qed.

End Lists.

(** No edge between two different nodes is a row of both the positive and
    the negative query: the statement types of the two rows of the table
    exclude each other in each direction. *)
Theorem signs_exclude_each_other client nt pg ng rts rts' mb mb' me me' r :
  In r (signed_rows client (pos_params nt pg rts mb me)) →
  In r (signed_rows client (neg_params nt ng rts' mb' me')) →
  node_id (source r) = node_id (target r).
Proof.
  intros Hpos Hneg.
  apply signed_rows_restricted in Hpos. apply signed_rows_restricted in Hneg.
  unfold direction_restricted in *. simpl in *.
  destruct Hpos as [(_ & Ht & ty & Hty & Hin) | (Hs & _ & ty & Hty & Hin)];
    destruct Hneg as [(_ & Ht' & ty' & Hty' & Hin') | (Hs' & _ & ty' & Hty' & Hin')];
    try congruence;
    rewrite Hty in Hty'; injection Hty' as <-;
    exfalso; repeat (destruct Hin as [<- | Hin]; [simpl in Hin'; intuition discriminate|]);
    exact Hin.
Qed.

(** ** The properties above on the small graphs *)

Lemma signed_and_metabolite_reject_invalid_witness :
  (∃ error,
     run (search_signed_statements Sample.norm_id Sample.py_int Sample.py_float
            [("target_id", "MESH:D007239")] Sample.client)
     = (Ok (JsonError error 400), []))
  ∧ (∃ error,
       run (search_metabolite_statements Sample.parse_metabolites Sample.py_int
              Sample.py_float
              [("target_id", "1.1.1.1"); ("metabolites", "CHEBI:15377");
               ("minimum_belief", "high")] Sample.client)
       = (Ok (JsonError error 400), [])).
Proof.
  split.
  - apply (proj1 (signed_and_metabolite_reject_invalid Sample.norm_id
                    Sample.parse_metabolites Sample.py_int Sample.py_float _ _)).
    do 4 right. split; reflexivity.
  - apply (proj2 (signed_and_metabolite_reject_invalid Sample.norm_id
                    Sample.parse_metabolites Sample.py_int Sample.py_float _ _)).
    right. left. reflexivity.
Defined.

Lemma identifier_without_separator_by_endpoint_witness :
  run (search_ora_statements Sample.norm_id Sample.py_int Sample.py_float
         Fixtures.bare_target_args Sample.client)
  = (Ok (JsonError "list index out of range" 500), [])
  ∧ run (search_signed_statements Sample.norm_id Sample.py_int Sample.py_float
           Fixtures.bare_target_args Sample.client)
    = (Raise IndexError, []).
Proof.
  destruct (identifier_without_separator_by_endpoint Sample.norm_id
              Sample.parse_metabolites Sample.py_int Sample.py_float
              Fixtures.bare_target_args Sample.client "D007239" 2 0%float
              eq_refl ltac:(discriminate)) as (Hora & _ & _).
  destruct (identifier_without_separator_by_endpoint Sample.norm_id
              Sample.parse_metabolites Sample.py_int Sample.py_float
              Fixtures.bare_target_args Sample.client "D007239" 1 0%float
              eq_refl ltac:(discriminate)) as (_ & Hsigned & _).
  split.
  - apply Hora; [reflexivity | reflexivity | discriminate | left; reflexivity].
  - apply Hsigned; [reflexivity | reflexivity | left; discriminate | left; reflexivity].
Defined.

Lemma ora_returns_first_paths_witness :
  (run (get_ora_statements Sample.norm_id "MESH:D007239" ["HGNC:1"; "HGNC:2"] 0%float
          (Some 2) false Fixtures.uneven_client)).1 = Ok ([], ∅)
  ∧ ∃ stmts evidence_counts log,
      run (get_ora_statements Sample.norm_id "MESH:D007239" ["HGNC:1"; "HGNC:2"] 0%float
             (Some 2) false Fixtures.uneven_client) = (Ok (stmts, evidence_counts), log)
      ∧ (∀ r, In r (List.map seed stmts)
              ↔ first_with_hash
                  (ora_paths Fixtures.uneven_client false
                     (ora_params_of "MESH:D007239" ["hgnc:1"; "hgnc:2"] 0%float)) r
                ∧ (truthy_int (Some 2) = true → has_minimum_evidence (Some 2) r = true))
      ∧ List.NoDup (List.map get_hash stmts)
      ∧ (∀ s, In s stmts →
              get_hash s = stmt_hash (seed s)
              ∧ evidence_counts !! get_hash s = Some (get_evidence_count (seed s))).
Proof.
  split; [vm_compute; reflexivity|].
  apply (ora_returns_first_paths Sample.norm_id "MESH:D007239" ["HGNC:1"; "HGNC:2"] 0%float
           (Some 2) false Fixtures.uneven_client ["hgnc:1"; "hgnc:2"]); reflexivity.
Defined.

Lemma signed_returns_matching_statements_witness :
  ∃ stmts evidence_counts log,
    run (get_signed_statements Sample.norm_id "MESH:D007239" ["HGNC:1"; "HGNC:2"] [] 0%float
           (Some 1) Sample.client) = (Ok (stmts, evidence_counts), log)
    ∧ ∀ h, In h (List.map get_hash stmts)
           ↔ ∃ r, In r (edges Sample.client) ∧ stmt_hash r = h
                  ∧ ((["HGNC:1"; "HGNC:2"] ≠ []
                      ∧ signed_match
                          (pos_params (target_entity signed_entity "MESH:D007239").1
                             ["hgnc:1"; "hgnc:2"]
                             (target_entity signed_entity "MESH:D007239").2 0%float (Some 1)) r)
                     ∨ (@nil string ≠ []
                        ∧ signed_match
                            (neg_params (target_entity signed_entity "MESH:D007239").1 []
                               (target_entity signed_entity "MESH:D007239").2 0%float
                               (Some 1)) r)).
Proof.
  apply (signed_returns_matching_statements Sample.norm_id "MESH:D007239"
           ["HGNC:1"; "HGNC:2"] [] 0%float (Some 1) Sample.client ["hgnc:1"; "hgnc:2"] []);
    reflexivity.
Defined.

Lemma signed_aligned_without_duplicates_witness :
  ∃ stmts evidence_counts log,
    run (get_signed_statements Sample.norm_id "MESH:D007239" ["HGNC:1"] [] 0%float
           (Some 1) Fixtures.distinct_client) = (Ok (stmts, evidence_counts), log)
    ∧ List.map seed stmts
      = signed_flattened (target_entity signed_entity "MESH:D007239").1 ["hgnc:1"] []
          (target_entity signed_entity "MESH:D007239").2 0%float (Some 1)
          Fixtures.distinct_client
    ∧ ∀ s, In s stmts →
           get_hash s = stmt_hash (seed s)
           ∧ evidence_counts !! get_hash s = Some (get_evidence_count (seed s)).
Proof.
  apply (signed_aligned_without_duplicates Sample.norm_id "MESH:D007239" ["HGNC:1"] []
           0%float (Some 1) Fixtures.distinct_client ["hgnc:1"] []); try reflexivity.
  vm_compute. repeat constructor; simpl; intuition discriminate.
Defined.

Lemma retrieval_without_genes_witness :
  run (get_signed_statements Sample.norm_id "MESH:D007239" [] [] 0%float (Some 2)
         Sample.client) = (Ok ([], ∅), [EnrichQuery []])
  ∧ run (get_ora_statements Sample.norm_id "MESH:D007239" [] 0%float (Some 2) false
           Sample.client)
    = (Ok ([], ∅), [OraQuery false (ora_params_of "MESH:D007239" [] 0%float); EnrichQuery []]).
Proof.
  apply (retrieval_without_genes Sample.norm_id "MESH:D007239" 0%float). reflexivity.
Defined.

Lemma signs_exclude_each_other_witness :
  In Fixtures.self_inhibition
    (signed_rows Fixtures.loop_client
       (pos_params "hgnc:1" ["hgnc:1"] ["indra_rel"] 0%float (Some 1)))
  ∧ In Fixtures.self_inhibition
      (signed_rows Fixtures.loop_client
         (neg_params "hgnc:1" ["hgnc:1"] ["indra_rel"] 0%float (Some 1)))
  ∧ node_id (source Fixtures.self_inhibition) = node_id (target Fixtures.self_inhibition).
Proof.
  assert (Hpos : In Fixtures.self_inhibition
                   (signed_rows Fixtures.loop_client
                      (pos_params "hgnc:1" ["hgnc:1"] ["indra_rel"] 0%float (Some 1))))
    by (vm_compute; tauto).
  assert (Hneg : In Fixtures.self_inhibition
                   (signed_rows Fixtures.loop_client
                      (neg_params "hgnc:1" ["hgnc:1"] ["indra_rel"] 0%float (Some 1))))
    by (vm_compute; tauto).
  split; [exact Hpos|]. split; [exact Hneg|].
  exact (signs_exclude_each_other _ _ _ _ _ _ _ _ _ _ _ Hpos Hneg).
Defined.

Lemma ora_positive_minimum_needs_count_witness :
  (∃ stmts evidence_counts log,
     run (search_ora_statements Sample.norm_id Sample.py_int Sample.py_float
            Fixtures.default_args Fixtures.uneven_client)
     = (Ok (Rendered stmts evidence_counts), log)
     ∧ ∀ s, In s stmts → ∃ e, evidence_count (seed s) = Some e ∧ 2 ≤ e)
  ∧ (run (get_ora_statements Sample.norm_id "MESH:D007239" ["HGNC:1"; "HGNC:2"] 0%float
            None false Fixtures.uneven_client)).1
    = Ok (result_of Fixtures.uneven_client
            [Sample.indra Sample.disease (Sample.gene "1") "Activation" 11 0.75%float 1;
             Sample.indication]).
Proof.
  split; [|vm_compute; reflexivity].
  destruct (run (search_ora_statements Sample.norm_id Sample.py_int Sample.py_float
                   Fixtures.default_args Fixtures.uneven_client))
    as [[[stmts ec | error status] | e] log] eqn:E;
    try (vm_compute in E; discriminate E).
  exists stmts, ec, log. split; [reflexivity|].
  apply (ora_positive_minimum_needs_count Sample.norm_id Sample.py_int Sample.py_float
           Fixtures.default_args Fixtures.uneven_client 2 stmts ec log eq_refl
           ltac:(lia) E).
Defined.

(** ** The grounding endpoint *)



(** For an agent that Python takes for true the local grounder is tried
    once, and the remote service is contacted exactly when the local attempt
    raised an [ImportError].  The answer has status 500 only when the remote
    call raised after such an [ImportError]; every other failure of the
    local attempt is answered with status 200 and an error object whose
    message starts with ["Grounding failed: "]. *)
Theorem grounding_failures (g : Gilda.Grounders) (data : gmap string Gilda.json)
    (log : list Gilda.attempted) :
  Gilda.truthy (Gilda.get_agent data) = true →
  ∃ body status tried,
    Gilda.gilda_ground_endpoint g data log = ((body, status), (log ++ tried)%list)
    ∧ (tried = [Gilda.Local (Gilda.get_agent data)]
       ∨ tried = [Gilda.Local (Gilda.get_agent data); Gilda.Remote (Gilda.get_agent data)])
    ∧ (In (Gilda.Remote (Gilda.get_agent data)) tried
       ↔ ∃ e, Gilda.local_ground g (Gilda.get_agent data) = Gilda.Raised e
              ∧ Gilda.is_import_error e = true)
    ∧ (status = 200%nat ∨ status = 500%nat)
    ∧ (status = 500%nat
       ↔ ∃ e e', Gilda.local_ground g (Gilda.get_agent data) = Gilda.Raised e
                 ∧ Gilda.is_import_error e = true
                 ∧ Gilda.remote_ground g (Gilda.get_agent data) = Gilda.Raised e'
                 ∧ body = Gilda.error_object (Gilda.exn_str e'))
    ∧ (∀ e, Gilda.local_ground g (Gilda.get_agent data) = Gilda.Raised e →
            Gilda.is_import_error e = false →
            status = 200%nat
            ∧ body = Gilda.error_object ("Grounding failed: " ++ Gilda.exn_str e)%string).
Proof.
  intros Ht. unfold Gilda.gilda_ground_endpoint, Gilda.gilda_ground. rewrite Ht. simpl.
  destruct (Gilda.local_ground g (Gilda.get_agent data)) as [matches | e] eqn:Hlocal.
  - eexists _, _, _. split; [reflexivity|]. split; [left; reflexivity|].
    split; [|split; [left; reflexivity | split]].
    + split; [intros [H | []]; discriminate | intros (e & He & _); discriminate].
    + split; [discriminate | intros (e & e' & He & _); discriminate].
    + intros e He. discriminate.
  - destruct (Gilda.is_import_error e) eqn:Himport.
    + destruct (Gilda.remote_ground g (Gilda.get_agent data)) as [answer | e'] eqn:Hremote;
        (eexists _, _, _; split; [reflexivity|]; split; [right; reflexivity|]);
        (split; [split; [eauto | intros _; right; left; reflexivity]|]).
      * split; [left; reflexivity|]. split.
        -- split; [discriminate | intros (e1 & e2 & _ & _ & He2 & _); discriminate].
        -- intros e1 [= <-] He1. congruence.
      * split; [right; reflexivity|]. split.
        -- split; [intros _; exists e, e'; auto | reflexivity].
        -- intros e1 [= <-] He1. congruence.
    + eexists _, _, _. split; [reflexivity|]. split; [left; reflexivity|].
      split; [|split; [left; reflexivity | split]].
      * split; [intros [H | []]; discriminate | intros (e1 & [= <-] & He1); congruence].
      * split; [discriminate | intros (e1 & e2 & [= <-] & He1 & _); congruence].
      * intros e1 [= <-] _. split; reflexivity.
Qed.

Lemma grounding_failures_witness :
  Gilda.gilda_ground_endpoint Gilda.installed {[ "agent" := Gilda.JInt 7 ]} []
  = ((Gilda.error_object "Grounding failed: expected a string", 200%nat),
     [Gilda.Local (Gilda.JInt 7)])
  ∧ Gilda.gilda_ground_endpoint Gilda.not_installed_remote_down
      {[ "agent" := Gilda.JStr "BRAF" ]} []
    = ((Gilda.error_object "Connection refused", 500%nat),
       [Gilda.Local (Gilda.JStr "BRAF"); Gilda.Remote (Gilda.JStr "BRAF")])
  ∧ ∃ body status tried,
      Gilda.gilda_ground_endpoint Gilda.installed {[ "agent" := Gilda.JStr "BRAF" ]} []
      = ((body, status), ([] ++ tried)%list)
      ∧ status = 200%nat.
Proof.
  split; [reflexivity|]. split; [reflexivity|].
  assert (Ht : Gilda.truthy (Gilda.get_agent {[ "agent" := Gilda.JStr "BRAF" ]}) = true)
    by (vm_compute; reflexivity).
  destruct (grounding_failures Gilda.installed {[ "agent" := Gilda.JStr "BRAF" ]} [] Ht)
    as (body & status & tried & Heq & _ & _ & _ & H500 & _).
  exists body, status, tried. split; [exact Heq|].
  vm_compute in Heq. injection Heq as _ <- _. reflexivity.
Defined.

(** ** The search page *)

Section SearchGet.

Variable decode_pair : string → outcome (Gilda.json * Gilda.json).
Variable get_statements : SearchPage.StatementQuery → list Statement * gmap Z Z.

Lemma text_or_tuple_raises args key key_tuple t e :
  args_get args key_tuple = Some t → t ≠ EmptyString → decode_pair t = Raise e →
  SearchPage.text_or_tuple decode_pair args key key_tuple = Raise e.
Proof.
  intros Ht Hne He. unfold SearchPage.text_or_tuple. rewrite Ht.
  destruct t; [contradiction|]. simpl. rewrite He. reflexivity.
Qed.

Lemma text_or_tuple_not_given args key key_tuple :
  not_str (args_get args key) = true → not_str (args_get args key_tuple) = true →
  ∃ x, SearchPage.text_or_tuple decode_pair args key key_tuple = Ok x
       ∧ SearchPage.given x = false.
Proof.
  intros Hk Ht. unfold SearchPage.text_or_tuple.
  assert (Hx : SearchPage.given (SearchPage.Text <$> args_get args key) = false).
  { destruct (args_get args key) as [s|]; simpl in *; [rewrite Hk|]; reflexivity. }
  destruct (args_get args key_tuple) as [t|]; [|eauto].
  simpl in Ht. rewrite Ht. eauto.
Qed.

(** A request that names no agent, no other agent and no relation type is
    answered with the form and no statement is queried, whatever paper,
    MeSH term or source type it gives. *)
Theorem search_needs_agent_or_type (args : Args) (log : list SearchPage.StatementQuery)
    (mesh : option SearchPage.term) :
  not_str (args_get args "agent") = true →
  not_str (args_get args "agent_tuple") = true →
  not_str (args_get args "other_agent") = true →
  not_str (args_get args "other_agent_tuple") = true →
  args_getlist args "rel_types" = [] →
  SearchPage.text_or_tuple decode_pair args "mesh_terms" "mesh_tuple" = Ok mesh →
  SearchPage.search_get decode_pair get_statements args log = (Ok SearchPage.Form, log).
Proof.
  intros Ha Hat Ho Hot Hr Hm. unfold SearchPage.search_get.
  destruct (text_or_tuple_not_given args "agent" "agent_tuple" Ha Hat) as (a & -> & Hga).
  destruct (text_or_tuple_not_given args "other_agent" "other_agent_tuple" Ho Hot)
    as (o & -> & Hgo).
  rewrite Hm, Hga, Hgo, Hr. reflexivity.
Qed.

(** A tuple in the request replaces the text of the same field: with a
    decodable agent tuple exactly one query is made, for the decoded pair
    whatever the agent text says, and always with the limits 1000 for
    statements and for evidence. *)
Theorem search_tuple_takes_precedence (args : Args) (log : list SearchPage.StatementQuery)
    (t : string) (source_db source_id : Gilda.json)
    (other mesh : option SearchPage.term) :
  args_get args "agent_tuple" = Some t →
  t ≠ EmptyString →
  decode_pair t = Ok (source_db, source_id) →
  SearchPage.text_or_tuple decode_pair args "other_agent" "other_agent_tuple" = Ok other →
  SearchPage.text_or_tuple decode_pair args "mesh_terms" "mesh_tuple" = Ok mesh →
  ∃ query,
    SearchPage.search_get decode_pair get_statements args log
    = (Ok (SearchPage.Statements (get_statements query).1 (get_statements query).2),
       (log ++ [query])%list)
    ∧ SearchPage.agent query = Some (SearchPage.Pair source_db source_id)
    ∧ SearchPage.other_agent query = other
    ∧ SearchPage.mesh_term query = mesh
    ∧ SearchPage.limit query = 1000
    ∧ SearchPage.evidence_limit query = 1000.
Proof.
  intros Ht Hne Hd Ho Hm. unfold SearchPage.search_get.
  assert (Ha : SearchPage.text_or_tuple decode_pair args "agent" "agent_tuple"
               = Ok (Some (SearchPage.Pair source_db source_id))).
  { unfold SearchPage.text_or_tuple. rewrite Ht. destruct t; [contradiction|].
    simpl. rewrite Hd. reflexivity. }
  rewrite Ha, Ho, Hm. simpl.
  eexists. destruct (get_statements _) as [stmts ec] eqn:Hg.
  split; [rewrite Hg; reflexivity|]. repeat split.
Qed.

(** A tuple that cannot be decoded makes the page fail before any query,
    also when it is the MeSH tuple of a request that names an agent. *)
Theorem search_malformed_tuple (args : Args) (log : list SearchPage.StatementQuery)
    (key_tuple t : string) (e : exn) :
  In key_tuple ["agent_tuple"; "other_agent_tuple"; "mesh_tuple"] →
  args_get args key_tuple = Some t →
  t ≠ EmptyString →
  decode_pair t = Raise e →
  ∃ e', SearchPage.search_get decode_pair get_statements args log = (Raise e', log).
Proof.
  intros Hkey Ht Hne He. unfold SearchPage.search_get.
  destruct (SearchPage.text_or_tuple decode_pair args "agent" "agent_tuple")
    as [a|e1] eqn:Ha; [|eauto].
  destruct (SearchPage.text_or_tuple decode_pair args "other_agent" "other_agent_tuple")
    as [o|e2] eqn:Ho; [|eauto].
  destruct (SearchPage.text_or_tuple decode_pair args "mesh_terms" "mesh_tuple")
    as [m|e3] eqn:Hm; [|eauto].
  exfalso. simpl in Hkey.
  destruct Hkey as [<- | [<- | [<- | []]]].
  - rewrite (text_or_tuple_raises args "agent" _ t e Ht Hne He) in Ha. discriminate.
  - rewrite (text_or_tuple_raises args "other_agent" _ t e Ht Hne He) in Ho. discriminate.
  - rewrite (text_or_tuple_raises args "mesh_terms" _ t e Ht Hne He) in Hm. discriminate.
Qed.

End SearchGet.

Lemma search_needs_agent_or_type_witness :
  SearchPage.search_get SearchPage.decode_pair SearchPage.no_statements
    [("paper_id", "PMID:12345"); ("mesh_terms", "D007239"); ("source_type", "reach")] []
  = (Ok SearchPage.Form, []).
Proof.
  apply (search_needs_agent_or_type SearchPage.decode_pair SearchPage.no_statements _ []
           (Some (SearchPage.Text "D007239"))); reflexivity.
Defined.

Lemma search_tuple_takes_precedence_witness :
  ∃ query,
    SearchPage.search_get SearchPage.decode_pair SearchPage.no_statements
      [("agent", "braf"); ("agent_tuple", SearchPage.braf_tuple)] []
    = (Ok (SearchPage.Statements (SearchPage.no_statements query).1
             (SearchPage.no_statements query).2), ([] ++ [query])%list)
    ∧ SearchPage.agent query
      = Some (SearchPage.Pair (Gilda.JStr "HGNC") (Gilda.JStr "1097"))
    ∧ SearchPage.other_agent query = None
    ∧ SearchPage.mesh_term query = None
    ∧ SearchPage.limit query = 1000
    ∧ SearchPage.evidence_limit query = 1000.
Proof.
  apply (search_tuple_takes_precedence SearchPage.decode_pair SearchPage.no_statements _ []
           SearchPage.braf_tuple); try reflexivity. discriminate.
Defined.

Lemma search_malformed_tuple_witness :
  ∃ e', SearchPage.search_get SearchPage.decode_pair SearchPage.no_statements
          [("agent", "braf"); ("mesh_tuple", "D007239")] []
        = (Raise e', []).
Proof.
  apply (search_malformed_tuple SearchPage.decode_pair SearchPage.no_statements _ []
           "mesh_tuple" "D007239" ValueError);
    [right; right; left; reflexivity | reflexivity | discriminate | reflexivity].
Defined.

(** ** The command line of the sources *)

Section CliMain.

Variable N : Type.
Variable assemble_and_sort : list N → list N.

Lemma fold_visit load_only force ps st :
  let st' := fold_left (Cli.visit N load_only force) ps st in
  Cli.paths N st'
  = (Cli.paths N st
     ++ List.map (λ p, (Cli.nodes_path p, Cli.edges_path p))
          (List.filter Cli.importable ps))%list
  ∧ Cli.added N st'
    = (Cli.added N st
       ++ List.flat_map Cli.get_nodes
            (if load_only then [] else Cli.to_process force ps))%list
  ∧ Cli.events N st'
    = (Cli.events N st ++ List.flat_map (Cli.visit_events load_only force) ps)%list.
Proof.
  revert st. induction ps as [|p ps IH]; intros st; simpl.
  - destruct load_only; rewrite !app_nil_r; auto.
  - destruct (IH (Cli.visit N load_only force st p)) as (Hp & Ha & He).
    rewrite Hp, Ha, He. clear IH Hp Ha He.
    unfold Cli.visit, Cli.to_process, Cli.visit_events. simpl.
    destruct (Cli.importable p); simpl; [|destruct load_only; auto].
    destruct load_only; simpl.
    + rewrite <- !app_assoc. auto.
    + destruct (force || negb (Cli.nodes_is_file p) || negb (Cli.edges_is_file p))%bool;
        simpl; rewrite <- !app_assoc; auto.
Qed.

Lemma fold_add_relationships (edge_paths : list (string * string)) (command : string) :
  fold_left (λ command path, Cli.add_relationships command path.2) edge_paths command
  = fold_left Cli.add_relationships (List.map snd edge_paths) command.
Proof.
  revert command. induction edge_paths as [|p ps IH]; intros command; simpl;
    [reflexivity | apply IH].
Qed.

Lemma main_events load load_only force ps :
  Cli.main N assemble_and_sort load load_only force ps
  = (List.flat_map (Cli.visit_events load_only force) ps
     ++ [Cli.DumpedAssembled
           (assemble_and_sort
              (List.flat_map Cli.get_nodes
                 (if load_only then [] else Cli.to_process force ps)))]
     ++ (if load || load_only
         then [Cli.System
                 (Cli.command_for
                    (List.map Cli.edges_path (List.filter Cli.importable ps)))]
         else []))%list.
Proof.
  unfold Cli.main.
  destruct (fold_visit load_only force ps
              {| Cli.paths := []; Cli.added := []; Cli.events := [] |}) as (Hp & Ha & He).
  simpl in Hp, Ha, He. rewrite Hp, Ha, He, fold_add_relationships, map_map. simpl.
  unfold Cli.command_for.
  destruct (load || load_only)%bool; rewrite <- ?app_assoc; reflexivity.
Qed.

(** With [--load_only] no source is processed, whatever [--force] says; the
    assembled node table is nevertheless written again, from an assembler
    that received no node; and the import command is run once, naming the
    edge table of every importable processor in the order of the registry. *)
Theorem load_only_processes_nothing (load force : bool) (ps : list (Cli.Processor N)) :
  let events := Cli.main N assemble_and_sort load true force ps in
  (∀ name, ¬ In (Cli.Processed name) events)
  ∧ events
    = (List.map (λ p, Cli.Checking (Cli.name p)) (List.filter Cli.importable ps)
       ++ [Cli.DumpedAssembled (assemble_and_sort []);
           Cli.System
             (Cli.command_for (List.map Cli.edges_path (List.filter Cli.importable ps)))])%list.
Proof.
  simpl.
  assert (Hev : List.flat_map (Cli.visit_events true force) ps
                = List.map (λ p, Cli.Checking (Cli.name p)) (List.filter Cli.importable ps)).
  { induction ps as [|p ps IH]; simpl; [reflexivity|]. rewrite IH. unfold Cli.visit_events.
    destruct (Cli.importable p); reflexivity. }
  assert (Heq : Cli.main N assemble_and_sort load true force ps
                = (List.map (λ p, Cli.Checking (Cli.name p)) (List.filter Cli.importable ps)
                   ++ [Cli.DumpedAssembled (assemble_and_sort []);
                       Cli.System
                         (Cli.command_for
                            (List.map Cli.edges_path (List.filter Cli.importable ps)))])%list).
  { rewrite main_events, Hev, orb_true_r. reflexivity. }
  split; [|exact Heq].
  intros name Hin. rewrite Heq in Hin. apply in_app_iff in Hin as [Hin | Hin].
  - apply in_map_iff in Hin as (p & Hp & _). discriminate.
  - destruct Hin as [Hin | [Hin | []]]; discriminate.
Qed.

(** Without [--load_only] a source is processed exactly when it is
    importable and is forced or lacks one of its two tables, and the
    assembled node table holds the nodes of the processed sources only: a
    source whose tables are both on disk contributes no node unless
    [--force] is given.  The import command is run exactly when [--load] is
    given. *)
Theorem assembled_nodes_of_processed_sources (load force : bool)
    (ps : list (Cli.Processor N)) :
  let events := Cli.main N assemble_and_sort load false force ps in
  In (Cli.DumpedAssembled
        (assemble_and_sort (List.flat_map Cli.get_nodes (Cli.to_process force ps)))) events
  ∧ (∀ nodes, In (Cli.DumpedAssembled nodes) events →
              nodes = assemble_and_sort
                        (List.flat_map Cli.get_nodes (Cli.to_process force ps)))
  ∧ (∀ name, In (Cli.Processed name) events
             ↔ In name (List.map Cli.name (Cli.to_process force ps)))
  ∧ (∀ command, In (Cli.System command) events
                ↔ load = true
                  ∧ command
                    = Cli.command_for
                        (List.map Cli.edges_path (List.filter Cli.importable ps))).
Proof.
  simpl. rewrite main_events, orb_false_r.
  assert (Hev : ∀ e, In e (List.flat_map (Cli.visit_events false force) ps) →
                     (∃ p, In p ps ∧ Cli.importable p = true ∧ e = Cli.Checking (Cli.name p))
                     ∨ (∃ p, In p (Cli.to_process force ps) ∧ e = Cli.Processed (Cli.name p))).
  { intros e He. apply in_flat_map in He as (p & Hp & He). unfold Cli.visit_events in He.
    destruct (Cli.importable p) eqn:Hi; [|destruct He].
    destruct He as [<- | He]; [left; eauto|].
    simpl in He.
    destruct (force || negb (Cli.nodes_is_file p) || negb (Cli.edges_is_file p))%bool eqn:Hf;
      [|destruct He].
    destruct He as [<- | []]. right. exists p. split; [|reflexivity].
    apply filter_In. rewrite Hi, Hf. auto. }
  split; [|split; [|split]].
  - apply in_or_app. right. left. reflexivity.
  - intros nodes Hin. apply in_app_iff in Hin as [Hin | [Hin | Hin]].
    + apply Hev in Hin as [(p & _ & _ & Hp) | (p & _ & Hp)]; discriminate.
    + injection Hin as <-. reflexivity.
    + destruct load; [destruct Hin as [Hin | []]; discriminate | destruct Hin].
  - intros name. split.
    + intros Hin. apply in_app_iff in Hin as [Hin | [Hin | Hin]].
      * apply Hev in Hin as [(p & _ & _ & Hp) | (p & Hp & He)]; [discriminate|].
        injection He as ->. apply in_map, Hp.
      * discriminate.
      * destruct load; [destruct Hin as [Hin | []]; discriminate | destruct Hin].
    + intros Hin. apply in_map_iff in Hin as (p & <- & Hp).
      apply in_or_app. left. apply in_flat_map. exists p.
      apply filter_In in Hp as [Hp Hc]. apply andb_prop in Hc as [Hi Hf].
      split; [exact Hp|]. unfold Cli.visit_events. rewrite Hi. simpl. rewrite Hf.
      right. left. reflexivity.
  - intros command. split.
    + intros Hin. apply in_app_iff in Hin as [Hin | [Hin | Hin]].
      * apply Hev in Hin as [(p & _ & _ & Hp) | (p & _ & Hp)]; discriminate.
      * discriminate.
      * destruct load; [|destruct Hin]. destruct Hin as [Hin | []].
        injection Hin as <-. split; reflexivity.
    + intros [-> ->]. apply in_or_app. right. right. left. reflexivity.
Qed.

End CliMain.

(** ** Further runs on the small graphs *)

Lemma recorded_counts_meet_threshold_witness :
  match run (get_signed_statements Sample.norm_id "MESH:D007239" ["HGNC:1"; "HGNC:2"] []
               0%float (Some 5) Sample.client) with
  | (Ok (stmts, evidence_counts), _) =>
      evidence_counts !! 22 = Some 5 ∧ 5 ≤ 5
  | (Raise _, _) => False
  end.
Proof.
  destruct (run (get_signed_statements Sample.norm_id "MESH:D007239" ["HGNC:1"; "HGNC:2"] []
                   0%float (Some 5) Sample.client))
    as [[[stmts ec]|e] log] eqn:E; [|vm_compute in E; discriminate E].
  assert (Hl : ec !! 22 = Some 5).
  { vm_compute in E. injection E as _ <- _. reflexivity. }
  split; [exact Hl|].
  exact (proj1 (proj2 (recorded_counts_meet_threshold Sample.norm_id
                         Sample.parse_metabolites Sample.client 0%float 5))
           _ _ _ _ _ _ 22 5 E Hl).
Defined.

Lemma no_minimum_evidence_witness :
  match run (get_signed_statements Sample.norm_id "MESH:D007239" ["HGNC:1"; "HGNC:2"] []
               0%float None Sample.client) with
  | (Ok (stmts, evidence_counts), log) =>
      stmts = [] ∧ evidence_counts = ∅ ∧ length log = 2%nat
  | (Raise _, _) => False
  end.
Proof.
  destruct (run (get_signed_statements Sample.norm_id "MESH:D007239" ["HGNC:1"; "HGNC:2"] []
                   0%float None Sample.client))
    as [[[stmts ec]|e] log] eqn:E; [|vm_compute in E; discriminate E].
  destruct (proj1 (proj2 (no_minimum_evidence Sample.norm_id Sample.parse_metabolites
                            Sample.client 0%float)) _ _ _ _ _ _ E) as [Hs He].
  split; [exact Hs|]. split; [exact He|].
  vm_compute in E. injection E as _ _ <-. reflexivity.
Defined.


Lemma statements_monotone_witness :
  match run (get_signed_statements Sample.norm_id "MESH:D007239" ["HGNC:1"; "HGNC:2"] []
               0%float (Some (5 + 1)) Sample.client),
        run (get_signed_statements Sample.norm_id "MESH:D007239" ["HGNC:1"; "HGNC:2"] []
               0%float (Some 5) Sample.client) with
  | (Ok (stmts', _), _), (Ok (stmts, _), _) =>
      In 22 (List.map get_hash stmts') ∧ In 22 (List.map get_hash stmts)
  | _, _ => False
  end.
Proof.
  destruct (run (get_signed_statements Sample.norm_id "MESH:D007239" ["HGNC:1"; "HGNC:2"] []
                   0%float (Some (5 + 1)) Sample.client))
    as [[[stmts' ec']|e'] log'] eqn:E'; [|vm_compute in E'; discriminate E'].
  destruct (run (get_signed_statements Sample.norm_id "MESH:D007239" ["HGNC:1"; "HGNC:2"] []
                   0%float (Some 5) Sample.client))
    as [[[stmts ec]|e] log] eqn:E; [|vm_compute in E; discriminate E].
  assert (H22 : In 22 (List.map get_hash stmts')).
  { vm_compute in E'. injection E' as <- _ _. left. reflexivity. }
  split; [exact H22|].
  exact (proj1 (statements_monotone Sample.norm_id Sample.parse_metabolites Sample.client
                  0%float 5) _ _ _ _ _ _ _ _ _ E' E 22 H22).
Defined.

Lemma seeds_above_threshold_witness :
  match run (get_signed_statements Sample.norm_id "MESH:D007239" ["HGNC:1"; "HGNC:2"] []
               0.25%float (Some 1) Sample.client) with
  | (Ok (stmts, _), _) =>
      List.map get_hash stmts = [11; 22]
      ∧ Forall (λ s, cy_gt (belief (seed s)) 0.25%float = true) stmts
  | (Raise _, _) => False
  end.
Proof.
  destruct (run (get_signed_statements Sample.norm_id "MESH:D007239" ["HGNC:1"; "HGNC:2"] []
                   0.25%float (Some 1) Sample.client))
    as [[[stmts ec]|e] log] eqn:E; [|vm_compute in E; discriminate E].
  split.
  - vm_compute in E. injection E as <- _ _. reflexivity.
  - apply List.Forall_forall. intros s Hs.
    exact (proj1 (proj2 (seeds_above_threshold Sample.norm_id Sample.parse_metabolites
                           Sample.client 0.25%float)) _ _ _ _ _ _ _ s E Hs).
Defined.

Lemma load_only_processes_nothing_witness :
  Cli.main string (λ nodes, nodes) false true true Cli.registry
  = [Cli.Checking "go"; Cli.Checking "reactome"; Cli.DumpedAssembled [];
     Cli.System (Cli.command_for ["go/edges.tsv.gz"; "reactome/edges.tsv.gz"])].
Proof.
  exact (proj2 (load_only_processes_nothing string (λ nodes, nodes) false true Cli.registry)).
Defined.

Lemma assembled_nodes_of_processed_sources_witness :
  In (Cli.DumpedAssembled ["REACTOME:R-HSA-1"; "HGNC:1"])
    (Cli.main string (λ nodes, nodes) true false false Cli.registry)
  ∧ In (Cli.System (Cli.command_for ["go/edges.tsv.gz"; "reactome/edges.tsv.gz"]))
      (Cli.main string (λ nodes, nodes) true false false Cli.registry).
Proof.
  destruct (assembled_nodes_of_processed_sources string (λ nodes, nodes) true false
              Cli.registry) as (Hdump & _ & _ & Hsys).
  split; [exact Hdump|].
  apply Hsys. split; reflexivity.
Defined.

(** ** Normalisation of the target, and empty thresholds *)




(** A minimum evidence that is present but empty is replaced by the default
    2 in the over-representation endpoint, whereas the signed and the
    metabolite endpoint hand the empty string to [int] and answer 400 when
    that raises. *)
Theorem empty_minimum_evidence_by_endpoint (norm_id : string → string → string)
    (parse_metabolites : list string → list string * list string)
    (py_int : string → option Z) (py_float : string → option float)
    (args : Args) (client : Neo4jClient) :
  args_get args "minimum_evidence" = Some EmptyString →
  py_int EmptyString = None →
  ora_minimum_evidence py_int args = Some 2
  ∧ run (search_signed_statements norm_id py_int py_float args client)
    = (Ok (JsonError "Invalid parameter values" 400), [])
  ∧ run (search_metabolite_statements parse_metabolites py_int py_float args client)
    = (Ok (JsonError "Invalid parameter values" 400), []).
Proof.
  intros Hme Hint. split; [|split].
  - unfold ora_minimum_evidence, int_or. rewrite Hme. reflexivity.
  - unfold run, search_signed_statements, signed_minimum_evidence.
    rewrite Hme. simpl. rewrite Hint. reflexivity.
  - unfold run, search_metabolite_statements, metabolite_minimum_evidence.
    rewrite Hme. simpl. rewrite Hint. reflexivity.
Qed.

Lemma empty_minimum_evidence_by_endpoint_witness :
  ora_minimum_evidence Sample.py_int
    [("target_id", "MESH:D007239"); ("minimum_evidence", EmptyString)] = Some 2
  ∧ run (search_signed_statements Sample.norm_id Sample.py_int Sample.py_float
           [("target_id", "MESH:D007239"); ("minimum_evidence", EmptyString)] Sample.client)
    = (Ok (JsonError "Invalid parameter values" 400), [])
  ∧ run (search_metabolite_statements Sample.parse_metabolites Sample.py_int Sample.py_float
           [("target_id", "MESH:D007239"); ("minimum_evidence", EmptyString)] Sample.client)
    = (Ok (JsonError "Invalid parameter values" 400), []).
Proof.
  apply (empty_minimum_evidence_by_endpoint Sample.norm_id Sample.parse_metabolites
           Sample.py_int Sample.py_float); reflexivity.
Defined.
